(** * Menu / SubMenu / Dish REST API: handler logic of [main.py] and
    [main_asyncio.py] over an explicit database state.

    The two Python files hold one handler per route.  Every handler opens a
    session, runs a few queries, performs at most one mutation and returns a
    [JSONResponse], raises an [HTTPException], falls off its end (Python
    then returns [None]), or ends in an exception of a library call that it
    does not catch.  Here a handler is a function from the database state
    to an outcome and the next database state. *)

From Stdlib Require Import List String Ascii ZArith NArith Bool Lia Decimal DecimalString.
Import ListNotations.
Local Open Scope string_scope.
Set Warnings "-register-all".

(** ** Identifiers

    Path parameters arrive as [str] and every response renders a key with
    [str(row.id)]; a key is modelled by its text form. *)
Definition ident := string.

(** ** Python's [decimal.Decimal], as far as the handlers use it

    A finite decimal is sign, coefficient and exponent:
    [(-1)^sign * coeff * 10^exp]. *)
Module Decimal.

Record t := mk { sign : bool; coeff : N; exp : Z }.

(** The digits of the coefficient, as [Decimal._int]. *)
Definition digits (c : N) : string := NilZero.string_of_uint (N.to_uint c).

Fixpoint zeros (n : nat) : string :=
  match n with
  | O => EmptyString
  | S k => String "0" (zeros k)
  end.

Fixpoint take (n : nat) (s : string) : string :=
  match n, s with
  | S k, String c r => String c (take k r)
  | _, _ => EmptyString
  end.

Fixpoint drop (n : nat) (s : string) : string :=
  match n, s with
  | S k, String _ r => drop k r
  | _, _ => s
  end.

(** [_rescale] with [ROUND_HALF_EVEN] (the default context): the value
    with exponent [e], digits beyond it rounded half to even. *)
Definition rescale (d : t) (e : Z) : t :=
  if (e <=? exp d)%Z
  then mk (sign d) (coeff d * 10 ^ Z.to_N (exp d - e)) e
  else
    let p := (10 ^ Z.to_N (e - exp d))%N in
    let q := (coeff d / p)%N in
    let r := (coeff d mod p)%N in
    let up := orb (p <? 2 * r)%N (andb (2 * r =? p)%N (N.odd q)) in
    mk (sign d) (if up then q + 1 else q)%N e.

(** The default context: [prec], [Emax], [Emin] and
    [Etiny() = Emin - prec + 1]. *)
Definition prec : Z := 28.
Definition Emax : Z := 999999.
Definition Emin : Z := -999999.
Definition Etiny : Z := Emin - prec + 1.

(** [len(self._int)] *)
Definition ndigits (c : N) : Z := Z.of_nat (String.length (digits c)).

(** [adjusted()]: the exponent of the leading digit. *)
Definition adjusted (d : t) : Z := exp d + ndigits (coeff d) - 1.

(** [quantize] to the exponent [e] in the default context.  The context
    traps [InvalidOperation]: [None] stands for that exception, raised
    when the target exponent is out of bounds or the result would need
    more than [prec] digits.  The closing [_fix] changes nothing on a
    result that passed these checks. *)
Definition quantize (d : t) (e : Z) : option t :=
  if negb (andb (Etiny <=? e)%Z (e <=? Emax)%Z) then None
  else if (coeff d =? 0)%N then Some (mk (sign d) 0 e)
  else if (Emax <? adjusted d)%Z then None
  else if (prec <? adjusted d - e + 1)%Z then None
  else
    let ans := rescale d e in
    if (Emax <? adjusted ans)%Z then None
    else if (prec <? ndigits (coeff ans))%Z then None
    else Some ans.

(** [round(d, n)] is [d.quantize(Decimal((0, (1,), -n)))]. *)
Definition round (d : t) (n : Z) : option t := quantize d (- n).

(** [==] on two finite decimals: equal values, whatever the exponents;
    [0] equals [-0]. *)
Definition eqb (a b : t) : bool :=
  let e := Z.min (exp a) (exp b) in
  let ca := (coeff a * 10 ^ Z.to_N (exp a - e))%N in
  let cb := (coeff b * 10 ^ Z.to_N (exp b - e))%N in
  andb (ca =? cb)%N (orb (ca =? 0)%N (Bool.eqb (sign a) (sign b))).

(** ["%+d" % z] *)
Definition signed (z : Z) : string :=
  match z with
  | Z0 => "+0"
  | Zpos p => "+" ++ digits (Npos p)
  | Zneg p => "-" ++ digits (Npos p)
  end.

(** [Decimal.__str__] (scientific notation, [eng=False]). *)
Definition str (d : t) : string :=
  let int_ := digits (coeff d) in
  let len := Z.of_nat (String.length int_) in
  let leftdigits := (exp d + len)%Z in
  let dotplace :=
    if andb (exp d <=? 0)%Z (-6 <? leftdigits)%Z then leftdigits else 1%Z in
  let intpart :=
    if (dotplace <=? 0)%Z then "0"
    else if (len <=? dotplace)%Z then int_ ++ zeros (Z.to_nat (dotplace - len))
    else take (Z.to_nat dotplace) int_ in
  let fracpart :=
    if (dotplace <=? 0)%Z then "." ++ zeros (Z.to_nat (- dotplace)) ++ int_
    else if (len <=? dotplace)%Z then ""
    else "." ++ drop (Z.to_nat dotplace) int_ in
  let exp_ :=
    if (leftdigits =? dotplace)%Z then "" else "E" ++ signed (leftdigits - dotplace) in
  (if sign d then "-" else "") ++ intpart ++ fracpart ++ exp_.

End Decimal.

(** ** Rows of the three tables ([models.py]: [Menu], [SubMenu], [Dish]) *)
Module Menu.
Record t := mk { id : ident; title : string; description : string }.
End Menu.

Module SubMenu.
Record t := mk { id : ident; title : string; description : string; menu_id : ident }.
End SubMenu.

Module Dish.
Record t := mk { id : ident; title : string; description : string;
                 price : Decimal.t; submenu_id : ident }.
End Dish.

(** ** Request bodies ([schemas/]) *)
Module MenuSchemaAdd.
Record t := mk { title : string; description : string }.
End MenuSchemaAdd.

Module MenuSchemaUpdate.
Record t := mk { title : string; description : string }.
End MenuSchemaUpdate.

Module SubMenuSchemaAdd.
Record t := mk { title : string; description : string }.
End SubMenuSchemaAdd.

Module SubMenuSchemaUpdate.
Record t := mk { title : string; description : string }.
End SubMenuSchemaUpdate.

Module DishSchemaAdd.
Record t := mk { title : string; description : string; price : Decimal.t }.
End DishSchemaAdd.

Module DishSchemaUpdate.
Record t := mk { title : string; description : string; price : Decimal.t }.
End DishSchemaUpdate.

(** ** The database

    Modelled from the spec: the engine and [models.py] are not among the
    sources.  A table is the list of its rows in insertion order, a scan
    returns them in that order, and a column keeps the value that is
    written to it. *)
Record DB := mkDB {
  menus : list Menu.t;
  submenus : list SubMenu.t;
  dishes : list Dish.t
}.

Definition empty_db : DB := mkDB [] [] [].

(** ** JSON content of a response *)
Inductive json :=
| JString (s : string)
| JInt (n : Z)
| JObject (fields : list (string * json))
| JArray (items : list json).

(** ** What a handler call ends in *)
Inductive exn :=
| MultipleResultsFound   (* raised by [scalar_one_or_none] *)
| TypeError              (* [int(None)] *)
| InvalidOperation.      (* [decimal.InvalidOperation], raised by [round] *)

Inductive Outcome :=
| JSONResponse (content : json) (status_code : Z)
| HTTPException (status_code : Z) (detail : string)
| ReturnedNone
| Uncaught (e : exn).

(** ** Query results *)

(** [Query.first()] *)
Definition first {A} (rows : list A) : option A := hd_error rows.

(** [Result.scalar_one_or_none()]: no row gives [None], one row gives it,
    more rows raise [MultipleResultsFound]. *)
Definition scalar_one_or_none {A} (rows : list A) : exn + option A :=
  match rows with
  | [] => inr None
  | [r] => inr (Some r)
  | _ :: _ :: _ => inl MultipleResultsFound
  end.

(** [.offset(skip).limit(limit)]; [skip] and [limit] are taken from the
    natural numbers, negative values are not modelled. *)
Definition q_offset {A} (skip : nat) (rows : list A) : list A := skipn skip rows.
Definition q_limit {A} (limit : nat) (rows : list A) : list A := firstn limit rows.

(** [func.count(col)] over the selected rows; the counted keys are never NULL. *)
Definition func_count {A} (rows : list A) : Z := Z.of_nat (List.length rows).

(** [func.sum(col)]: NULL over no rows. *)
Definition func_sum (vals : list Z) : option Z :=
  match vals with
  | [] => None
  | _ => Some (fold_right Z.add 0%Z vals)
  end.

(** [select(Dish).join(SubMenu)]: the join on the foreign key
    [Dish.submenu_id == SubMenu.id]. *)
Definition join_SubMenu (ds : list Dish.t) (ss : list SubMenu.t) : list (Dish.t * SubMenu.t) :=
  flat_map (fun d =>
    map (fun s => (d, s))
        (filter (fun s => Dish.submenu_id d =? SubMenu.id s) ss)) ds.

(** *** The queries the handlers issue *)
Definition menu_by_id (db : DB) (menu_id : ident) : list Menu.t :=
  filter (fun m => Menu.id m =? menu_id) (menus db).

Definition submenu_by_ids (db : DB) (menu_id submenu_id : ident) : list SubMenu.t :=
  filter (fun s => andb (SubMenu.menu_id s =? menu_id) (SubMenu.id s =? submenu_id))
         (submenus db).

Definition dish_by_ids (db : DB) (submenu_id dish_id : ident) : list Dish.t :=
  filter (fun d => andb (Dish.submenu_id d =? submenu_id) (Dish.id d =? dish_id))
         (dishes db).

Definition submenus_of_menu (db : DB) (menu_id : ident) : list SubMenu.t :=
  filter (fun s => SubMenu.menu_id s =? menu_id) (submenus db).

Definition dishes_of_submenu (db : DB) (submenu_id : ident) : list Dish.t :=
  filter (fun d => Dish.submenu_id d =? submenu_id) (dishes db).

(** [filter(SubMenu.menu_id != menu_id, SubMenu.title == title)] *)
Definition submenu_title_elsewhere (db : DB) (menu_id : ident) (title : string) : list SubMenu.t :=
  filter (fun s => andb (negb (SubMenu.menu_id s =? menu_id)) (SubMenu.title s =? title))
         (submenus db).

(** [filter(Dish.submenu_id != submenu_id, Dish.title == title)] *)
Definition dish_title_elsewhere (db : DB) (submenu_id : ident) (title : string) : list Dish.t :=
  filter (fun d => andb (negb (Dish.submenu_id d =? submenu_id)) (Dish.title d =? title))
         (dishes db).

(** [query(func.count(SubMenu.id)).filter(SubMenu.menu_id == menu_id)] *)
Definition count_submenus (db : DB) (menu_id : ident) : Z :=
  func_count (submenus_of_menu db menu_id).

(** [query(func.count(Dish.id)).join(SubMenu).filter(SubMenu.menu_id == menu_id)] *)
Definition count_dishes_joined (db : DB) (menu_id : ident) : Z :=
  func_count (filter (fun ds => SubMenu.menu_id (snd ds) =? menu_id)
                     (join_SubMenu (dishes db) (submenus db))).

(** [query(func.sum(subquery))] where [subquery] is the one-row relation
    holding the joined count. *)
Definition sum_dishes_subquery (db : DB) (menu_id : ident) : option Z :=
  func_sum [count_dishes_joined db menu_id].

(** [query(func.count(Dish.id)).filter(Dish.submenu_id == submenu_id)] *)
Definition count_dishes (db : DB) (submenu_id : ident) : Z :=
  func_count (dishes_of_submenu db submenu_id).

(** *** Mutations: [add], attribute assignment and [delete], each flushed by
    [commit] as an INSERT, an UPDATE or a DELETE on the row's primary key. *)
Definition insert_menu (m : Menu.t) (db : DB) : DB :=
  mkDB (menus db ++ [m]) (submenus db) (dishes db).

Definition insert_submenu (s : SubMenu.t) (db : DB) : DB :=
  mkDB (menus db) (submenus db ++ [s]) (dishes db).

Definition insert_dish (d : Dish.t) (db : DB) : DB :=
  mkDB (menus db) (submenus db) (dishes db ++ [d]).

Definition update_menu_row (m : Menu.t) (db : DB) : DB :=
  mkDB (map (fun r => if Menu.id r =? Menu.id m then m else r) (menus db))
       (submenus db) (dishes db).

Definition update_submenu_row (s : SubMenu.t) (db : DB) : DB :=
  mkDB (menus db)
       (map (fun r => if SubMenu.id r =? SubMenu.id s then s else r) (submenus db))
       (dishes db).

Definition update_dish_row (d : Dish.t) (db : DB) : DB :=
  mkDB (menus db) (submenus db)
       (map (fun r => if Dish.id r =? Dish.id d then d else r) (dishes db)).

Definition delete_menu_row (m : Menu.t) (db : DB) : DB :=
  mkDB (filter (fun r => negb (Menu.id r =? Menu.id m)) (menus db))
       (submenus db) (dishes db).

Definition delete_submenu_row (s : SubMenu.t) (db : DB) : DB :=
  mkDB (menus db)
       (filter (fun r => negb (SubMenu.id r =? SubMenu.id s)) (submenus db))
       (dishes db).

Definition delete_dish_row (d : Dish.t) (db : DB) : DB :=
  mkDB (menus db) (submenus db)
       (filter (fun r => negb (Dish.id r =? Dish.id d)) (dishes db)).

(** *** Response bodies *)
Definition menu_content (m : Menu.t) : json :=
  JObject [("id", JString (Menu.id m));
           ("title", JString (Menu.title m));
           ("description", JString (Menu.description m))].

Definition menu_counts_content (m : Menu.t) (submenus_count dishes_count : Z) : json :=
  JObject [("id", JString (Menu.id m));
           ("title", JString (Menu.title m));
           ("description", JString (Menu.description m));
           ("submenus_count", JInt submenus_count);
           ("dishes_count", JInt dishes_count)].

Definition submenu_content (s : SubMenu.t) : json :=
  JObject [("id", JString (SubMenu.id s));
           ("title", JString (SubMenu.title s));
           ("description", JString (SubMenu.description s))].

Definition submenu_counts_content (s : SubMenu.t) (dishes_count : Z) : json :=
  JObject [("id", JString (SubMenu.id s));
           ("title", JString (SubMenu.title s));
           ("description", JString (SubMenu.description s));
           ("dishes_count", JInt dishes_count)].

(** The dish body; [price] is the text the handler computed. *)
Definition dish_content (d : Dish.t) (price : string) : json :=
  JObject [("id", JString (Dish.id d));
           ("title", JString (Dish.title d));
           ("description", JString (Dish.description d));
           ("price", JString price)].

(** [str(round(dish.price, 2))]; [None] when [round] raises. *)
Definition rounded_price (d : Dish.t) : option string :=
  option_map Decimal.str (Decimal.round (Dish.price d) 2).

(** The record the create, list and read-one handlers build for a dish. *)
Definition dish_record (d : Dish.t) : option json :=
  option_map (dish_content d) (rounded_price d).

(** The list comprehension over the page: the records in order, or [None]
    as soon as one [round] raises. *)
Fixpoint dish_records (ds : list Dish.t) : option (list json) :=
  match ds with
  | [] => Some []
  | d :: rest =>
      match dish_record d with
      | None => None
      | Some record => option_map (cons record) (dish_records rest)
      end
  end.

(** What [commit] and [refresh] leave in a column after [row.col = new]:
    the unit of work compares the new value with the loaded one by [==]
    and writes the column only when they differ. *)
Definition flushed_price (loaded new : Decimal.t) : Decimal.t :=
  if Decimal.eqb new loaded then loaded else new.

(** ** [main.py]: the synchronous handlers

    A creating handler takes as [new_id] the key the database assigns to
    the new row on [commit]; [refresh] reads it back. *)
Module Main.

Definition create_menu (new_id : ident) (menu_data : MenuSchemaAdd.t) (db : DB)
  : Outcome * DB :=
  let new_menu := Menu.mk new_id (MenuSchemaAdd.title menu_data)
                          (MenuSchemaAdd.description menu_data) in
  (JSONResponse (menu_content new_menu) 201, insert_menu new_menu db).

Definition read_menus (skip limit : nat) (db : DB) : Outcome * DB :=
  let menus := q_limit limit (q_offset skip (menus db)) in
  let response_data :=
    map (fun menu =>
           let submenus_count := count_submenus db (Menu.id menu) in
           let dishes_count := count_dishes_joined db (Menu.id menu) in
           menu_counts_content menu submenus_count dishes_count) menus in
  (JSONResponse (JArray response_data) 200, db).

Definition read_one_menu (menu_id : ident) (db : DB) : Outcome * DB :=
  match first (menu_by_id db menu_id) with
  | None => (HTTPException 404 "menu not found", db)
  | Some menu =>
      let submenus_count := count_submenus db menu_id in
      match sum_dishes_subquery db menu_id with
      | None => (Uncaught TypeError, db)
      | Some dishes_count =>
          (JSONResponse (menu_counts_content menu submenus_count dishes_count) 200, db)
      end
  end.

Definition update_menu (menu_id : ident) (menu_data : MenuSchemaUpdate.t) (db : DB)
  : Outcome * DB :=
  match first (menu_by_id db menu_id) with
  | Some updated_menu =>
      let updated_menu := Menu.mk (Menu.id updated_menu)
                                  (MenuSchemaUpdate.title menu_data)
                                  (MenuSchemaUpdate.description menu_data) in
      (JSONResponse (menu_content updated_menu) 200, update_menu_row updated_menu db)
  | None => (ReturnedNone, db)
  end.

Definition delete_menu (menu_id : ident) (db : DB) : Outcome * DB :=
  match first (menu_by_id db menu_id) with
  | Some removed_menu => (JSONResponse (JObject []) 200, delete_menu_row removed_menu db)
  | None => (ReturnedNone, db)
  end.

Definition create_submenu_for_menu (new_id : ident) (menu_id : ident)
           (submenu_data : SubMenuSchemaAdd.t) (db : DB) : Outcome * DB :=
  match first (menu_by_id db menu_id) with
  | None => (HTTPException 404 "menu not found", db)
  | Some menu =>
      match first (submenu_title_elsewhere db menu_id (SubMenuSchemaAdd.title submenu_data)) with
      | Some existing_submenu =>
          (HTTPException 400 "Submenu already belongs to ather menu", db)
      | None =>
          let new_submenu := SubMenu.mk new_id (SubMenuSchemaAdd.title submenu_data)
                                        (SubMenuSchemaAdd.description submenu_data) menu_id in
          (JSONResponse (submenu_content new_submenu) 201, insert_submenu new_submenu db)
      end
  end.

Definition read_submenus_for_menu (menu_id : ident) (skip limit : nat) (db : DB)
  : Outcome * DB :=
  let submenus := q_limit limit (q_offset skip (submenus_of_menu db menu_id)) in
  let response_data :=
    map (fun submenu =>
           let dishes_count := count_dishes db (SubMenu.id submenu) in
           submenu_counts_content submenu dishes_count) submenus in
  (JSONResponse (JArray response_data) 200, db).

Definition read_one_submenu_for_menu (menu_id submenu_id : ident) (db : DB)
  : Outcome * DB :=
  match first (submenu_by_ids db menu_id submenu_id) with
  | None => (HTTPException 404 "submenu not found", db)
  | Some submenu =>
      let dishes_count := count_dishes db submenu_id in
      (JSONResponse (submenu_counts_content submenu dishes_count) 200, db)
  end.

Definition update_submenu (menu_id submenu_id : ident)
           (submenu_data : SubMenuSchemaUpdate.t) (db : DB) : Outcome * DB :=
  match first (submenu_by_ids db menu_id submenu_id) with
  | Some updated_submenu =>
      let updated_submenu := SubMenu.mk (SubMenu.id updated_submenu)
                                        (SubMenuSchemaUpdate.title submenu_data)
                                        (SubMenuSchemaUpdate.description submenu_data)
                                        (SubMenu.menu_id updated_submenu) in
      (JSONResponse (submenu_content updated_submenu) 200,
       update_submenu_row updated_submenu db)
  | None => (ReturnedNone, db)
  end.

Definition delete_submenu (menu_id submenu_id : ident) (db : DB) : Outcome * DB :=
  match first (submenu_by_ids db menu_id submenu_id) with
  | Some removed_submenu =>
      (JSONResponse (JObject []) 200, delete_submenu_row removed_submenu db)
  | None => (ReturnedNone, db)
  end.

Definition create_dish_for_submenu (new_id : ident) (menu_id submenu_id : ident)
           (dish_data : DishSchemaAdd.t) (db : DB) : Outcome * DB :=
  match first (submenu_by_ids db menu_id submenu_id) with
  | None => (HTTPException 404 "Submenu not found", db)
  | Some submenu =>
      match first (dish_title_elsewhere db submenu_id (DishSchemaAdd.title dish_data)) with
      | Some existing_dish =>
          (HTTPException 400 "Dish already belongs to ather submenu", db)
      | None =>
          let new_dish := Dish.mk new_id (DishSchemaAdd.title dish_data)
                                  (DishSchemaAdd.description dish_data)
                                  (DishSchemaAdd.price dish_data) submenu_id in
          let db' := insert_dish new_dish db in
          match dish_record new_dish with
          | Some content => (JSONResponse content 201, db')
          | None => (Uncaught InvalidOperation, db')
          end
      end
  end.

(** The list route, [read_dish_for_submenu] at its first definition;
    [menu_id] is accepted and not used. *)
Definition read_dish_for_submenu (menu_id submenu_id : ident) (skip limit : nat) (db : DB)
  : Outcome * DB :=
  let dishes := q_limit limit (q_offset skip (dishes_of_submenu db submenu_id)) in
  match dish_records dishes with
  | Some content => (JSONResponse (JArray content) 200, db)
  | None => (Uncaught InvalidOperation, db)
  end.

(** The read-one route, the second function named [read_dish_for_submenu]. *)
Definition read_dish_for_submenu' (menu_id submenu_id dish_id : ident) (db : DB)
  : Outcome * DB :=
  match first (filter (fun d => andb (Dish.id d =? dish_id) (Dish.submenu_id d =? submenu_id))
                      (dishes db)) with
  | None => (HTTPException 404 "dish not found", db)
  | Some dish =>
      match dish_record dish with
      | Some content => (JSONResponse content 200, db)
      | None => (Uncaught InvalidOperation, db)
      end
  end.

Definition update_dish (menu_id submenu_id dish_id : ident)
           (dish_data : DishSchemaUpdate.t) (db : DB) : Outcome * DB :=
  match first (dish_by_ids db submenu_id dish_id) with
  | Some updated_dish =>
      let updated_dish := Dish.mk (Dish.id updated_dish)
                                  (DishSchemaUpdate.title dish_data)
                                  (DishSchemaUpdate.description dish_data)
                                  (flushed_price (Dish.price updated_dish)
                                                 (DishSchemaUpdate.price dish_data))
                                  (Dish.submenu_id updated_dish) in
      (JSONResponse (dish_content updated_dish (Decimal.str (Dish.price updated_dish))) 200,
       update_dish_row updated_dish db)
  | None => (ReturnedNone, db)
  end.

(** The dish delete route, the second function named [delete_menu]. *)
Definition delete_menu' (menu_id submenu_id dish_id : ident) (db : DB) : Outcome * DB :=
  match first (dish_by_ids db submenu_id dish_id) with
  | Some removed_dish => (JSONResponse (JObject []) 200, delete_dish_row removed_dish db)
  | None => (ReturnedNone, db)
  end.

End Main.

(** ** [main_asyncio.py]: the asynchronous handlers

    Each [await] is a suspension point of one request; the session is the
    request's own, so a handler is again a function of the database state.
    Single rows are fetched with [scalar_one_or_none]. *)
Module MainAsyncio.

Definition create_menu (new_id : ident) (menu_data : MenuSchemaAdd.t) (db : DB)
  : Outcome * DB :=
  let new_menu := Menu.mk new_id (MenuSchemaAdd.title menu_data)
                          (MenuSchemaAdd.description menu_data) in
  (JSONResponse (menu_content new_menu) 201, insert_menu new_menu db).

Definition read_menus (skip limit : nat) (db : DB) : Outcome * DB :=
  let menus := q_limit limit (q_offset skip (menus db)) in
  let response_data :=
    map (fun menu =>
           let submenus_count := count_submenus db (Menu.id menu) in
           let dishes_count := count_dishes_joined db (Menu.id menu) in
           menu_counts_content menu submenus_count dishes_count) menus in
  (JSONResponse (JArray response_data) 200, db).

Definition read_one_menu (menu_id : ident) (db : DB) : Outcome * DB :=
  match scalar_one_or_none (menu_by_id db menu_id) with
  | inl e => (Uncaught e, db)
  | inr None => (HTTPException 404 "menu not found", db)
  | inr (Some menu) =>
      let submenus_count := count_submenus db menu_id in
      match sum_dishes_subquery db menu_id with
      | None => (Uncaught TypeError, db)
      | Some dishes_count =>
          (JSONResponse (menu_counts_content menu submenus_count dishes_count) 200, db)
      end
  end.

Definition update_menu (menu_id : ident) (menu_data : MenuSchemaUpdate.t) (db : DB)
  : Outcome * DB :=
  match scalar_one_or_none (menu_by_id db menu_id) with
  | inl e => (Uncaught e, db)
  | inr (Some updated_menu) =>
      let updated_menu := Menu.mk (Menu.id updated_menu)
                                  (MenuSchemaUpdate.title menu_data)
                                  (MenuSchemaUpdate.description menu_data) in
      (JSONResponse (menu_content updated_menu) 200, update_menu_row updated_menu db)
  | inr None => (HTTPException 404 "menu not found", db)
  end.

Definition delete_menu (menu_id : ident) (db : DB) : Outcome * DB :=
  match scalar_one_or_none (menu_by_id db menu_id) with
  | inl e => (Uncaught e, db)
  | inr (Some removed_menu) =>
      (JSONResponse (JObject []) 200, delete_menu_row removed_menu db)
  | inr None => (HTTPException 404 "menu not found", db)
  end.

Definition create_submenu_for_menu (new_id : ident) (menu_id : ident)
           (submenu_data : SubMenuSchemaAdd.t) (db : DB) : Outcome * DB :=
  match scalar_one_or_none (menu_by_id db menu_id) with
  | inl e => (Uncaught e, db)
  | inr None => (HTTPException 404 "menu not found", db)
  | inr (Some menu) =>
      match scalar_one_or_none
              (submenu_title_elsewhere db menu_id (SubMenuSchemaAdd.title submenu_data)) with
      | inl e => (Uncaught e, db)
      | inr (Some existing_submenu) =>
          (HTTPException 400 "Submenu already belongs to ather menu", db)
      | inr None =>
          let new_submenu := SubMenu.mk new_id (SubMenuSchemaAdd.title submenu_data)
                                        (SubMenuSchemaAdd.description submenu_data) menu_id in
          (JSONResponse (submenu_content new_submenu) 201, insert_submenu new_submenu db)
      end
  end.

Definition read_submenus_for_menu (menu_id : ident) (skip limit : nat) (db : DB)
  : Outcome * DB :=
  let submenus := q_limit limit (q_offset skip (submenus_of_menu db menu_id)) in
  let response_data :=
    map (fun submenu =>
           let dishes_count := count_dishes db (SubMenu.id submenu) in
           submenu_counts_content submenu dishes_count) submenus in
  (JSONResponse (JArray response_data) 200, db).

Definition read_one_submenu_for_menu (menu_id submenu_id : ident) (db : DB)
  : Outcome * DB :=
  match scalar_one_or_none (submenu_by_ids db menu_id submenu_id) with
  | inl e => (Uncaught e, db)
  | inr None => (HTTPException 404 "submenu not found", db)
  | inr (Some submenu) =>
      let dishes_count := count_dishes db (SubMenu.id submenu) in
      (JSONResponse (submenu_counts_content submenu dishes_count) 200, db)
  end.

Definition update_submenu (menu_id submenu_id : ident)
           (submenu_data : SubMenuSchemaUpdate.t) (db : DB) : Outcome * DB :=
  match scalar_one_or_none (submenu_by_ids db menu_id submenu_id) with
  | inl e => (Uncaught e, db)
  | inr (Some updated_submenu) =>
      let updated_submenu := SubMenu.mk (SubMenu.id updated_submenu)
                                        (SubMenuSchemaUpdate.title submenu_data)
                                        (SubMenuSchemaUpdate.description submenu_data)
                                        (SubMenu.menu_id updated_submenu) in
      (JSONResponse (submenu_content updated_submenu) 200,
       update_submenu_row updated_submenu db)
  | inr None => (ReturnedNone, db)
  end.

Definition delete_submenu (menu_id submenu_id : ident) (db : DB) : Outcome * DB :=
  match scalar_one_or_none (submenu_by_ids db menu_id submenu_id) with
  | inl e => (Uncaught e, db)
  | inr (Some removed_submenu) =>
      (JSONResponse (JObject []) 200, delete_submenu_row removed_submenu db)
  | inr None => (ReturnedNone, db)
  end.

Definition create_dish_for_submenu (new_id : ident) (menu_id submenu_id : ident)
           (dish_data : DishSchemaAdd.t) (db : DB) : Outcome * DB :=
  match scalar_one_or_none (submenu_by_ids db menu_id submenu_id) with
  | inl e => (Uncaught e, db)
  | inr None => (HTTPException 404 "Submenu not found", db)
  | inr (Some submenu) =>
      match scalar_one_or_none
              (dish_title_elsewhere db submenu_id (DishSchemaAdd.title dish_data)) with
      | inl e => (Uncaught e, db)
      | inr (Some existing_dish) =>
          (HTTPException 400 "Dish already belongs to ather submenu", db)
      | inr None =>
          let new_dish := Dish.mk new_id (DishSchemaAdd.title dish_data)
                                  (DishSchemaAdd.description dish_data)
                                  (DishSchemaAdd.price dish_data) submenu_id in
          let db' := insert_dish new_dish db in
          match dish_record new_dish with
          | Some content => (JSONResponse content 201, db')
          | None => (Uncaught InvalidOperation, db')
          end
      end
  end.

Definition read_dishes_for_submenu (submenu_id : ident) (skip limit : nat) (db : DB)
  : Outcome * DB :=
  let dishes := q_limit limit (q_offset skip (dishes_of_submenu db submenu_id)) in
  match dish_records dishes with
  | Some content => (JSONResponse (JArray content) 200, db)
  | None => (Uncaught InvalidOperation, db)
  end.

Definition read_dish_for_submenu (submenu_id dish_id : ident) (db : DB) : Outcome * DB :=
  match scalar_one_or_none
          (filter (fun d => andb (Dish.id d =? dish_id) (Dish.submenu_id d =? submenu_id))
                  (dishes db)) with
  | inl e => (Uncaught e, db)
  | inr None => (HTTPException 404 "dish not found", db)
  | inr (Some dish) =>
      match dish_record dish with
      | Some content => (JSONResponse content 200, db)
      | None => (Uncaught InvalidOperation, db)
      end
  end.

Definition update_dish (submenu_id dish_id : ident)
           (dish_data : DishSchemaUpdate.t) (db : DB) : Outcome * DB :=
  match scalar_one_or_none (dish_by_ids db submenu_id dish_id) with
  | inl e => (Uncaught e, db)
  | inr (Some updated_dish) =>
      let updated_dish := Dish.mk (Dish.id updated_dish)
                                  (DishSchemaUpdate.title dish_data)
                                  (DishSchemaUpdate.description dish_data)
                                  (flushed_price (Dish.price updated_dish)
                                                 (DishSchemaUpdate.price dish_data))
                                  (Dish.submenu_id updated_dish) in
      (JSONResponse (dish_content updated_dish (Decimal.str (Dish.price updated_dish))) 200,
       update_dish_row updated_dish db)
  | inr None => (ReturnedNone, db)
  end.

Definition delete_dish (submenu_id dish_id : ident) (db : DB) : Outcome * DB :=
  match scalar_one_or_none (dish_by_ids db submenu_id dish_id) with
  | inl e => (Uncaught e, db)
  | inr (Some removed_dish) =>
      (JSONResponse (JObject []) 200, delete_dish_row removed_dish db)
  | inr None => (ReturnedNone, db)
  end.

End MainAsyncio.

(** ** Requests and routing

    The routes both files register with [@app.post], [@app.get],
    [@app.patch] and [@app.delete]; the path and the body determine the
    handler's arguments. *)
Inductive Request :=
| POST_menus (menu_data : MenuSchemaAdd.t)
| GET_menus (skip limit : nat)
| GET_menu (menu_id : ident)
| PATCH_menu (menu_id : ident) (menu_data : MenuSchemaUpdate.t)
| DELETE_menu (menu_id : ident)
| POST_submenus (menu_id : ident) (submenu_data : SubMenuSchemaAdd.t)
| GET_submenus (menu_id : ident) (skip limit : nat)
| GET_submenu (menu_id submenu_id : ident)
| PATCH_submenu (menu_id submenu_id : ident) (submenu_data : SubMenuSchemaUpdate.t)
| DELETE_submenu (menu_id submenu_id : ident)
| POST_dishes (menu_id submenu_id : ident) (dish_data : DishSchemaAdd.t)
| GET_dishes (menu_id submenu_id : ident) (skip limit : nat)
| GET_dish (menu_id submenu_id dish_id : ident)
| PATCH_dish (menu_id submenu_id dish_id : ident) (dish_data : DishSchemaUpdate.t)
| DELETE_dish (menu_id submenu_id dish_id : ident).

(** [main.py]'s [app]; [new_id] is the key the database would assign. *)
Definition app_sync (new_id : ident) (req : Request) (db : DB) : Outcome * DB :=
  match req with
  | POST_menus d => Main.create_menu new_id d db
  | GET_menus skip limit => Main.read_menus skip limit db
  | GET_menu m => Main.read_one_menu m db
  | PATCH_menu m d => Main.update_menu m d db
  | DELETE_menu m => Main.delete_menu m db
  | POST_submenus m d => Main.create_submenu_for_menu new_id m d db
  | GET_submenus m skip limit => Main.read_submenus_for_menu m skip limit db
  | GET_submenu m s => Main.read_one_submenu_for_menu m s db
  | PATCH_submenu m s d => Main.update_submenu m s d db
  | DELETE_submenu m s => Main.delete_submenu m s db
  | POST_dishes m s d => Main.create_dish_for_submenu new_id m s d db
  | GET_dishes m s skip limit => Main.read_dish_for_submenu m s skip limit db
  | GET_dish m s i => Main.read_dish_for_submenu' m s i db
  | PATCH_dish m s i d => Main.update_dish m s i d db
  | DELETE_dish m s i => Main.delete_menu' m s i db
  end.

(** [main_asyncio.py]'s [app]. *)
Definition app_async (new_id : ident) (req : Request) (db : DB) : Outcome * DB :=
  match req with
  | POST_menus d => MainAsyncio.create_menu new_id d db
  | GET_menus skip limit => MainAsyncio.read_menus skip limit db
  | GET_menu m => MainAsyncio.read_one_menu m db
  | PATCH_menu m d => MainAsyncio.update_menu m d db
  | DELETE_menu m => MainAsyncio.delete_menu m db
  | POST_submenus m d => MainAsyncio.create_submenu_for_menu new_id m d db
  | GET_submenus m skip limit => MainAsyncio.read_submenus_for_menu m skip limit db
  | GET_submenu m s => MainAsyncio.read_one_submenu_for_menu m s db
  | PATCH_submenu m s d => MainAsyncio.update_submenu m s d db
  | DELETE_submenu m s => MainAsyncio.delete_submenu m s db
  | POST_dishes m s d => MainAsyncio.create_dish_for_submenu new_id m s d db
  | GET_dishes m s skip limit => MainAsyncio.read_dishes_for_submenu s skip limit db
  | GET_dish m s i => MainAsyncio.read_dish_for_submenu s i db
  | PATCH_dish m s i d => MainAsyncio.update_dish s i d db
  | DELETE_dish m s i => MainAsyncio.delete_dish s i db
  end.

(** ** Reading a response body *)

(** [content[key]] of a JSON object. *)
Fixpoint assoc (key : string) (fields : list (string * json)) : option json :=
  match fields with
  | [] => None
  | (k, v) :: rest => if k =? key then Some v else assoc key rest
  end.

Definition json_field (key : string) (content : json) : option json :=
  match content with
  | JObject fields => assoc key fields
  | _ => None
  end.


(** Referential integrity, as the foreign keys [SubMenu.menu_id] and
    [Dish.submenu_id] keep it. *)
Definition foreign_keys_ok (db : DB) : Prop :=
  (forall s, In s (submenus db) -> exists m, In m (menus db) /\ Menu.id m = SubMenu.menu_id s) /\
  (forall d, In d (dishes db) -> exists s, In s (submenus db) /\ SubMenu.id s = Dish.submenu_id d).

(** ** Sample data the statements below are exercised on *)
Definition price_19_999 : Decimal.t := Decimal.mk false 19999 (-3).

(** [Decimal("1E+26")]: two places after the point would take 29 digits. *)
Definition price_1E26 : Decimal.t := Decimal.mk false 1 26.

Definition sample_db : DB :=
  mkDB [Menu.mk "m1" "Lunch" "Served at noon"; Menu.mk "m2" "Dinner" "Served at night"]
       [SubMenu.mk "s1" "Soups" "Hot" "m1"; SubMenu.mk "s2" "Salads" "Cold" "m1"]
       [Dish.mk "d1" "Borscht" "Beetroot" (Decimal.mk false 1250 (-2)) "s1"].


Definition soups : SubMenuSchemaAdd.t := SubMenuSchemaAdd.mk "Soups" "Hot".

(** The state [main_asyncio.py] reaches from the empty database by creating
    menus m1 and m2 and then, twice, a submenu titled Soups under m1. *)
Definition two_menus_db : DB :=
  snd (MainAsyncio.create_menu "m2" (MenuSchemaAdd.mk "Dinner" "Served at night")
    (snd (MainAsyncio.create_menu "m1" (MenuSchemaAdd.mk "Lunch" "Served at noon") empty_db))).

Definition one_soups_db : DB :=
  snd (MainAsyncio.create_submenu_for_menu "s1" "m1" soups two_menus_db).

Definition two_soups_db : DB :=
  snd (MainAsyncio.create_submenu_for_menu "s2" "m1" soups one_soups_db).

Definition borscht : DishSchemaAdd.t :=
  DishSchemaAdd.mk "Borscht" "Beetroot" (Decimal.mk false 1250 (-2)).

(** From there: a submenu Salads under m1, then, twice, a dish titled
    Borscht under the first Soups submenu. *)
Definition salads_db : DB :=
  snd (MainAsyncio.create_submenu_for_menu "s3" "m1" (SubMenuSchemaAdd.mk "Salads" "Cold")
                                            two_soups_db).

Definition one_borscht_db : DB :=
  snd (MainAsyncio.create_dish_for_submenu "d1" "m1" "s1" borscht salads_db).

Definition two_borscht_db : DB :=
  snd (MainAsyncio.create_dish_for_submenu "d2" "m1" "s1" borscht one_borscht_db).

(** Primary keys: no two rows of a table share an [id]. *)
Definition keys_unique (db : DB) : Prop :=
  NoDup (map Menu.id (menus db)) /\
  NoDup (map SubMenu.id (submenus db)) /\
  NoDup (map Dish.id (dishes db)).

(** The requests on which the two files part: a Menu update or delete whose
    target is absent, and a creation whose title query selects more than
    one row. *)
Definition parting (req : Request) (db : DB) : Prop :=
  match req with
  | PATCH_menu menu_id _ | DELETE_menu menu_id => menu_by_id db menu_id = []
  | POST_submenus menu_id submenu_data =>
      menu_by_id db menu_id <> [] /\
      (2 <= List.length (submenu_title_elsewhere db menu_id
                                                 (SubMenuSchemaAdd.title submenu_data)))%nat
  | POST_dishes menu_id submenu_id dish_data =>
      submenu_by_ids db menu_id submenu_id <> [] /\
      (2 <= List.length (dish_title_elsewhere db submenu_id
                                              (DishSchemaAdd.title dish_data)))%nat
  | _ => False
  end.

(** ** Requests by kind *)

(** The table a route belongs to. *)
Inductive Entity := EMenu | ESubMenu | EDish.

Definition entity (req : Request) : Entity :=
  match req with
  | POST_menus _ | GET_menus _ _ | GET_menu _ | PATCH_menu _ _ | DELETE_menu _ => EMenu
  | POST_submenus _ _ | GET_submenus _ _ _ | GET_submenu _ _
  | PATCH_submenu _ _ _ | DELETE_submenu _ _ => ESubMenu
  | POST_dishes _ _ _ | GET_dishes _ _ _ _ | GET_dish _ _ _
  | PATCH_dish _ _ _ _ | DELETE_dish _ _ _ => EDish
  end.

(** The [@app.get] routes. *)
Definition is_read (req : Request) : bool :=
  match req with
  | GET_menus _ _ | GET_menu _ | GET_submenus _ _ _ | GET_submenu _ _
  | GET_dishes _ _ _ _ | GET_dish _ _ _ => true
  | _ => false
  end.

(** The [@app.post] routes. *)
Definition is_create (req : Request) : bool :=
  match req with
  | POST_menus _ | POST_submenus _ _ | POST_dishes _ _ _ => true
  | _ => false
  end.

(** The [@app.delete] routes of a table that other rows refer to. *)
Definition is_parent_delete (req : Request) : bool :=
  match req with
  | DELETE_menu _ | DELETE_submenu _ _ => true
  | _ => false
  end.

(** The key the database assigns is not yet in the table the request
    inserts into. *)
Definition fresh_for (new_id : ident) (req : Request) (db : DB) : Prop :=
  match req with
  | POST_menus _ => ~ In new_id (map Menu.id (menus db))
  | POST_submenus _ _ => ~ In new_id (map SubMenu.id (submenus db))
  | POST_dishes _ _ _ => ~ In new_id (map Dish.id (dishes db))
  | _ => True
  end.



(** A request that was answered with a [JSONResponse]. *)
Definition is_answered (out : Outcome) : bool :=
  match out with
  | JSONResponse _ _ => true
  | _ => false
  end.

(** The records of a list response. *)
Definition records (out : Outcome) : list json :=
  match out with
  | JSONResponse (JArray rows) _ => rows
  | _ => []
  end.

(** The status a response carries. *)
Definition status_ok (req : Request) (out : Outcome) : Prop :=
  match out with
  | JSONResponse _ status => status = (if is_create req then 201 else 200)%Z
  | HTTPException status _ =>
      status = 404%Z \/ (status = 400%Z /\ is_create req = true /\ entity req <> EMenu)
  | ReturnedNone => is_create req = false /\ is_read req = false
  | Uncaught _ => True
  end.

Ltac unfold_handlers :=
  unfold Main.create_menu, Main.read_menus, Main.read_one_menu, Main.update_menu,
    Main.delete_menu, Main.create_submenu_for_menu, Main.read_submenus_for_menu,
    Main.read_one_submenu_for_menu, Main.update_submenu, Main.delete_submenu,
    Main.create_dish_for_submenu, Main.read_dish_for_submenu, Main.read_dish_for_submenu',
    Main.update_dish, Main.delete_menu',
    MainAsyncio.create_menu, MainAsyncio.read_menus, MainAsyncio.read_one_menu,
    MainAsyncio.update_menu, MainAsyncio.delete_menu, MainAsyncio.create_submenu_for_menu,
    MainAsyncio.read_submenus_for_menu, MainAsyncio.read_one_submenu_for_menu,
    MainAsyncio.update_submenu, MainAsyncio.delete_submenu,
    MainAsyncio.create_dish_for_submenu, MainAsyncio.read_dishes_for_submenu,
    MainAsyncio.read_dish_for_submenu, MainAsyncio.update_dish, MainAsyncio.delete_dish.

(** Case analysis on the queries a handler branches on. *)
Ltac split_queries :=
  repeat match goal with
         | |- context [match first ?q with _ => _ end] => destruct (first q)
         | |- context [match scalar_one_or_none ?q with _ => _ end] =>
             destruct (scalar_one_or_none q) as [?|[?|]]
         | |- context [match sum_dishes_subquery ?d ?m with _ => _ end] =>
             destruct (sum_dishes_subquery d m)
         | |- context [match dish_record ?d with _ => _ end] => destruct (dish_record d)
         | |- context [match dish_records ?ds with _ => _ end] => destruct (dish_records ds)
         end.

Ltac run_handler := split_queries; simpl; try congruence; try discriminate.

(** * Facts about queries *)
Section QueryFacts.

Context {A : Type}.
Implicit Types (p : A -> bool) (rows : list A).

Lemma first_filter_Some p rows r :
  first (filter p rows) = Some r -> In r rows /\ p r = true.
Proof.
  unfold first. destruct (filter p rows) as [|x xs] eqn:E; [discriminate|].
  intros [= ->]. apply filter_In. rewrite E. now left.
Qed.

Lemma first_filter_None p rows :
  first (filter p rows) = None <-> (forall r, In r rows -> p r = false).
Proof.
  unfold first. split.
  - intros H r Hr. destruct (p r) eqn:E; [|reflexivity].
    assert (Hin : In r (filter p rows)) by (apply filter_In; auto).
    destruct (filter p rows); [destruct Hin | discriminate].
  - intros H. destruct (filter p rows) as [|x xs] eqn:E; [reflexivity|].
    assert (Hx : In x (filter p rows)) by (rewrite E; now left).
    apply filter_In in Hx as [Hx Hp]. rewrite (H _ Hx) in Hp. discriminate.
Qed.

Lemma filter_none p rows :
  (forall r, In r rows -> p r = false) -> filter p rows = [].
Proof.
  intros H. apply first_filter_None in H. unfold first in H.
  destruct (filter p rows); [reflexivity | discriminate].
Qed.

Lemma first_exists p rows r :
  In r rows -> p r = true -> exists r', first (filter p rows) = Some r'.
Proof.
  intros Hin Hp. destruct (first (filter p rows)) as [r'|] eqn:E; [eauto|].
  rewrite first_filter_None in E. rewrite (E _ Hin) in Hp. discriminate.
Qed.

(** What [scalar_one_or_none] gives where [first] is known. *)
Lemma scalar_first_le1 rows :
  (List.length rows <= 1)%nat -> scalar_one_or_none rows = inr (first rows).
Proof. destruct rows as [|x [|y ys]]; simpl; intros; try reflexivity; lia. Qed.

Lemma scalar_raises rows :
  (2 <= List.length rows)%nat <-> scalar_one_or_none rows = inl MultipleResultsFound.
Proof.
  destruct rows as [|x [|y ys]]; simpl; split; intros H; try lia; try discriminate; auto.
Qed.

Lemma limit_length n rows : (List.length (q_limit n rows) <= n)%nat.
Proof. unfold q_limit. apply firstn_le_length. Qed.

(** A page holds rows of the scan only. *)
Lemma page_In skip limit rows r :
  In r (q_limit limit (q_offset skip rows)) -> In r rows.
Proof.
  unfold q_limit, q_offset. intros H.
  assert (Hskip : In r (skipn skip rows)).
  { rewrite <- (firstn_skipn limit (skipn skip rows)). apply in_or_app. now left. }
  rewrite <- (firstn_skipn skip rows). apply in_or_app. now right.
Qed.

End QueryFacts.

Lemma first_None_nil {A} (rows : list A) : first rows = None <-> rows = [].
Proof. destruct rows; simpl; split; intros; try reflexivity; discriminate. Qed.

(** A key column holds every value at most once. *)
Lemma unique_key_filter {A} (key : A -> ident) (k : ident) (rows : list A) :
  NoDup (map key rows) ->
  (List.length (filter (fun r => (key r =? k)%string) rows) <= 1)%nat.
Proof.
  induction rows as [|x xs IH]; simpl; intros Hnd; [lia|].
  inversion Hnd as [|? ? Hnotin Hnd']; subst.
  destruct (key x =? k) eqn:E; [|auto].
  apply String.eqb_eq in E. simpl.
  rewrite filter_none; [simpl; lia|].
  intros r Hr. apply String.eqb_neq. intros Heq. apply Hnotin.
  rewrite E, <- Heq. now apply in_map.
Qed.

Lemma filter_and_le {A} (p q : A -> bool) (rows : list A) :
  (List.length (filter (fun r => andb (p r) (q r)) rows)
   <= List.length (filter q rows))%nat.
Proof.
  induction rows as [|x xs IH]; simpl; [lia|].
  destruct (p x), (q x); simpl; lia.
Qed.

Lemma filter_and_le_l {A} (p q : A -> bool) (rows : list A) :
  (List.length (filter (fun r => andb (p r) (q r)) rows)
   <= List.length (filter p rows))%nat.
Proof.
  induction rows as [|x xs IH]; simpl; [lia|].
  destruct (p x), (q x); simpl; lia.
Qed.

(** * The two [dishes_count] formulas *)

Lemma sum_dishes_subquery_eq db menu_id :
  sum_dishes_subquery db menu_id = Some (count_dishes_joined db menu_id).
Proof. unfold sum_dishes_subquery, func_sum. simpl. f_equal. lia. Qed.

(** C9: for every database state and every menu in it, the joined count the
    list handler computes equals the sum over the one-row count subquery
    the read-one handler computes, so both handlers report the same
    [dishes_count] for that menu. *)
Theorem C9_dishes_count_formulas_agree (db : DB) (menu : Menu.t) :
  In menu (menus db) ->
  sum_dishes_subquery db (Menu.id menu) = Some (count_dishes_joined db (Menu.id menu)) /\
  exists menu',
    In menu' (menus db) /\ Menu.id menu' = Menu.id menu /\
    Main.read_one_menu (Menu.id menu) db =
      (JSONResponse (menu_counts_content menu' (count_submenus db (Menu.id menu))
                                         (count_dishes_joined db (Menu.id menu))) 200, db).
Proof.
  intros Hin. split; [apply sum_dishes_subquery_eq|].
  destruct (first_exists (fun m => Menu.id m =? Menu.id menu) (menus db) menu Hin
                         (String.eqb_refl _)) as [menu' Hfirst].
  exists menu'. destruct (first_filter_Some _ _ _ Hfirst) as [Hin' Hid].
  apply String.eqb_eq in Hid. repeat split; auto.
  unfold Main.read_one_menu, menu_by_id. rewrite Hfirst, sum_dishes_subquery_eq.
  reflexivity.
Qed.

(** * Menu update and delete in [main.py] *)

Lemma menu_absent_no_rows db menu_id :
  (forall m, In m (menus db) -> Menu.id m <> menu_id) -> menu_by_id db menu_id = [].
Proof.
  intros H. apply filter_none. intros r Hr. apply String.eqb_neq. auto.
Qed.

Lemma menu_present_first db menu_id :
  (exists m, In m (menus db) /\ Menu.id m = menu_id) ->
  exists m, first (menu_by_id db menu_id) = Some m /\ In m (menus db) /\ Menu.id m = menu_id.
Proof.
  intros (m & Hin & Hid).
  destruct (first_exists (fun r => Menu.id r =? menu_id) (menus db) m Hin) as [m' Hm'].
  - now apply String.eqb_eq.
  - exists m'. split; [exact Hm'|].
    apply first_filter_Some in Hm' as [? Heq]. apply String.eqb_eq in Heq. auto.
Qed.


(** * Deleting a menu *)

Lemma filter_negb_length {A} (p : A -> bool) (rows : list A) :
  (List.length (filter p rows) + List.length (filter (fun r => negb (p r)) rows)
   = List.length rows)%nat.
Proof.
  induction rows as [|x xs IH]; simpl; [reflexivity|].
  destruct (p x); simpl; lia.
Qed.

Lemma filter_negb_none {A} (p : A -> bool) (rows : list A) :
  filter p rows = [] -> filter (fun r => negb (p r)) rows = rows.
Proof.
  induction rows as [|x xs IH]; simpl; [reflexivity|].
  destruct (p x); simpl; [discriminate|]. intros H. now rewrite IH.
Qed.

Lemma delete_menu_found db menu_id m :
  NoDup (map Menu.id (menus db)) ->
  first (menu_by_id db menu_id) = Some m ->
  menus (delete_menu_row m db) = filter (fun r => negb (Menu.id r =? menu_id)) (menus db) /\
  S (List.length (menus (delete_menu_row m db))) = List.length (menus db).
Proof.
  intros Hnd Hfirst.
  pose proof (unique_key_filter Menu.id menu_id (menus db) Hnd) as Hle.
  pose proof (filter_negb_length (fun r => Menu.id r =? menu_id) (menus db)) as Hlen.
  destruct (first_filter_Some _ _ _ Hfirst) as [_ Hid]. apply String.eqb_eq in Hid.
  unfold delete_menu_row; simpl. rewrite Hid. split; [reflexivity|].
  unfold menu_by_id, first in Hfirst.
  destruct (filter (fun r => Menu.id r =? menu_id) (menus db)); [discriminate|].
  simpl in *. lia.
Qed.

Lemma delete_menu_absent db menu_id :
  first (menu_by_id db menu_id) = None ->
  menus db = filter (fun r => negb (Menu.id r =? menu_id)) (menus db).
Proof.
  intros Hnone. symmetry. apply filter_negb_none.
  unfold menu_by_id, first in Hnone.
  destruct (filter (fun r => Menu.id r =? menu_id) (menus db)); [reflexivity|discriminate].
Qed.

(** C7: with [Menu.id] a primary key, [delete_menu] of either file leaves
    every SubMenu row and every Dish row as it was and keeps every Menu row
    but those with the given id; when it answers 200 exactly one Menu row
    is gone.  No cascade is part of the handler. *)
Theorem C7_delete_menu_no_cascade (db db' : DB) (menu_id : ident) (out : Outcome) :
  NoDup (map Menu.id (menus db)) ->
  Main.delete_menu menu_id db = (out, db') \/
  MainAsyncio.delete_menu menu_id db = (out, db') ->
  submenus db' = submenus db /\
  dishes db' = dishes db /\
  menus db' = filter (fun r => negb (Menu.id r =? menu_id)) (menus db) /\
  (out = JSONResponse (JObject []) 200 ->
   S (List.length (menus db')) = List.length (menus db)).
Proof.
  intros Hnd Hrun.
  pose proof (unique_key_filter Menu.id menu_id (menus db) Hnd) as Hle.
  assert (Hcases :
    (exists m, first (menu_by_id db menu_id) = Some m /\
               out = JSONResponse (JObject []) 200 /\ db' = delete_menu_row m db) \/
    (first (menu_by_id db menu_id) = None /\ db' = db /\
     out <> JSONResponse (JObject []) 200)).
  { destruct Hrun as [Hrun | Hrun].
    - unfold Main.delete_menu in Hrun.
      destruct (first (menu_by_id db menu_id)) as [m|] eqn:E; inversion Hrun; subst.
      + left. eauto.
      + right. repeat split; auto. discriminate.
    - unfold MainAsyncio.delete_menu in Hrun. unfold menu_by_id in *.
      rewrite (scalar_first_le1 _ Hle) in Hrun.
      destruct (first _) as [m|] eqn:E; inversion Hrun; subst.
      + left. eauto.
      + right. repeat split; auto. discriminate. }
  destruct Hcases as [(m & Hfirst & -> & ->) | (Hnone & -> & Hout)].
  - destruct (delete_menu_found _ _ _ Hnd Hfirst) as [Hm Hl]. auto.
  - repeat split; auto using delete_menu_absent. intros; contradiction.
Qed.

(** * Dish records *)

Lemma dish_record_Some (d : Dish.t) (record : json) :
  dish_record d = Some record <->
  exists r, Decimal.round (Dish.price d) 2 = Some r /\
            record = dish_content d (Decimal.str r).
Proof.
  unfold dish_record, rounded_price.
  destruct (Decimal.round (Dish.price d) 2) as [r|]; simpl; split.
  - intros [= <-]. eauto.
  - intros (r' & [= <-] & ->). reflexivity.
  - discriminate.
  - intros (r' & Hr & _). discriminate.
Qed.

Lemma dish_record_None (d : Dish.t) :
  dish_record d = None <-> Decimal.round (Dish.price d) 2 = None.
Proof.
  unfold dish_record, rounded_price.
  destruct (Decimal.round (Dish.price d) 2); simpl; split; congruence.
Qed.

(** The comprehension answers when every [round] does, record by record
    and in the order of the rows. *)
Lemma dish_records_Some (ds : list Dish.t) (rows : list json) :
  dish_records ds = Some rows <-> Forall2 (fun d record => dish_record d = Some record) ds rows.
Proof.
  revert rows. induction ds as [|d ds IH]; intros rows; simpl.
  - split; [intros [= <-]; constructor | intros H; inversion H; reflexivity].
  - destruct (dish_record d) as [record|] eqn:E.
    + destruct (dish_records ds) as [rest|]; simpl; split.
      * intros [= <-]. constructor; [exact E | now apply IH].
      * intros H. inversion H as [|? r ? rest' Hr Hrest]; subst.
        apply IH in Hrest. congruence.
      * discriminate.
      * intros H. inversion H as [|? r ? rest' Hr Hrest]; subst.
        apply IH in Hrest. discriminate.
    + split; [discriminate|]. intros H. inversion H; congruence.
Qed.

Lemma dish_records_None (ds : list Dish.t) :
  dish_records ds = None <-> exists d, In d ds /\ dish_record d = None.
Proof.
  induction ds as [|d ds IH]; simpl.
  - split; [discriminate | intros (d & [] & _)].
  - destruct (dish_record d) as [record|] eqn:E.
    + destruct (dish_records ds) as [rest|]; simpl; split.
      * discriminate.
      * intros (d' & [<- | Hin] & Hd'); [congruence|].
        assert (Hex : exists d, In d ds /\ dish_record d = None) by eauto.
        apply IH in Hex. discriminate.
      * intros _. destruct IH as [IH _]. destruct (IH eq_refl) as (d' & Hin & Hd'). eauto.
      * reflexivity.
    + split; [eauto | reflexivity].
Qed.

Lemma dish_records_In (ds : list Dish.t) (rows : list json) (record : json) :
  dish_records ds = Some rows -> In record rows ->
  exists d, In d ds /\ dish_record d = Some record.
Proof.
  intros H. apply dish_records_Some in H.
  induction H as [|d r ds rows Hd Hrest IH]; intros Hin; [destruct Hin|].
  destruct Hin as [<- | Hin].
  - exists d. split; [now left | exact Hd].
  - destruct (IH Hin) as (d' & Hd' & Hr). exists d'. split; [now right | exact Hr].
Qed.

Lemma dish_records_length (ds : list Dish.t) (rows : list json) :
  dish_records ds = Some rows -> List.length rows = List.length ds.
Proof.
  intros H. apply dish_records_Some in H. symmetry. eapply Forall2_length; eauto.
Qed.

Lemma dish_records_all (ds : list Dish.t) :
  (forall d, In d ds -> Decimal.round (Dish.price d) 2 <> None) ->
  exists rows, dish_records ds = Some rows.
Proof.
  intros Hall. destruct (dish_records ds) as [rows|] eqn:E; [eauto|].
  apply dish_records_None in E as (d & Hin & Hd).
  apply dish_record_None in Hd. now apply Hall in Hin.
Qed.

Lemma dish_records_app (ds1 ds2 : list Dish.t) :
  dish_records (ds1 ++ ds2)
  = match dish_records ds1, dish_records ds2 with
    | Some rows1, Some rows2 => Some (rows1 ++ rows2)%list
    | _, _ => None
    end.
Proof.
  induction ds1 as [|d ds1 IH]; simpl.
  - destruct (dish_records ds2); reflexivity.
  - destruct (dish_record d); [|reflexivity].
    rewrite IH. destruct (dish_records ds1), (dish_records ds2); reflexivity.
Qed.

(** * Listing *)

(** C8: with [skip = 0] and [limit = 10] the menu and submenu list
    handlers of either file answer 200 with at most 10 records, the
    renderings of the first rows of the scanned table in the table's
    order; so does the dish list handler when [round] accepts every price
    of the page, and where one is refused the handler ends in
    [InvalidOperation] without a response.  The table's order is the order
    of insertion, as a creation puts its row after all earlier ones. *)
Theorem C8_list_at_most_ten_in_order (db : DB) (menu_id submenu_id : ident) :
  let menu_record := fun menu =>
    menu_counts_content menu (count_submenus db (Menu.id menu))
                        (count_dishes_joined db (Menu.id menu)) in
  let submenu_record := fun submenu =>
    submenu_counts_content submenu (count_dishes db (SubMenu.id submenu)) in
  let dish_rendered := fun dish record =>
    exists r, Decimal.round (Dish.price dish) 2 = Some r /\
              record = dish_content dish (Decimal.str r) in
  let page := firstn 10 (dishes_of_submenu db submenu_id) in
  (exists rows,
     Main.read_menus 0 10 db = (JSONResponse (JArray rows) 200, db) /\
     MainAsyncio.read_menus 0 10 db = (JSONResponse (JArray rows) 200, db) /\
     rows = map menu_record (firstn 10 (menus db)) /\
     (List.length rows <= 10)%nat) /\
  (exists rows,
     Main.read_submenus_for_menu menu_id 0 10 db = (JSONResponse (JArray rows) 200, db) /\
     MainAsyncio.read_submenus_for_menu menu_id 0 10 db = (JSONResponse (JArray rows) 200, db) /\
     rows = map submenu_record (firstn 10 (submenus_of_menu db menu_id)) /\
     (List.length rows <= 10)%nat) /\
  ((forall dish, In dish page -> Decimal.round (Dish.price dish) 2 <> None) ->
   exists rows,
     Main.read_dish_for_submenu menu_id submenu_id 0 10 db = (JSONResponse (JArray rows) 200, db) /\
     MainAsyncio.read_dishes_for_submenu submenu_id 0 10 db = (JSONResponse (JArray rows) 200, db) /\
     Forall2 dish_rendered page rows /\
     (List.length rows <= 10)%nat) /\
  ((exists dish, In dish page /\ Decimal.round (Dish.price dish) 2 = None) ->
   Main.read_dish_for_submenu menu_id submenu_id 0 10 db = (Uncaught InvalidOperation, db) /\
   MainAsyncio.read_dishes_for_submenu submenu_id 0 10 db = (Uncaught InvalidOperation, db)) /\
  (forall new_id menu_data,
      menus (snd (Main.create_menu new_id menu_data db))
      = (menus db ++ [Menu.mk new_id (MenuSchemaAdd.title menu_data)
                              (MenuSchemaAdd.description menu_data)])%list) /\
  (forall new_id submenu_data,
      let db' := snd (Main.create_submenu_for_menu new_id menu_id submenu_data db) in
      submenus db' = submenus db \/
      submenus db'
      = (submenus db ++ [SubMenu.mk new_id (SubMenuSchemaAdd.title submenu_data)
                                    (SubMenuSchemaAdd.description submenu_data) menu_id])%list) /\
  (forall new_id dish_data,
      let db' := snd (Main.create_dish_for_submenu new_id menu_id submenu_id dish_data db) in
      dishes db' = dishes db \/
      dishes db'
      = (dishes db ++ [Dish.mk new_id (DishSchemaAdd.title dish_data)
                               (DishSchemaAdd.description dish_data)
                               (DishSchemaAdd.price dish_data) submenu_id])%list).
Proof.
  intros menu_record submenu_record dish_rendered page.
  split; [|split; [|split; [|split; [|split; [|split]]]]].
  - eexists; repeat split; rewrite length_map; apply firstn_le_length.
  - eexists; repeat split; rewrite length_map; apply firstn_le_length.
  - intros Hall. destruct (dish_records_all page Hall) as [rows Hrows].
    exists rows. unfold Main.read_dish_for_submenu, MainAsyncio.read_dishes_for_submenu.
    unfold q_limit, q_offset; simpl skipn. fold page. rewrite Hrows.
    repeat split.
    + apply dish_records_Some in Hrows.
      eapply Forall2_impl; [|exact Hrows]. intros d record Hd.
      now apply dish_record_Some in Hd.
    + rewrite (dish_records_length _ _ Hrows). apply firstn_le_length.
  - intros (dish & Hin & Hnone).
    assert (Hrows : dish_records page = None).
    { apply dish_records_None. exists dish. split; [exact Hin|]. now apply dish_record_None. }
    unfold Main.read_dish_for_submenu, MainAsyncio.read_dishes_for_submenu.
    unfold q_limit, q_offset; simpl skipn. fold page. now rewrite Hrows.
  - reflexivity.
  - intros new_id submenu_data. unfold Main.create_submenu_for_menu.
    destruct (first (menu_by_id db menu_id)); [|now left].
    destruct (first (submenu_title_elsewhere _ _ _)); [now left | now right].
  - intros new_id dish_data. unfold Main.create_dish_for_submenu.
    destruct (first (submenu_by_ids db menu_id submenu_id)); [|now left].
    destruct (first (dish_title_elsewhere _ _ _)); [now left|].
    destruct (dish_record _); now right.
Qed.

(** C8 exercised: the dish list of submenu s1 of the sample database, and
    the same list after a dish priced 1E+26 was sent to that submenu. *)
Lemma C8_witness :
  let caviar := Dish.mk "d2" "Caviar" "Black" price_1E26 "s1" in
  (exists rows,
      Main.read_dish_for_submenu "m1" "s1" 0 10 sample_db
      = (JSONResponse (JArray rows) 200, sample_db) /\
      MainAsyncio.read_dishes_for_submenu "s1" 0 10 sample_db
      = (JSONResponse (JArray rows) 200, sample_db) /\
      Forall2 (fun dish record =>
                 exists r, Decimal.round (Dish.price dish) 2 = Some r /\
                           record = dish_content dish (Decimal.str r))
              (firstn 10 (dishes_of_submenu sample_db "s1")) rows /\
      (List.length rows <= 10)%nat) /\
  Main.read_dish_for_submenu "m1" "s1" 0 10 (insert_dish caviar sample_db)
  = (Uncaught InvalidOperation, insert_dish caviar sample_db) /\
  MainAsyncio.read_dishes_for_submenu "s1" 0 10 (insert_dish caviar sample_db)
  = (Uncaught InvalidOperation, insert_dish caviar sample_db).
Proof.
  intros caviar. split.
  - destruct (C8_list_at_most_ten_in_order sample_db "m1" "s1") as (_ & _ & Hok & _).
    apply Hok. simpl. intros dish [<- | []]. vm_compute. discriminate.
  - destruct (C8_list_at_most_ten_in_order (insert_dish caviar sample_db) "m1" "s1")
      as (_ & _ & _ & Hraise & _).
    apply Hraise. exists caviar. split; [simpl; auto | reflexivity].
Defined.

(** * Error responses and the database *)

(** C10: whenever a handler of either file raises an [HTTPException] (the
    404 NotFound and 400 Conflict answers), the database it leaves is the
    database it found. *)
Theorem C10_error_leaves_db_unchanged
        (new_id : ident) (req : Request) (db : DB) (status_code : Z) (detail : string) :
  (fst (app_sync new_id req db) = HTTPException status_code detail ->
   snd (app_sync new_id req db) = db) /\
  (fst (app_async new_id req db) = HTTPException status_code detail ->
   snd (app_async new_id req db) = db).
Proof.
  split; destruct req; simpl;
    unfold Main.create_menu, Main.read_menus, Main.read_one_menu, Main.update_menu,
      Main.delete_menu, Main.create_submenu_for_menu, Main.read_submenus_for_menu,
      Main.read_one_submenu_for_menu, Main.update_submenu, Main.delete_submenu,
      Main.create_dish_for_submenu, Main.read_dish_for_submenu, Main.read_dish_for_submenu',
      Main.update_dish, Main.delete_menu',
      MainAsyncio.create_menu, MainAsyncio.read_menus, MainAsyncio.read_one_menu,
      MainAsyncio.update_menu, MainAsyncio.delete_menu, MainAsyncio.create_submenu_for_menu,
      MainAsyncio.read_submenus_for_menu, MainAsyncio.read_one_submenu_for_menu,
      MainAsyncio.update_submenu, MainAsyncio.delete_submenu,
      MainAsyncio.create_dish_for_submenu, MainAsyncio.read_dishes_for_submenu,
      MainAsyncio.read_dish_for_submenu, MainAsyncio.update_dish, MainAsyncio.delete_dish;
    run_handler.
Qed.

(** * Prices in responses *)






(** What [round] returns, when it returns, is the rescaled value. *)
Lemma round_rescale (p : Decimal.t) (n : Z) (r : Decimal.t) :
  Decimal.round p n = Some r -> r = Decimal.rescale p (- n).
Proof.
  unfold Decimal.round, Decimal.quantize.
  destruct (negb _); [discriminate|].
  destruct (Decimal.coeff p =? 0)%N eqn:E.
  - intros [= <-]. apply N.eqb_eq in E. unfold Decimal.rescale. rewrite E.
    destruct (- n <=? Decimal.exp p)%Z; [reflexivity|].
    cbv zeta. destruct (10 ^ Z.to_N (- n - Decimal.exp p))%N; reflexivity.
  - destruct (Decimal.Emax <? Decimal.adjusted p)%Z; [discriminate|].
    destruct (Decimal.prec <? _)%Z; [discriminate|].
    cbv zeta.
    destruct (Decimal.Emax <? _)%Z; [discriminate|].
    destruct (Decimal.prec <? _)%Z; [discriminate|].
    now intros [= <-].
Qed.

Lemma round_exp (p : Decimal.t) (n : Z) (r : Decimal.t) :
  Decimal.round p n = Some r -> Decimal.exp r = (- n)%Z.
Proof.
  intros H. apply round_rescale in H. subst r. unfold Decimal.rescale.
  destruct (- n <=? Decimal.exp p)%Z; reflexivity.
Qed.

Lemma round_sign (p : Decimal.t) (n : Z) (r : Decimal.t) :
  Decimal.round p n = Some r -> Decimal.sign r = Decimal.sign p.
Proof.
  intros H. apply round_rescale in H. subst r. unfold Decimal.rescale.
  destruct (- n <=? Decimal.exp p)%Z; reflexivity.
Qed.

(** A result of [round] fits the precision of the context. *)
Lemma round_ndigits (p : Decimal.t) (n : Z) (r : Decimal.t) :
  Decimal.round p n = Some r -> (Decimal.ndigits (Decimal.coeff r) <= Decimal.prec)%Z.
Proof.
  unfold Decimal.round, Decimal.quantize.
  destruct (negb _); [discriminate|].
  destruct (Decimal.coeff p =? 0)%N.
  - intros [= <-]. vm_compute. discriminate.
  - destruct (Decimal.Emax <? Decimal.adjusted p)%Z; [discriminate|].
    destruct (Decimal.prec <? _)%Z; [discriminate|].
    cbv zeta.
    destruct (Decimal.Emax <? _)%Z; [discriminate|].
    destruct (Decimal.prec <? _)%Z eqn:E; [discriminate|].
    intros [= <-]. now apply Z.ltb_ge in E.
Qed.

(** [==] holds between a decimal and itself. *)
Lemma decimal_eqb_refl (a : Decimal.t) : Decimal.eqb a a = true.
Proof.
  unfold Decimal.eqb. rewrite N.eqb_refl, Bool.eqb_reflx. simpl.
  now rewrite orb_true_r.
Qed.

(** The price [commit] leaves equals the assigned one in value. *)
Lemma flushed_price_eqb (loaded new : Decimal.t) :
  Decimal.eqb new (flushed_price loaded new) = true.
Proof.
  unfold flushed_price. destruct (Decimal.eqb new loaded) eqn:E; [exact E|].
  apply decimal_eqb_refl.
Qed.





Lemma dish_title_free db submenu_id title :
  ~ (exists d, In d (dishes db) /\ Dish.submenu_id d <> submenu_id /\ Dish.title d = title) ->
  dish_title_elsewhere db submenu_id title = [].
Proof.
  intros Hnone. unfold dish_title_elsewhere. apply filter_none. intros d Hd.
  destruct (andb _ _) eqn:E; [|reflexivity].
  exfalso. apply Hnone. apply andb_true_iff in E as [Hsub Ht].
  apply negb_true_iff, String.eqb_neq in Hsub. apply String.eqb_eq in Ht. eauto.
Qed.



(** * Counts at read time *)








Lemma count_dishes_insert d db :
  count_dishes (insert_dish d db) (Dish.submenu_id d) = (count_dishes db (Dish.submenu_id d) + 1)%Z.
Proof.
  unfold count_dishes, dishes_of_submenu, insert_dish, func_count; simpl.
  rewrite filter_app, length_app; simpl. rewrite String.eqb_refl; simpl. lia.
Qed.





(** * Creating a submenu *)

(** What [main.py]'s handler does, case by case: 404 when no menu has the
    id of the path; otherwise 400 when some submenu of another menu holds
    the title, and else 201 with the new record, which is inserted under
    the menu.  A submenu of the same menu holding the title is no
    obstacle, and the database changes in the 201 case only. *)
Lemma create_submenu_sync_spec new_id menu_id submenu_data db :
  let title := SubMenuSchemaAdd.title submenu_data in
  let run := Main.create_submenu_for_menu new_id menu_id submenu_data db in
  let elsewhere := exists s, In s (submenus db) /\
                             SubMenu.menu_id s <> menu_id /\ SubMenu.title s = title in
  ((forall m, In m (menus db) -> Menu.id m <> menu_id) ->
   run = (HTTPException 404 "menu not found", db)) /\
  ((exists m, In m (menus db) /\ Menu.id m = menu_id) ->
   (elsewhere -> run = (HTTPException 400 "Submenu already belongs to ather menu", db)) /\
   (~ elsewhere ->
    let new_submenu := SubMenu.mk new_id title (SubMenuSchemaAdd.description submenu_data)
                                  menu_id in
    run = (JSONResponse (submenu_content new_submenu) 201, insert_submenu new_submenu db))).
Proof.
  intros title run elsewhere. unfold run, Main.create_submenu_for_menu. split.
  - intros Habs. now rewrite (menu_absent_no_rows _ _ Habs).
  - intros Hex. destruct (menu_present_first _ _ Hex) as (m & -> & _). split.
    + intros (s & Hin & Hm & Ht).
      destruct (first_exists
                  (fun r => andb (negb (SubMenu.menu_id r =? menu_id)) (SubMenu.title r =? title))
                  (submenus db) s Hin) as [s' Hs'].
      { apply andb_true_iff. split; [apply negb_true_iff|]; [now apply String.eqb_neq|].
        now apply String.eqb_eq. }
      unfold submenu_title_elsewhere. fold title. now rewrite Hs'.
    + intros Hnone. unfold submenu_title_elsewhere. fold title.
      destruct (first _) as [s|] eqn:E; [|reflexivity].
      exfalso. apply Hnone. apply first_filter_Some in E as [Hin Hp].
      apply andb_true_iff in Hp as [Hm Ht]. apply negb_true_iff, String.eqb_neq in Hm.
      apply String.eqb_eq in Ht. exists s. auto.
Qed.

(** In [main.py] a creation that answered 201 can be repeated under the
    same menu with the same title: no uniqueness within a menu. *)
Lemma same_title_same_menu_twice id1 id2 menu_id submenu_data db content db1 :
  Main.create_submenu_for_menu id1 menu_id submenu_data db = (JSONResponse content 201, db1) ->
  let second := SubMenu.mk id2 (SubMenuSchemaAdd.title submenu_data)
                           (SubMenuSchemaAdd.description submenu_data) menu_id in
  Main.create_submenu_for_menu id2 menu_id submenu_data db1
  = (JSONResponse (submenu_content second) 201, insert_submenu second db1).
Proof.
  unfold Main.create_submenu_for_menu.
  destruct (first (menu_by_id db menu_id)) as [m|] eqn:Em; [|discriminate].
  destruct (first (submenu_title_elsewhere db menu_id _)) eqn:Et; [discriminate|].
  intros [= _ <-]. cbn zeta.
  replace (menu_by_id (insert_submenu _ db) menu_id) with (menu_by_id db menu_id)
    by reflexivity.
  rewrite Em. apply first_None_nil in Et.
  unfold submenu_title_elsewhere in *. cbn [insert_submenu submenus].
  rewrite filter_app, Et. cbn [filter SubMenu.menu_id SubMenu.title app].
  rewrite String.eqb_refl. reflexivity.
Qed.

(** C2: the database [main_asyncio.py] is in after two menus and, twice, a
    submenu Soups under the first menu were created (both creations answer
    201, as no same-menu uniqueness is enforced).  Creating Soups under the
    second menu is then answered with the 400 Conflict by [main.py], while
    [main_asyncio.py] ends in an uncaught [MultipleResultsFound]. *)
Theorem C2_async_conflict_check_raises :
  MainAsyncio.create_submenu_for_menu "s1" "m1" soups two_menus_db
  = (JSONResponse (submenu_content (SubMenu.mk "s1" "Soups" "Hot" "m1")) 201, one_soups_db) /\
  MainAsyncio.create_submenu_for_menu "s2" "m1" soups one_soups_db
  = (JSONResponse (submenu_content (SubMenu.mk "s2" "Soups" "Hot" "m1")) 201, two_soups_db) /\
  Main.create_submenu_for_menu "s2" "m1" soups one_soups_db
  = (JSONResponse (submenu_content (SubMenu.mk "s2" "Soups" "Hot" "m1")) 201, two_soups_db) /\
  Main.create_submenu_for_menu "s4" "m2" soups two_soups_db
  = (HTTPException 400 "Submenu already belongs to ather menu", two_soups_db) /\
  MainAsyncio.create_submenu_for_menu "s4" "m2" soups two_soups_db
  = (Uncaught MultipleResultsFound, two_soups_db).
Proof. repeat split. Qed.

(** * Creating a dish *)

(** What [main.py]'s handler does, case by case: 404 when no submenu has
    both ids of the path; otherwise 400 when some dish of another submenu
    holds the title; else the row is inserted with the price as given, and
    the answer is 201 with the new record, its price rounded to two
    places, unless [round] refuses the price: then the handler ends in
    [InvalidOperation] after the commit, and the row stays. *)
Lemma create_dish_sync_spec new_id menu_id submenu_id dish_data db :
  let title := DishSchemaAdd.title dish_data in
  let run := Main.create_dish_for_submenu new_id menu_id submenu_id dish_data db in
  let elsewhere := exists d, In d (dishes db) /\
                             Dish.submenu_id d <> submenu_id /\ Dish.title d = title in
  ((forall s, In s (submenus db) ->
              ~ (SubMenu.menu_id s = menu_id /\ SubMenu.id s = submenu_id)) ->
   run = (HTTPException 404 "Submenu not found", db)) /\
  ((exists s, In s (submenus db) /\ SubMenu.menu_id s = menu_id /\ SubMenu.id s = submenu_id) ->
   (elsewhere -> run = (HTTPException 400 "Dish already belongs to ather submenu", db)) /\
   (~ elsewhere ->
    let new_dish := Dish.mk new_id title (DishSchemaAdd.description dish_data)
                            (DishSchemaAdd.price dish_data) submenu_id in
    (forall r, Decimal.round (DishSchemaAdd.price dish_data) 2 = Some r ->
               run = (JSONResponse (dish_content new_dish (Decimal.str r)) 201,
                      insert_dish new_dish db)) /\
    (Decimal.round (DishSchemaAdd.price dish_data) 2 = None ->
     run = (Uncaught InvalidOperation, insert_dish new_dish db)))).
Proof.
  intros title run elsewhere. unfold run, Main.create_dish_for_submenu. split.
  - intros Habs. unfold submenu_by_ids. rewrite filter_none; [reflexivity|].
    intros s Hs. apply andb_false_iff.
    destruct (SubMenu.menu_id s =? menu_id) eqn:E1; [|now left].
    destruct (SubMenu.id s =? submenu_id) eqn:E2; [|now right].
    apply String.eqb_eq in E1, E2. exfalso. apply (Habs s Hs). auto.
  - intros (s & Hin & Hm & Hi).
    destruct (first_exists
                (fun r => andb (SubMenu.menu_id r =? menu_id) (SubMenu.id r =? submenu_id))
                (submenus db) s Hin) as [s' Hs'].
    { apply andb_true_iff. split; now apply String.eqb_eq. }
    unfold submenu_by_ids. rewrite Hs'. split.
    + intros (d & Hd & Hsub & Ht).
      destruct (first_exists
                  (fun r => andb (negb (Dish.submenu_id r =? submenu_id)) (Dish.title r =? title))
                  (dishes db) d Hd) as [d' Hd'].
      { apply andb_true_iff. split; [apply negb_true_iff|]; [now apply String.eqb_neq|].
        now apply String.eqb_eq. }
      unfold dish_title_elsewhere. fold title. now rewrite Hd'.
    + intros Hnone. fold title. rewrite (dish_title_free _ _ _ Hnone).
      cbn [first hd_error]. cbv zeta.
      set (new_dish := Dish.mk new_id title _ _ _).
      unfold dish_record, rounded_price. cbn [Dish.price new_dish]. split.
      * now intros r ->.
      * now intros ->.
Qed.

(** C6: the database [main_asyncio.py] is in after, twice, a dish Borscht
    was created under submenu s1 (both creations answer 201).  Creating
    Borscht under submenu s3 is then answered with the 400 Conflict by
    [main.py], while [main_asyncio.py] ends in an uncaught
    [MultipleResultsFound]; neither inserts a row. *)
Theorem C6_async_dish_conflict_check_raises :
  fst (MainAsyncio.create_dish_for_submenu "d1" "m1" "s1" borscht salads_db)
  = JSONResponse (dish_content (Dish.mk "d1" "Borscht" "Beetroot"
                                        (Decimal.mk false 1250 (-2)) "s1") "12.50") 201 /\
  fst (MainAsyncio.create_dish_for_submenu "d2" "m1" "s1" borscht one_borscht_db)
  = JSONResponse (dish_content (Dish.mk "d2" "Borscht" "Beetroot"
                                        (Decimal.mk false 1250 (-2)) "s1") "12.50") 201 /\
  Main.create_dish_for_submenu "d3" "m1" "s3" borscht two_borscht_db
  = (HTTPException 400 "Dish already belongs to ather submenu", two_borscht_db) /\
  MainAsyncio.create_dish_for_submenu "d3" "m1" "s3" borscht two_borscht_db
  = (Uncaught MultipleResultsFound, two_borscht_db).
Proof. repeat split. Qed.

(** * The two files compared *)

Section Agreement.

Variable db : DB.
Hypothesis Hkeys : keys_unique db.

Lemma menu_rows_le1 menu_id : (List.length (menu_by_id db menu_id) <= 1)%nat.
Proof. apply unique_key_filter, Hkeys. Qed.

Lemma submenu_rows_le1 menu_id submenu_id :
  (List.length (submenu_by_ids db menu_id submenu_id) <= 1)%nat.
Proof.
  unfold submenu_by_ids.
  etransitivity; [apply filter_and_le|]. apply unique_key_filter, Hkeys.
Qed.

Lemma dish_rows_le1 submenu_id dish_id :
  (List.length (dish_by_ids db submenu_id dish_id) <= 1)%nat.
Proof.
  unfold dish_by_ids.
  etransitivity; [apply filter_and_le|]. apply unique_key_filter, Hkeys.
Qed.

Lemma dish_rows_le1' submenu_id dish_id :
  (List.length (filter (fun d => andb (Dish.id d =? dish_id)%string
                                      (Dish.submenu_id d =? submenu_id)%string)
                       (dishes db)) <= 1)%nat.
Proof.
  etransitivity; [apply filter_and_le_l|]. apply unique_key_filter, Hkeys.
Qed.

(** Away from the parting requests the two files answer alike and leave
    the same database. *)
Lemma sync_async_agree new_id req :
  ~ parting req db -> app_sync new_id req db = app_async new_id req db.
Proof.
  intros Hnp. destruct req; simpl in *; try reflexivity.
  - unfold Main.read_one_menu, MainAsyncio.read_one_menu.
    now rewrite (scalar_first_le1 _ (menu_rows_le1 _)).
  - unfold Main.update_menu, MainAsyncio.update_menu.
    rewrite (scalar_first_le1 _ (menu_rows_le1 _)).
    destruct (first _) eqn:E; [reflexivity|]. apply first_None_nil in E. contradiction.
  - unfold Main.delete_menu, MainAsyncio.delete_menu.
    rewrite (scalar_first_le1 _ (menu_rows_le1 _)).
    destruct (first _) eqn:E; [reflexivity|]. apply first_None_nil in E. contradiction.
  - unfold Main.create_submenu_for_menu, MainAsyncio.create_submenu_for_menu.
    rewrite (scalar_first_le1 _ (menu_rows_le1 _)).
    destruct (first (menu_by_id db menu_id)) eqn:E; [|reflexivity].
    rewrite scalar_first_le1; [reflexivity|].
    assert (menu_by_id db menu_id <> []) by (intros H; rewrite H in E; discriminate).
    apply Nat.nlt_ge. intros Hlt. apply Hnp. split; [assumption | lia].
  - unfold Main.read_one_submenu_for_menu, MainAsyncio.read_one_submenu_for_menu.
    rewrite (scalar_first_le1 _ (submenu_rows_le1 _ _)).
    destruct (first _) as [s|] eqn:E; [|reflexivity].
    apply first_filter_Some in E as [_ Hp]. apply andb_true_iff in Hp as [_ Hid].
    apply String.eqb_eq in Hid. now rewrite Hid.
  - unfold Main.update_submenu, MainAsyncio.update_submenu.
    now rewrite (scalar_first_le1 _ (submenu_rows_le1 _ _)).
  - unfold Main.delete_submenu, MainAsyncio.delete_submenu.
    now rewrite (scalar_first_le1 _ (submenu_rows_le1 _ _)).
  - unfold Main.create_dish_for_submenu, MainAsyncio.create_dish_for_submenu.
    rewrite (scalar_first_le1 _ (submenu_rows_le1 _ _)).
    destruct (first (submenu_by_ids db menu_id submenu_id)) eqn:E; [|reflexivity].
    rewrite scalar_first_le1; [reflexivity|].
    assert (submenu_by_ids db menu_id submenu_id <> [])
      by (intros H; rewrite H in E; discriminate).
    apply Nat.nlt_ge. intros Hlt. apply Hnp. split; [assumption | lia].
  - unfold Main.read_dish_for_submenu', MainAsyncio.read_dish_for_submenu.
    now rewrite (scalar_first_le1 _ (dish_rows_le1' _ _)).
  - unfold Main.update_dish, MainAsyncio.update_dish.
    now rewrite (scalar_first_le1 _ (dish_rows_le1 _ _)).
  - unfold Main.delete_menu', MainAsyncio.delete_dish.
    now rewrite (scalar_first_le1 _ (dish_rows_le1 _ _)).
Qed.

End Agreement.

(** On a parting request the two files answer differently, whatever the
    database. *)
Lemma sync_async_part new_id req db :
  parting req db -> fst (app_sync new_id req db) <> fst (app_async new_id req db).
Proof.
  destruct req; simpl; try contradiction.
  - intros H. unfold Main.update_menu, MainAsyncio.update_menu. rewrite H. discriminate.
  - intros H. unfold Main.delete_menu, MainAsyncio.delete_menu. rewrite H. discriminate.
  - intros [Hm Ht]. unfold Main.create_submenu_for_menu, MainAsyncio.create_submenu_for_menu.
    apply scalar_raises in Ht. rewrite Ht.
    destruct (menu_by_id db menu_id) as [|m [|m' ms]]; [contradiction| |]; simpl.
    + destruct (submenu_title_elsewhere _ _ _); simpl; discriminate.
    + destruct (submenu_title_elsewhere _ _ _); simpl; discriminate.
  - intros [Hs Ht]. unfold Main.create_dish_for_submenu, MainAsyncio.create_dish_for_submenu.
    apply scalar_raises in Ht. rewrite Ht.
    destruct (submenu_by_ids db menu_id submenu_id) as [|s [|s' ss]]; [contradiction| |]; simpl.
    + destruct (dish_title_elsewhere _ _ _); simpl; discriminate.
    + destruct (dish_title_elsewhere _ _ _); simpl; discriminate.
Qed.

(** C1: on the empty database, PATCH and DELETE of a menu that does not
    exist end [main.py]'s handler without a response, while
    [main_asyncio.py]'s handler raises the 404 [HTTPException]; the two
    files do not produce the same response there. *)
Theorem C1_sync_async_part_on_absent_menu :
  let menu_data := MenuSchemaUpdate.mk "Lunch" "Served at noon" in
  app_sync "m2" (PATCH_menu "m1" menu_data) empty_db = (ReturnedNone, empty_db) /\
  app_async "m2" (PATCH_menu "m1" menu_data) empty_db
  = (HTTPException 404 "menu not found", empty_db) /\
  app_sync "m2" (DELETE_menu "m1") empty_db = (ReturnedNone, empty_db) /\
  app_async "m2" (DELETE_menu "m1") empty_db
  = (HTTPException 404 "menu not found", empty_db) /\
  fst (app_sync "m2" (PATCH_menu "m1" menu_data) empty_db)
  <> fst (app_async "m2" (PATCH_menu "m1" menu_data) empty_db) /\
  fst (app_sync "m2" (DELETE_menu "m1") empty_db)
  <> fst (app_async "m2" (DELETE_menu "m1") empty_db).
Proof. repeat split; discriminate. Qed.

(** * The statements exercised on the sample database *)

Lemma sample_db_menu_keys : NoDup (map Menu.id (menus sample_db)).
Proof.
  simpl. repeat constructor; simpl; intuition discriminate.
Qed.


(** C7 exercised: menu m1 is deleted from the sample database, which keeps
    its two submenus and its dish. *)
Lemma C7_witness :
  let db' := snd (Main.delete_menu "m1" sample_db) in
  submenus db' = submenus sample_db /\
  dishes db' = dishes sample_db /\
  menus db' = filter (fun r => negb (Menu.id r =? "m1")) (menus sample_db) /\
  (JSONResponse (JObject []) 200 = JSONResponse (JObject []) 200 ->
   S (List.length (menus db')) = List.length (menus sample_db)).
Proof.
  apply (C7_delete_menu_no_cascade sample_db _ "m1" (JSONResponse (JObject []) 200)).
  - exact sample_db_menu_keys.
  - left. reflexivity.
Defined.

(** C9 exercised on menu m1 of the sample database. *)
Lemma C9_witness :
  sum_dishes_subquery sample_db "m1" = Some (count_dishes_joined sample_db "m1") /\
  exists menu',
    In menu' (menus sample_db) /\ Menu.id menu' = "m1" /\
    Main.read_one_menu "m1" sample_db =
      (JSONResponse (menu_counts_content menu' (count_submenus sample_db "m1")
                                         (count_dishes_joined sample_db "m1")) 200, sample_db).
Proof.
  apply (C9_dishes_count_formulas_agree sample_db (Menu.mk "m1" "Lunch" "Served at noon")).
  simpl; auto.
Defined.

(** C10 exercised: a read of the absent menu m9 in [main.py] (404) and a
    creation of Soups under m2 in [main_asyncio.py] (400, Soups belongs to
    m1). *)
Lemma C10_witness :
  snd (app_sync "m3" (GET_menu "m9") sample_db) = sample_db /\
  snd (app_async "s3" (POST_submenus "m2" soups) sample_db) = sample_db.
Proof.
  split.
  - apply (proj1 (C10_error_leaves_db_unchanged "m3" (GET_menu "m9") sample_db
                                                404 "menu not found")).
    reflexivity.
  - apply (proj2 (C10_error_leaves_db_unchanged "s3" (POST_submenus "m2" soups) sample_db
                                                400 "Submenu already belongs to ather menu")).
    reflexivity.
Defined.

(** * Further properties of the handlers *)

(** ** What every answer looks like *)

(** A creation answers 201 and every other route 200; a raised
    [HTTPException] carries 404, or 400 from a submenu or dish creation;
    only updates and deletes end without a response.  Both files. *)
Theorem status_codes (new_id : ident) (req : Request) (db : DB) :
  status_ok req (fst (app_sync new_id req db)) /\
  status_ok req (fst (app_async new_id req db)).
Proof.
  split; destruct req; simpl; unfold_handlers;
    split_queries;
    simpl; auto; right; repeat split; discriminate.
Qed.

Lemma scalar_Some {A} (rows : list A) (r : A) :
  scalar_one_or_none rows = inr (Some r) <-> rows = [r].
Proof.
  destruct rows as [|x [|y ys]]; simpl; split; intros H; try discriminate;
    try (injection H as ->; reflexivity).
Qed.

Lemma scalar_None {A} (rows : list A) :
  scalar_one_or_none rows = inr None <-> rows = [].
Proof.
  destruct rows as [|x [|y ys]]; simpl; split; intros H; try discriminate; reflexivity.
Qed.

Lemma scalar_le1_no_raise {A} (rows : list A) (e : exn) :
  (List.length rows <= 1)%nat -> scalar_one_or_none rows <> inl e.
Proof. intros H. rewrite (scalar_first_le1 _ H). discriminate. Qed.







(** ** What changes the database *)

(** A read never changes the database, and neither does a request that
    ends in an [HTTPException], without a response or in
    [MultipleResultsFound].  Besides the answered creations, updates and
    deletes, one request writes: a dish creation whose price [round]
    refuses has committed its row when [round] raises.  Both files. *)
Theorem only_answered_writes_change_db (new_id : ident) (req : Request) (db : DB) :
  let unanswered_keeps := fun run : Outcome * DB =>
    (is_read req = true -> snd run = db) /\
    ((forall content status, fst run <> JSONResponse content status) ->
     snd run = db \/
     exists menu_id submenu_id dish_data,
       req = POST_dishes menu_id submenu_id dish_data /\
       Decimal.round (DishSchemaAdd.price dish_data) 2 = None /\
       run = (Uncaught InvalidOperation,
              insert_dish (Dish.mk new_id (DishSchemaAdd.title dish_data)
                                   (DishSchemaAdd.description dish_data)
                                   (DishSchemaAdd.price dish_data) submenu_id) db)) in
  unanswered_keeps (app_sync new_id req db) /\ unanswered_keeps (app_async new_id req db).
Proof.
  intros unanswered_keeps. unfold unanswered_keeps. split; split.
  - destruct req; try discriminate; intros _; simpl; unfold_handlers;
      split_queries; reflexivity.
  - destruct req; simpl; unfold_handlers;
      try (split_queries; simpl; intros Hno; try (now left);
           exfalso; eapply Hno; reflexivity).
    destruct (first _); [|now left].
    destruct (first _); [now left|]. cbv zeta.
    destruct (dish_record _) eqn:E; simpl; intros Hno.
    + exfalso. eapply Hno. reflexivity.
    + right. apply dish_record_None in E. eauto 10.
  - destruct req; try discriminate; intros _; simpl; unfold_handlers;
      split_queries; reflexivity.
  - destruct req; simpl; unfold_handlers;
      try (split_queries; simpl; intros Hno; try (now left);
           exfalso; eapply Hno; reflexivity).
    destruct (scalar_one_or_none _) as [?|[?|]]; try (now left).
    destruct (scalar_one_or_none _) as [?|[?|]]; try (now left). cbv zeta.
    destruct (dish_record _) eqn:E; simpl; intros Hno.
    + exfalso. eapply Hno. reflexivity.
    + right. apply dish_record_None in E. eauto 10.
Qed.

(** Exercised: a list read; an update of the absent submenu s9 that ends
    without a response; a dish priced 1E+26 sent to submenu s1, whose row
    is in the table although no response was built. *)
Lemma only_answered_writes_change_db_witness :
  let caviar := DishSchemaAdd.mk "Caviar" "Black" price_1E26 in
  snd (app_sync "m3" (GET_submenus "m1" 0 10) sample_db) = sample_db /\
  snd (app_async "m3" (PATCH_submenu "m1" "s9" (SubMenuSchemaUpdate.mk "Stews" "Slow"))
                 sample_db) = sample_db /\
  app_sync "d2" (POST_dishes "m1" "s1" caviar) sample_db
  = (Uncaught InvalidOperation,
     insert_dish (Dish.mk "d2" "Caviar" "Black" price_1E26 "s1") sample_db).
Proof.
  intros caviar. split; [|split].
  - apply (proj1 (proj1 (only_answered_writes_change_db "m3" (GET_submenus "m1" 0 10)
                                                         sample_db))).
    reflexivity.
  - destruct (proj2 (proj2 (only_answered_writes_change_db
                              "m3" (PATCH_submenu "m1" "s9"
                                                  (SubMenuSchemaUpdate.mk "Stews" "Slow"))
                              sample_db)))
      as [Hsame | (m & s & d & Hreq & _)].
    + intros content status. discriminate.
    + exact Hsame.
    + discriminate Hreq.
  - destruct (proj2 (proj1 (only_answered_writes_change_db
                              "d2" (POST_dishes "m1" "s1" caviar) sample_db)))
      as [Hsame | (m & s & d & Hreq & _ & Hrun)].
    + intros content status. discriminate.
    + discriminate Hsame.
    + injection Hreq as <- <- <-. exact Hrun.
Defined.

(** A request touches no table but the one of its own route: menu routes
    leave submenus and dishes alone, submenu routes menus and dishes, dish
    routes menus and submenus.  Both files. *)
Theorem other_tables_untouched (new_id : ident) (req : Request) (db : DB) :
  let same_elsewhere := fun db' =>
    match entity req with
    | EMenu => submenus db' = submenus db /\ dishes db' = dishes db
    | ESubMenu => menus db' = menus db /\ dishes db' = dishes db
    | EDish => menus db' = menus db /\ submenus db' = submenus db
    end in
  same_elsewhere (snd (app_sync new_id req db)) /\
  same_elsewhere (snd (app_async new_id req db)).
Proof.
  split; destruct req; simpl; unfold_handlers;
    split_queries; simpl; auto.
Qed.

(** ** Delete, then read *)

Lemma filter_after_delete {A} (p q : A -> bool) (rows : list A) :
  (forall r, p r = true -> q r = true) ->
  filter p (filter (fun r => negb (q r)) rows) = [].
Proof.
  intros Hpq. apply filter_none. intros r Hr. apply filter_In in Hr as [_ Hq].
  destruct (p r) eqn:Hp; [|reflexivity]. rewrite (Hpq _ Hp) in Hq. discriminate.
Qed.

Lemma first_of_scalar {A} (rows : list A) (r : A) :
  scalar_one_or_none rows = inr (Some r) -> first rows = Some r.
Proof. intros H. apply scalar_Some in H. now rewrite H. Qed.

(** An answered menu delete, of either file, found a row with the given id
    and removed the rows with that id. *)
Lemma delete_menu_answered db db' menu_id content status :
  Main.delete_menu menu_id db = (JSONResponse content status, db') \/
  MainAsyncio.delete_menu menu_id db = (JSONResponse content status, db') ->
  exists m, first (menu_by_id db menu_id) = Some m /\ Menu.id m = menu_id /\
            db' = delete_menu_row m db.
Proof.
  assert (Hid : forall m, first (menu_by_id db menu_id) = Some m -> Menu.id m = menu_id).
  { intros m Hm. apply first_filter_Some in Hm as [_ Hm]. now apply String.eqb_eq. }
  intros [H | H].
  - unfold Main.delete_menu in H.
    destruct (first (menu_by_id db menu_id)) as [m|] eqn:E; [|discriminate].
    injection H as _ _ <-. eauto.
  - unfold MainAsyncio.delete_menu in H.
    destruct (scalar_one_or_none (menu_by_id db menu_id)) as [?|[m|]] eqn:E;
      try discriminate.
    injection H as _ _ <-. apply first_of_scalar in E. eauto.
Qed.

Lemma delete_submenu_answered db db' menu_id submenu_id content status :
  Main.delete_submenu menu_id submenu_id db = (JSONResponse content status, db') \/
  MainAsyncio.delete_submenu menu_id submenu_id db = (JSONResponse content status, db') ->
  exists s, first (submenu_by_ids db menu_id submenu_id) = Some s /\
            SubMenu.menu_id s = menu_id /\ SubMenu.id s = submenu_id /\
            db' = delete_submenu_row s db.
Proof.
  assert (Hid : forall s, first (submenu_by_ids db menu_id submenu_id) = Some s ->
                          SubMenu.menu_id s = menu_id /\ SubMenu.id s = submenu_id).
  { intros s Hs. apply first_filter_Some in Hs as [_ Hs].
    apply andb_true_iff in Hs as [H1 H2]. split; now apply String.eqb_eq. }
  intros [H | H].
  - unfold Main.delete_submenu in H.
    destruct (first (submenu_by_ids db menu_id submenu_id)) as [s|] eqn:E; [|discriminate].
    injection H as _ _ <-. destruct (Hid s eq_refl). eauto 6.
  - unfold MainAsyncio.delete_submenu in H.
    destruct (scalar_one_or_none (submenu_by_ids db menu_id submenu_id)) as [?|[s|]] eqn:E;
      try discriminate.
    injection H as _ _ <-. apply first_of_scalar in E. destruct (Hid s E). eauto 6.
Qed.

Lemma delete_dish_answered db db' menu_id submenu_id dish_id content status :
  Main.delete_menu' menu_id submenu_id dish_id db = (JSONResponse content status, db') \/
  MainAsyncio.delete_dish submenu_id dish_id db = (JSONResponse content status, db') ->
  exists d, first (dish_by_ids db submenu_id dish_id) = Some d /\
            Dish.submenu_id d = submenu_id /\ Dish.id d = dish_id /\
            db' = delete_dish_row d db.
Proof.
  assert (Hid : forall d, first (dish_by_ids db submenu_id dish_id) = Some d ->
                          Dish.submenu_id d = submenu_id /\ Dish.id d = dish_id).
  { intros d Hd. apply first_filter_Some in Hd as [_ Hd].
    apply andb_true_iff in Hd as [H1 H2]. split; now apply String.eqb_eq. }
  intros [H | H].
  - unfold Main.delete_menu' in H.
    destruct (first (dish_by_ids db submenu_id dish_id)) as [d|] eqn:E; [|discriminate].
    injection H as _ _ <-. destruct (Hid d eq_refl). eauto 6.
  - unfold MainAsyncio.delete_dish in H.
    destruct (scalar_one_or_none (dish_by_ids db submenu_id dish_id)) as [?|[d|]] eqn:E;
      try discriminate.
    injection H as _ _ <-. apply first_of_scalar in E. destruct (Hid d E). eauto 6.
Qed.

(** After a menu delete that was answered (by either file), reading that
    menu raises 404 in both files, and deleting it again ends without a
    response in [main.py] and raises 404 in [main_asyncio.py]. *)
Theorem deleted_menu_is_gone (db db' : DB) (menu_id : ident) (content : json) (status : Z) :
  Main.delete_menu menu_id db = (JSONResponse content status, db') \/
  MainAsyncio.delete_menu menu_id db = (JSONResponse content status, db') ->
  Main.read_one_menu menu_id db' = (HTTPException 404 "menu not found", db') /\
  MainAsyncio.read_one_menu menu_id db' = (HTTPException 404 "menu not found", db') /\
  Main.delete_menu menu_id db' = (ReturnedNone, db') /\
  MainAsyncio.delete_menu menu_id db' = (HTTPException 404 "menu not found", db').
Proof.
  intros H. destruct (delete_menu_answered _ _ _ _ _ H) as (m & _ & Hid & ->).
  assert (Hgone : menu_by_id (delete_menu_row m db) menu_id = []).
  { unfold menu_by_id, delete_menu_row; simpl. rewrite Hid.
    now apply (filter_after_delete (fun r => Menu.id r =? menu_id)
                                   (fun r => Menu.id r =? menu_id)). }
  unfold Main.read_one_menu, MainAsyncio.read_one_menu, Main.delete_menu,
    MainAsyncio.delete_menu.
  rewrite Hgone. simpl. auto.
Qed.

Lemma deleted_menu_is_gone_witness :
  let db' := delete_menu_row (Menu.mk "m2" "Dinner" "Served at night") sample_db in
  Main.read_one_menu "m2" db' = (HTTPException 404 "menu not found", db') /\
  MainAsyncio.read_one_menu "m2" db' = (HTTPException 404 "menu not found", db') /\
  Main.delete_menu "m2" db' = (ReturnedNone, db') /\
  MainAsyncio.delete_menu "m2" db' = (HTTPException 404 "menu not found", db').
Proof.
  apply (deleted_menu_is_gone sample_db _ "m2" (JObject []) 200).
  right. reflexivity.
Defined.

(** After a submenu delete that was answered, reading that submenu under
    the same menu raises 404 in both files, and a repeated delete or an
    update ends without a response. *)
Theorem deleted_submenu_is_gone
        (db db' : DB) (menu_id submenu_id : ident) (content : json) (status : Z)
        (submenu_data : SubMenuSchemaUpdate.t) :
  Main.delete_submenu menu_id submenu_id db = (JSONResponse content status, db') \/
  MainAsyncio.delete_submenu menu_id submenu_id db = (JSONResponse content status, db') ->
  Main.read_one_submenu_for_menu menu_id submenu_id db'
  = (HTTPException 404 "submenu not found", db') /\
  MainAsyncio.read_one_submenu_for_menu menu_id submenu_id db'
  = (HTTPException 404 "submenu not found", db') /\
  Main.delete_submenu menu_id submenu_id db' = (ReturnedNone, db') /\
  MainAsyncio.delete_submenu menu_id submenu_id db' = (ReturnedNone, db') /\
  Main.update_submenu menu_id submenu_id submenu_data db' = (ReturnedNone, db') /\
  MainAsyncio.update_submenu menu_id submenu_id submenu_data db' = (ReturnedNone, db').
Proof.
  intros H. destruct (delete_submenu_answered _ _ _ _ _ _ H) as (s & _ & _ & Hid & ->).
  assert (Hgone : submenu_by_ids (delete_submenu_row s db) menu_id submenu_id = []).
  { unfold submenu_by_ids, delete_submenu_row; simpl. rewrite Hid.
    apply (filter_after_delete
             (fun r => andb (SubMenu.menu_id r =? menu_id) (SubMenu.id r =? submenu_id))
             (fun r => SubMenu.id r =? submenu_id)).
    intros r Hr. now apply andb_true_iff in Hr as [_ Hr]. }
  unfold Main.read_one_submenu_for_menu, MainAsyncio.read_one_submenu_for_menu,
    Main.delete_submenu, MainAsyncio.delete_submenu, Main.update_submenu,
    MainAsyncio.update_submenu.
  rewrite Hgone. simpl. repeat split.
Qed.

Lemma deleted_submenu_is_gone_witness :
  let db' := delete_submenu_row (SubMenu.mk "s2" "Salads" "Cold" "m1") sample_db in
  let submenu_data := SubMenuSchemaUpdate.mk "Stews" "Slow" in
  Main.read_one_submenu_for_menu "m1" "s2" db'
  = (HTTPException 404 "submenu not found", db') /\
  MainAsyncio.read_one_submenu_for_menu "m1" "s2" db'
  = (HTTPException 404 "submenu not found", db') /\
  Main.delete_submenu "m1" "s2" db' = (ReturnedNone, db') /\
  MainAsyncio.delete_submenu "m1" "s2" db' = (ReturnedNone, db') /\
  Main.update_submenu "m1" "s2" submenu_data db' = (ReturnedNone, db') /\
  MainAsyncio.update_submenu "m1" "s2" submenu_data db' = (ReturnedNone, db').
Proof.
  apply (deleted_submenu_is_gone sample_db _ "m1" "s2" (JObject []) 200).
  left. reflexivity.
Defined.

(** After a dish delete that was answered, reading that dish raises 404 in
    both files, whatever menu the path names, and a repeated delete or an
    update ends without a response. *)
Theorem deleted_dish_is_gone
        (db db' : DB) (menu_id menu_id' submenu_id dish_id : ident)
        (content : json) (status : Z) (dish_data : DishSchemaUpdate.t) :
  Main.delete_menu' menu_id submenu_id dish_id db = (JSONResponse content status, db') \/
  MainAsyncio.delete_dish submenu_id dish_id db = (JSONResponse content status, db') ->
  Main.read_dish_for_submenu' menu_id' submenu_id dish_id db'
  = (HTTPException 404 "dish not found", db') /\
  MainAsyncio.read_dish_for_submenu submenu_id dish_id db'
  = (HTTPException 404 "dish not found", db') /\
  Main.delete_menu' menu_id' submenu_id dish_id db' = (ReturnedNone, db') /\
  MainAsyncio.delete_dish submenu_id dish_id db' = (ReturnedNone, db') /\
  Main.update_dish menu_id' submenu_id dish_id dish_data db' = (ReturnedNone, db') /\
  MainAsyncio.update_dish submenu_id dish_id dish_data db' = (ReturnedNone, db').
Proof.
  intros H. destruct (delete_dish_answered _ _ _ _ _ _ _ H) as (d & _ & _ & Hid & ->).
  assert (Hgone : dish_by_ids (delete_dish_row d db) submenu_id dish_id = []).
  { unfold dish_by_ids, delete_dish_row; simpl. rewrite Hid.
    apply (filter_after_delete
             (fun r => andb (Dish.submenu_id r =? submenu_id) (Dish.id r =? dish_id))
             (fun r => Dish.id r =? dish_id)).
    intros r Hr. now apply andb_true_iff in Hr as [_ Hr]. }
  assert (Hgone' : filter (fun r => andb (Dish.id r =? dish_id)
                                         (Dish.submenu_id r =? submenu_id))
                          (dishes (delete_dish_row d db)) = []).
  { unfold delete_dish_row; simpl. rewrite Hid.
    apply (filter_after_delete
             (fun r => andb (Dish.id r =? dish_id) (Dish.submenu_id r =? submenu_id))
             (fun r => Dish.id r =? dish_id)).
    intros r Hr. now apply andb_true_iff in Hr as [Hr _]. }
  unfold Main.read_dish_for_submenu', MainAsyncio.read_dish_for_submenu,
    Main.delete_menu', MainAsyncio.delete_dish, Main.update_dish, MainAsyncio.update_dish.
  rewrite Hgone, Hgone'. simpl. repeat split.
Qed.

Lemma deleted_dish_is_gone_witness :
  let db' := delete_dish_row (Dish.mk "d1" "Borscht" "Beetroot"
                                      (Decimal.mk false 1250 (-2)) "s1") sample_db in
  let dish_data := DishSchemaUpdate.mk "Shchi" "Cabbage" price_19_999 in
  Main.read_dish_for_submenu' "m2" "s1" "d1" db'
  = (HTTPException 404 "dish not found", db') /\
  MainAsyncio.read_dish_for_submenu "s1" "d1" db'
  = (HTTPException 404 "dish not found", db') /\
  Main.delete_menu' "m2" "s1" "d1" db' = (ReturnedNone, db') /\
  MainAsyncio.delete_dish "s1" "d1" db' = (ReturnedNone, db') /\
  Main.update_dish "m2" "s1" "d1" dish_data db' = (ReturnedNone, db') /\
  MainAsyncio.update_dish "s1" "d1" dish_data db' = (ReturnedNone, db').
Proof.
  apply (deleted_dish_is_gone sample_db _ "m1" "m2" "s1" "d1" (JObject []) 200).
  left. reflexivity.
Defined.

(** ** Invariants of the tables *)

Lemma map_key_replace {A} (key : A -> ident) (k : ident) (u : A) (rows : list A) :
  key u = k ->
  map key (map (fun r => if key r =? k then u else r) rows) = map key rows.
Proof.
  intros Hu. rewrite map_map. apply map_ext. intros r.
  destruct (key r =? k) eqn:E; [|reflexivity].
  apply String.eqb_eq in E. congruence.
Qed.

Lemma NoDup_map_filter {A} (key : A -> ident) (p : A -> bool) (rows : list A) :
  NoDup (map key rows) -> NoDup (map key (filter p rows)).
Proof.
  induction rows as [|x xs IH]; simpl; intros Hnd; [constructor|].
  inversion Hnd as [|? ? Hnotin Hnd']; subst.
  destruct (p x); simpl; auto. constructor; auto.
  intros Hin. apply Hnotin. apply in_map_iff in Hin as (r & Hr & Hin).
  apply filter_In in Hin as [Hin _]. apply in_map_iff. eauto.
Qed.

Lemma NoDup_map_snoc {A} (key : A -> ident) (x : A) (rows : list A) :
  NoDup (map key rows) -> ~ In (key x) (map key rows) ->
  NoDup (map key (rows ++ [x])).
Proof.
  intros Hnd Hfresh. rewrite map_app. apply NoDup_app; simpl; auto.
  - repeat constructor. intros [].
  - intros a Ha [<- | []]. contradiction.
Qed.

(** With primary keys unique and the assigned key new to its table, every
    request of either file leaves the primary keys unique. *)
Theorem keys_stay_unique (new_id : ident) (req : Request) (db : DB) :
  keys_unique db ->
  fresh_for new_id req db ->
  keys_unique (snd (app_sync new_id req db)) /\
  keys_unique (snd (app_async new_id req db)).
Proof.
  intros (Hm & Hs & Hd) Hfresh.
  split; destruct req; simpl in Hfresh |- *; unfold_handlers;
    split_queries;
    cbn [snd]; unfold keys_unique, insert_menu, insert_submenu, insert_dish,
      update_menu_row, update_submenu_row, update_dish_row,
      delete_menu_row, delete_submenu_row, delete_dish_row;
    cbn [menus submenus dishes Menu.id SubMenu.id Dish.id];
    rewrite ?map_key_replace by reflexivity;
    repeat split;
    auto using NoDup_map_filter, NoDup_map_snoc.
Qed.

Lemma sample_db_keys : keys_unique sample_db.
Proof.
  repeat split; simpl; repeat constructor; simpl; intuition discriminate.
Qed.

(** Exercised: a second Borscht is created under submenu s1 and key d2,
    new to the sample database. *)
Lemma keys_stay_unique_witness :
  keys_unique (snd (app_sync "d2" (POST_dishes "m1" "s1" borscht) sample_db)) /\
  keys_unique (snd (app_async "d2" (POST_dishes "m1" "s1" borscht) sample_db)).
Proof.
  apply (keys_stay_unique "d2" (POST_dishes "m1" "s1" borscht) sample_db).
  - exact sample_db_keys.
  - simpl. intros [H | []]. discriminate.
Defined.

(** *** What an answered write did, in either file *)

Lemma create_submenu_answered new_id menu_id submenu_data db db' content status :
  Main.create_submenu_for_menu new_id menu_id submenu_data db
  = (JSONResponse content status, db') \/
  MainAsyncio.create_submenu_for_menu new_id menu_id submenu_data db
  = (JSONResponse content status, db') ->
  let new_submenu := SubMenu.mk new_id (SubMenuSchemaAdd.title submenu_data)
                                (SubMenuSchemaAdd.description submenu_data) menu_id in
  (exists m, In m (menus db) /\ Menu.id m = menu_id) /\
  submenu_title_elsewhere db menu_id (SubMenuSchemaAdd.title submenu_data) = [] /\
  content = submenu_content new_submenu /\ status = 201%Z /\
  db' = insert_submenu new_submenu db.
Proof.
  assert (Hm : forall m, first (menu_by_id db menu_id) = Some m ->
                         exists m, In m (menus db) /\ Menu.id m = menu_id).
  { intros m Hm. apply first_filter_Some in Hm as [Hin Hm].
    apply String.eqb_eq in Hm. eauto. }
  intros [H | H] new_submenu.
  - unfold Main.create_submenu_for_menu in H.
    destruct (first (menu_by_id db menu_id)) as [m|] eqn:E; [|discriminate].
    destruct (first (submenu_title_elsewhere _ _ _)) eqn:Et; [discriminate|].
    apply first_None_nil in Et. injection H as <- <- <-. eauto 6.
  - unfold MainAsyncio.create_submenu_for_menu in H.
    destruct (scalar_one_or_none (menu_by_id db menu_id)) as [?|[m|]] eqn:E;
      try discriminate.
    destruct (scalar_one_or_none (submenu_title_elsewhere _ _ _)) as [?|[?|]] eqn:Et;
      try discriminate.
    apply scalar_None in Et. apply first_of_scalar in E. injection H as <- <- <-. eauto 6.
Qed.

Lemma create_dish_answered new_id menu_id submenu_id dish_data db db' content status :
  Main.create_dish_for_submenu new_id menu_id submenu_id dish_data db
  = (JSONResponse content status, db') \/
  MainAsyncio.create_dish_for_submenu new_id menu_id submenu_id dish_data db
  = (JSONResponse content status, db') ->
  let new_dish := Dish.mk new_id (DishSchemaAdd.title dish_data)
                          (DishSchemaAdd.description dish_data)
                          (DishSchemaAdd.price dish_data) submenu_id in
  (exists s, In s (submenus db) /\ SubMenu.menu_id s = menu_id /\ SubMenu.id s = submenu_id) /\
  dish_title_elsewhere db submenu_id (DishSchemaAdd.title dish_data) = [] /\
  dish_record new_dish = Some content /\ status = 201%Z /\
  db' = insert_dish new_dish db.
Proof.
  assert (Hs : forall s, first (submenu_by_ids db menu_id submenu_id) = Some s ->
                         exists s, In s (submenus db) /\
                                   SubMenu.menu_id s = menu_id /\ SubMenu.id s = submenu_id).
  { intros s Hs. apply first_filter_Some in Hs as [Hin Hs].
    apply andb_true_iff in Hs as [H1 H2]. apply String.eqb_eq in H1, H2. eauto. }
  intros [H | H] new_dish.
  - unfold Main.create_dish_for_submenu in H.
    destruct (first (submenu_by_ids db menu_id submenu_id)) as [s|] eqn:E; [|discriminate].
    destruct (first (dish_title_elsewhere _ _ _)) eqn:Et; [discriminate|].
    cbv zeta in H. fold new_dish in H.
    destruct (dish_record new_dish) eqn:Er; [|discriminate].
    apply first_None_nil in Et. injection H as <- <- <-. eauto 6.
  - unfold MainAsyncio.create_dish_for_submenu in H.
    destruct (scalar_one_or_none (submenu_by_ids db menu_id submenu_id)) as [?|[s|]] eqn:E;
      try discriminate.
    destruct (scalar_one_or_none (dish_title_elsewhere _ _ _)) as [?|[?|]] eqn:Et;
      try discriminate.
    cbv zeta in H. fold new_dish in H.
    destruct (dish_record new_dish) eqn:Er; [|discriminate].
    apply scalar_None in Et. apply first_of_scalar in E. injection H as <- <- <-. eauto 6.
Qed.

Lemma update_menu_answered menu_id menu_data db db' content status :
  Main.update_menu menu_id menu_data db = (JSONResponse content status, db') \/
  MainAsyncio.update_menu menu_id menu_data db = (JSONResponse content status, db') ->
  let updated := Menu.mk menu_id (MenuSchemaUpdate.title menu_data)
                         (MenuSchemaUpdate.description menu_data) in
  (exists m, In m (menus db) /\ Menu.id m = menu_id) /\
  content = menu_content updated /\ status = 200%Z /\
  db' = update_menu_row updated db.
Proof.
  assert (Hm : forall m, first (menu_by_id db menu_id) = Some m ->
                         In m (menus db) /\ Menu.id m = menu_id).
  { intros m Hm. apply first_filter_Some in Hm as [Hin Hm].
    apply String.eqb_eq in Hm. eauto. }
  intros [H | H] updated.
  - unfold Main.update_menu in H.
    destruct (first (menu_by_id db menu_id)) as [m|] eqn:E; [|discriminate].
    destruct (Hm m eq_refl) as [Hin Hid]. injection H as <- <- <-.
    rewrite Hid. eauto 6.
  - unfold MainAsyncio.update_menu in H.
    destruct (scalar_one_or_none (menu_by_id db menu_id)) as [?|[m|]] eqn:E;
      try discriminate.
    apply first_of_scalar in E. destruct (Hm m E) as [Hin Hid]. injection H as <- <- <-.
    rewrite Hid. eauto 6.
Qed.

Lemma update_submenu_answered menu_id submenu_id submenu_data db db' content status :
  Main.update_submenu menu_id submenu_id submenu_data db
  = (JSONResponse content status, db') \/
  MainAsyncio.update_submenu menu_id submenu_id submenu_data db
  = (JSONResponse content status, db') ->
  let updated := SubMenu.mk submenu_id (SubMenuSchemaUpdate.title submenu_data)
                            (SubMenuSchemaUpdate.description submenu_data) menu_id in
  (exists s, In s (submenus db) /\ SubMenu.menu_id s = menu_id /\ SubMenu.id s = submenu_id) /\
  content = submenu_content updated /\ status = 200%Z /\
  db' = update_submenu_row updated db.
Proof.
  assert (Hs : forall s, first (submenu_by_ids db menu_id submenu_id) = Some s ->
                         In s (submenus db) /\
                         SubMenu.menu_id s = menu_id /\ SubMenu.id s = submenu_id).
  { intros s Hs. apply first_filter_Some in Hs as [Hin Hs].
    apply andb_true_iff in Hs as [H1 H2]. apply String.eqb_eq in H1, H2. eauto. }
  intros [H | H] updated.
  - unfold Main.update_submenu in H.
    destruct (first (submenu_by_ids db menu_id submenu_id)) as [s|] eqn:E; [|discriminate].
    destruct (Hs s eq_refl) as (Hin & Hmid & Hid). injection H as <- <- <-.
    rewrite Hid, Hmid. eauto 8.
  - unfold MainAsyncio.update_submenu in H.
    destruct (scalar_one_or_none (submenu_by_ids db menu_id submenu_id)) as [?|[s|]] eqn:E;
      try discriminate.
    apply first_of_scalar in E. destruct (Hs s E) as (Hin & Hmid & Hid).
    injection H as <- <- <-. rewrite Hid, Hmid. eauto 8.
Qed.

Lemma update_dish_answered menu_id submenu_id dish_id dish_data db db' content status :
  Main.update_dish menu_id submenu_id dish_id dish_data db
  = (JSONResponse content status, db') \/
  MainAsyncio.update_dish submenu_id dish_id dish_data db
  = (JSONResponse content status, db') ->
  exists d,
    In d (dishes db) /\ Dish.submenu_id d = submenu_id /\ Dish.id d = dish_id /\
    let stored := flushed_price (Dish.price d) (DishSchemaUpdate.price dish_data) in
    let updated := Dish.mk dish_id (DishSchemaUpdate.title dish_data)
                           (DishSchemaUpdate.description dish_data) stored submenu_id in
    content = dish_content updated (Decimal.str stored) /\
    status = 200%Z /\
    db' = update_dish_row updated db.
Proof.
  assert (Hd : forall d, first (dish_by_ids db submenu_id dish_id) = Some d ->
                         In d (dishes db) /\
                         Dish.submenu_id d = submenu_id /\ Dish.id d = dish_id).
  { intros d Hd. apply first_filter_Some in Hd as [Hin Hd].
    apply andb_true_iff in Hd as [H1 H2]. apply String.eqb_eq in H1, H2. eauto. }
  intros [H | H].
  - unfold Main.update_dish in H.
    destruct (first (dish_by_ids db submenu_id dish_id)) as [d|] eqn:E; [|discriminate].
    destruct (Hd d eq_refl) as (Hin & Hsid & Hid). injection H as <- <- <-.
    exists d. rewrite Hid, Hsid. cbv zeta. auto 8.
  - unfold MainAsyncio.update_dish in H.
    destruct (scalar_one_or_none (dish_by_ids db submenu_id dish_id)) as [?|[d|]] eqn:E;
      try discriminate.
    apply first_of_scalar in E. destruct (Hd d E) as (Hin & Hsid & Hid).
    injection H as <- <- <-. exists d. rewrite Hid, Hsid. cbv zeta. auto 8.
Qed.

(** A request of either file leaves the database as it was, or is an
    answered write, or is a dish creation that inserted its row under a
    submenu it had found and then failed to build the response. *)
Lemma unchanged_or_answered new_id req db out db' :
  app_sync new_id req db = (out, db') \/ app_async new_id req db = (out, db') ->
  db' = db \/
  (exists content status, out = JSONResponse content status /\ is_read req = false) \/
  (exists menu_id submenu_id dish_data,
      req = POST_dishes menu_id submenu_id dish_data /\
      (exists s, In s (submenus db) /\ SubMenu.id s = submenu_id) /\
      db' = insert_dish (Dish.mk new_id (DishSchemaAdd.title dish_data)
                                 (DishSchemaAdd.description dish_data)
                                 (DishSchemaAdd.price dish_data) submenu_id) db).
Proof.
  intros [H | H]; revert H; destruct req; simpl; unfold_handlers;
    try solve [split_queries; intros [= <- <-]; auto; right; left; eauto].
  - destruct (first (submenu_by_ids _ _ _)) as [s|] eqn:E; [|intros [= <- <-]; auto].
    destruct (first (dish_title_elsewhere _ _ _)); [intros [= <- <-]; auto|]. cbv zeta.
    apply first_filter_Some in E as [Hin Hp]. apply andb_true_iff in Hp as [_ Hid].
    apply String.eqb_eq in Hid.
    destruct (dish_record _); intros [= <- <-]; right; right; eauto 8.
  - destruct (scalar_one_or_none (submenu_by_ids _ _ _)) as [?|[s|]] eqn:E;
      try solve [intros [= <- <-]; auto].
    destruct (scalar_one_or_none (dish_title_elsewhere _ _ _)) as [?|[?|]];
      try solve [intros [= <- <-]; auto]. cbv zeta.
    apply first_of_scalar, first_filter_Some in E as [Hin Hp].
    apply andb_true_iff in Hp as [_ Hid]. apply String.eqb_eq in Hid.
    destruct (dish_record _); intros [= <- <-]; right; right; eauto 8.
Qed.

(** *** Referential integrity *)

Lemma in_replaced {A} (key : A -> ident) (k : ident) (u : A) (rows : list A) (r : A) :
  key u = k -> In r rows ->
  exists r', In r' (map (fun r => if key r =? k then u else r) rows) /\ key r' = key r.
Proof.
  intros Hu Hin. exists (if key r =? k then u else r). split.
  - apply in_map_iff. eauto.
  - destruct (key r =? k) eqn:E; [|reflexivity]. apply String.eqb_eq in E. congruence.
Qed.

Lemma replaced_in {A} (key : A -> ident) (k : ident) (u : A) (rows : list A) (r' : A) :
  In r' (map (fun r => if key r =? k then u else r) rows) ->
  r' = u \/ In r' rows.
Proof.
  intros Hin. apply in_map_iff in Hin as (r & <- & Hr).
  destruct (key r =? k); auto.
Qed.

Lemma fk_insert_menu m db : foreign_keys_ok db -> foreign_keys_ok (insert_menu m db).
Proof.
  intros [Hs Hd]. split; simpl; [|exact Hd].
  intros s Hin. destruct (Hs s Hin) as (m' & Hm' & Hid).
  exists m'. split; [apply in_or_app; now left | exact Hid].
Qed.

Lemma fk_insert_submenu s db :
  foreign_keys_ok db ->
  (exists m, In m (menus db) /\ Menu.id m = SubMenu.menu_id s) ->
  foreign_keys_ok (insert_submenu s db).
Proof.
  intros [Hs Hd] Hm. split; simpl.
  - intros s' Hin. apply in_app_or in Hin as [Hin | [<- | []]]; auto.
  - intros d Hin. destruct (Hd d Hin) as (s' & Hs' & Hid).
    exists s'. split; [apply in_or_app; now left | exact Hid].
Qed.

Lemma fk_insert_dish d db :
  foreign_keys_ok db ->
  (exists s, In s (submenus db) /\ SubMenu.id s = Dish.submenu_id d) ->
  foreign_keys_ok (insert_dish d db).
Proof.
  intros [Hs Hd] Hex. split; simpl; [exact Hs|].
  intros d' Hin. apply in_app_or in Hin as [Hin | [<- | []]]; auto.
Qed.

Lemma fk_update_menu u db : foreign_keys_ok db -> foreign_keys_ok (update_menu_row u db).
Proof.
  intros [Hs Hd]. split; simpl; [|exact Hd].
  intros s Hin. destruct (Hs s Hin) as (m & Hm & Hid).
  destruct (in_replaced Menu.id (Menu.id u) u (menus db) m eq_refl Hm) as (m' & Hm' & Hid').
  exists m'. split; [exact Hm' | congruence].
Qed.

Lemma fk_update_submenu u db :
  foreign_keys_ok db ->
  (exists s, In s (submenus db) /\ SubMenu.menu_id s = SubMenu.menu_id u) ->
  foreign_keys_ok (update_submenu_row u db).
Proof.
  intros [Hs Hd] (s0 & Hs0 & Hmid). split; simpl.
  - intros s Hin. apply replaced_in in Hin as [-> | Hin]; auto.
    destruct (Hs s0 Hs0) as (m & Hm & Hid). exists m. split; [exact Hm | congruence].
  - intros d Hin. destruct (Hd d Hin) as (s & Hs' & Hid).
    destruct (in_replaced SubMenu.id (SubMenu.id u) u (submenus db) s eq_refl Hs')
      as (s' & Hin' & Hid').
    exists s'. split; [exact Hin' | congruence].
Qed.

Lemma fk_update_dish u db :
  foreign_keys_ok db ->
  (exists d, In d (dishes db) /\ Dish.submenu_id d = Dish.submenu_id u) ->
  foreign_keys_ok (update_dish_row u db).
Proof.
  intros [Hs Hd] (d0 & Hd0 & Hsid). split; simpl; [exact Hs|].
  intros d Hin. apply replaced_in in Hin as [-> | Hin]; auto.
  destruct (Hd d0 Hd0) as (s & Hs' & Hid). exists s. split; [exact Hs' | congruence].
Qed.

Lemma fk_delete_dish d db : foreign_keys_ok db -> foreign_keys_ok (delete_dish_row d db).
Proof.
  intros [Hs Hd]. split; simpl; [exact Hs|].
  intros d' Hin. apply filter_In in Hin as [Hin _]. auto.
Qed.

(** Every request but the delete of a menu or of a submenu keeps the
    foreign keys valid, in both files: a submenu is only inserted under an
    existing menu, a dish only under an existing submenu, and an update
    changes neither a key nor the parent of a row. *)
Theorem foreign_keys_kept (new_id : ident) (req : Request) (db : DB) :
  foreign_keys_ok db ->
  is_parent_delete req = false ->
  foreign_keys_ok (snd (app_sync new_id req db)) /\
  foreign_keys_ok (snd (app_async new_id req db)).
Proof.
  intros Hfk Hnp.
  assert (Hgen : forall out db',
             app_sync new_id req db = (out, db') \/ app_async new_id req db = (out, db') ->
             foreign_keys_ok db').
  { intros out db' H.
    destruct (unchanged_or_answered _ _ _ _ _ H)
      as [-> | [(content & status & -> & Hread) | (m & s & d & _ & Hs & ->)]];
      [exact Hfk| |apply fk_insert_dish; [exact Hfk | exact Hs]].
    destruct req; try discriminate; simpl in H.
    - assert (db' = insert_menu (Menu.mk new_id (MenuSchemaAdd.title menu_data)
                                         (MenuSchemaAdd.description menu_data)) db)
        by (destruct H as [H | H]; now injection H).
      subst. now apply fk_insert_menu.
    - destruct (update_menu_answered _ _ _ _ _ _ H) as (_ & _ & _ & ->).
      now apply fk_update_menu.
    - destruct (create_submenu_answered _ _ _ _ _ _ _ H) as (Hm & _ & _ & _ & ->).
      now apply fk_insert_submenu.
    - destruct (update_submenu_answered _ _ _ _ _ _ _ H) as ((s & Hs & Hmid & _) & _ & _ & ->).
      apply fk_update_submenu; eauto.
    - destruct (create_dish_answered _ _ _ _ _ _ _ _ H) as ((s & Hs & _ & Hid) & _ & _ & _ & ->).
      apply fk_insert_dish; eauto.
    - destruct (update_dish_answered _ _ _ _ _ _ _ _ H) as (d & Hd & Hsid & _ & _ & _ & ->).
      apply fk_update_dish; eauto.
    - destruct (delete_dish_answered _ _ _ _ _ _ _ H) as (d & _ & _ & _ & ->).
      now apply fk_delete_dish. }
  split.
  - apply (Hgen (fst (app_sync new_id req db))). left. now destruct (app_sync new_id req db).
  - apply (Hgen (fst (app_async new_id req db))). right. now destruct (app_async new_id req db).
Qed.

(** Exercised: submenu s1 of the sample database is renamed. *)
Lemma foreign_keys_kept_witness :
  let req := PATCH_submenu "m1" "s1" (SubMenuSchemaUpdate.mk "Stews" "Slow") in
  foreign_keys_ok (snd (app_sync "m3" req sample_db)) /\
  foreign_keys_ok (snd (app_async "m3" req sample_db)).
Proof.
  apply (foreign_keys_kept "m3" (PATCH_submenu "m1" "s1" (SubMenuSchemaUpdate.mk "Stews" "Slow"))
                           sample_db).
  - split.
    + intros s [<- | [<- | []]]; exists (Menu.mk "m1" "Lunch" "Served at noon"); simpl; auto.
    + intros d [<- | []]. exists (SubMenu.mk "s1" "Soups" "Hot" "m1"). simpl; auto.
  - reflexivity.
Defined.

(** ** Write, then read *)

Lemma first_filter_replace {A} (key : A -> ident) (p : A -> bool) (k : ident) (u : A)
      (rows : list A) :
  p u = true ->
  (forall r, p r = true -> key r = k) ->
  (exists r, In r rows /\ key r = k) ->
  first (filter p (map (fun r => if key r =? k then u else r) rows)) = Some u.
Proof.
  intros Hu Hp. induction rows as [|x xs IH]; intros (r & Hin & Hr); [destruct Hin|].
  simpl. destruct (key x =? k) eqn:E.
  - rewrite Hu. reflexivity.
  - destruct (p x) eqn:Hpx.
    + apply Hp in Hpx. apply String.eqb_neq in E. contradiction.
    + apply IH. destruct Hin as [-> | Hin]; [|eauto].
      apply String.eqb_neq in E. contradiction.
Qed.

Lemma filter_replace_le1 {A} (key : A -> ident) (p : A -> bool) (k : ident) (u : A)
      (rows : list A) :
  key u = k ->
  (forall r, p r = true -> key r = k) ->
  NoDup (map key rows) ->
  (List.length (filter p (map (fun r => if (key r =? k)%string then u else r) rows))
   <= 1)%nat.
Proof.
  intros Hu Hp Hnd.
  set (rows' := map (fun r => if key r =? k then u else r) rows).
  assert (Hnd' : NoDup (map key rows')) by (unfold rows'; now rewrite map_key_replace).
  pose proof (unique_key_filter key k rows' Hnd') as Hle.
  assert (Hsub : (List.length (filter p rows')
                  <= List.length (filter (fun r => (key r =? k)%string) rows'))%nat).
  { clear - Hp. induction rows' as [|x xs IH]; simpl; [lia|].
    destruct (p x) eqn:Hpx; simpl.
    - apply Hp in Hpx. apply String.eqb_eq in Hpx. rewrite Hpx. simpl. lia.
    - destruct (key x =? k); simpl; lia. }
  lia.
Qed.





(** After a dish update that was answered, the row holds a price equal in
    value to the price sent: the decimal sent itself, or the one the row
    held before when that is equal in value; the update echoed [str] of
    it, unrounded.  Reading the dish back in [main.py], under any menu of
    the path, answers 200 with the new title and description and that
    price rounded to two places where [round] accepts it, and ends in
    [InvalidOperation] where it does not; so does [main_asyncio.py] when
    [Dish.id] is a primary key. *)
Theorem updated_dish_reads_back
        (db db' : DB) (menu_id menu_id' submenu_id dish_id : ident)
        (dish_data : DishSchemaUpdate.t) (content : json) (status : Z) :
  Main.update_dish menu_id submenu_id dish_id dish_data db
  = (JSONResponse content status, db') \/
  MainAsyncio.update_dish submenu_id dish_id dish_data db
  = (JSONResponse content status, db') ->
  exists stored,
    Decimal.eqb (DishSchemaUpdate.price dish_data) stored = true /\
    (stored = DishSchemaUpdate.price dish_data \/
     exists d, In d (dishes db) /\ Dish.id d = dish_id /\ Dish.price d = stored) /\
    let updated := Dish.mk dish_id (DishSchemaUpdate.title dish_data)
                           (DishSchemaUpdate.description dish_data) stored submenu_id in
    content = dish_content updated (Decimal.str stored) /\
    db' = update_dish_row updated db /\
    let read_back :=
      match Decimal.round stored 2 with
      | Some r => (JSONResponse (dish_content updated (Decimal.str r)) 200, db')
      | None => (Uncaught InvalidOperation, db')
      end in
    Main.read_dish_for_submenu' menu_id' submenu_id dish_id db' = read_back /\
    (NoDup (map Dish.id (dishes db)) ->
     MainAsyncio.read_dish_for_submenu submenu_id dish_id db' = read_back).
Proof.
  intros H.
  destruct (update_dish_answered _ _ _ _ _ _ _ _ H) as (d & Hd & _ & Hid & -> & _ & ->).
  set (stored := flushed_price (Dish.price d) (DishSchemaUpdate.price dish_data)).
  exists stored. split; [apply flushed_price_eqb|]. split.
  { unfold stored, flushed_price.
    destruct (Decimal.eqb _ _); [right; eauto | now left]. }
  set (updated := Dish.mk dish_id (DishSchemaUpdate.title dish_data)
                          (DishSchemaUpdate.description dish_data) stored submenu_id).
  set (p := fun r => andb (Dish.id r =? dish_id) (Dish.submenu_id r =? submenu_id)).
  assert (Hp : forall r, p r = true -> Dish.id r = dish_id).
  { intros r Hr. apply andb_true_iff in Hr as [Hr _]. now apply String.eqb_eq. }
  assert (Hfirst : first (filter p (dishes (update_dish_row updated db))) = Some updated).
  { unfold update_dish_row; simpl.
    apply (first_filter_replace Dish.id p dish_id updated); eauto.
    unfold p; simpl. now rewrite !String.eqb_refl. }
  assert (Hrecord : dish_record updated
                    = option_map (fun r => dish_content updated (Decimal.str r))
                                 (Decimal.round stored 2)).
  { unfold dish_record, rounded_price. cbn [Dish.price updated].
    destruct (Decimal.round stored 2); reflexivity. }
  cbn zeta. split; [reflexivity|]. split; [reflexivity|]. split.
  - unfold Main.read_dish_for_submenu'. fold p. rewrite Hfirst, Hrecord.
    destruct (Decimal.round stored 2); reflexivity.
  - intros Hnd. unfold MainAsyncio.read_dish_for_submenu. fold p.
    rewrite scalar_first_le1, Hfirst, Hrecord;
      [destruct (Decimal.round stored 2); reflexivity|].
    unfold update_dish_row; simpl.
    apply (filter_replace_le1 Dish.id p dish_id updated); auto.
Qed.

(** Exercised: dish d1 is given the price 19.999; update echoes "19.999",
    the read that follows shows "20.00".  Given the price 1E+26, which
    update stores, the read that follows ends in [InvalidOperation]. *)
Lemma updated_dish_reads_back_witness :
  let updated := Dish.mk "d1" "Borscht" "Beetroot" price_19_999 "s1" in
  let priceless := Dish.mk "d1" "Borscht" "Beetroot" price_1E26 "s1" in
  Main.update_dish "m1" "s1" "d1" (DishSchemaUpdate.mk "Borscht" "Beetroot" price_19_999)
                   sample_db
  = (JSONResponse (dish_content updated "19.999") 200, update_dish_row updated sample_db) /\
  Main.read_dish_for_submenu' "m2" "s1" "d1" (update_dish_row updated sample_db)
  = (JSONResponse (dish_content updated "20.00") 200, update_dish_row updated sample_db) /\
  Main.update_dish "m1" "s1" "d1" (DishSchemaUpdate.mk "Borscht" "Beetroot" price_1E26)
                   sample_db
  = (JSONResponse (dish_content priceless "1E+26") 200, update_dish_row priceless sample_db) /\
  Main.read_dish_for_submenu' "m2" "s1" "d1" (update_dish_row priceless sample_db)
  = (Uncaught InvalidOperation, update_dish_row priceless sample_db).
Proof.
  intros updated priceless.
  assert (Hrun : Main.update_dish "m1" "s1" "d1"
                   (DishSchemaUpdate.mk "Borscht" "Beetroot" price_19_999) sample_db
                 = (JSONResponse (dish_content updated "19.999") 200,
                    update_dish_row updated sample_db)) by reflexivity.
  assert (Hrun' : Main.update_dish "m1" "s1" "d1"
                    (DishSchemaUpdate.mk "Borscht" "Beetroot" price_1E26) sample_db
                  = (JSONResponse (dish_content priceless "1E+26") 200,
                     update_dish_row priceless sample_db)) by reflexivity.
  split; [exact Hrun|]. split; [|split; [exact Hrun'|]].
  - destruct (updated_dish_reads_back _ _ "m1" "m2" "s1" "d1" _ _ _ (or_introl Hrun))
      as (stored & _ & _ & _ & Hdb & Hread & _).
    injection Hdb as <-. exact Hread.
  - destruct (updated_dish_reads_back _ _ "m1" "m2" "s1" "d1" _ _ _ (or_introl Hrun'))
      as (stored & _ & _ & _ & Hdb & Hread & _).
    injection Hdb as <-. exact Hread.
Defined.

Lemma filter_snoc_fresh {A} (p : A -> bool) (x : A) (rows : list A) :
  p x = true -> (forall r, In r rows -> p r = false) ->
  filter p (rows ++ [x]) = [x].
Proof.
  intros Hx Hrows. rewrite filter_app, (filter_none _ _ Hrows). simpl. now rewrite Hx.
Qed.

Lemma fresh_key_differs {A} (key : A -> ident) (k : ident) (rows : list A) (r : A) :
  ~ In k (map key rows) -> In r rows -> (key r =? k) = false.
Proof.
  intros Hfresh Hin. apply String.eqb_neq. intros <-. apply Hfresh. now apply in_map.
Qed.



(** A dish created (by either file) under a key new to the table reads
    back in both files with exactly the body its creation echoed, status
    200, whatever menu the path of the read names. *)
Theorem created_dish_reads_back
        (db db' : DB) (new_id menu_id menu_id' submenu_id : ident)
        (dish_data : DishSchemaAdd.t) (content : json) (status : Z) :
  ~ In new_id (map Dish.id (dishes db)) ->
  Main.create_dish_for_submenu new_id menu_id submenu_id dish_data db
  = (JSONResponse content status, db') \/
  MainAsyncio.create_dish_for_submenu new_id menu_id submenu_id dish_data db
  = (JSONResponse content status, db') ->
  Main.read_dish_for_submenu' menu_id' submenu_id new_id db' = (JSONResponse content 200, db') /\
  MainAsyncio.read_dish_for_submenu submenu_id new_id db' = (JSONResponse content 200, db').
Proof.
  intros Hfresh H.
  destruct (create_dish_answered _ _ _ _ _ _ _ _ H) as (_ & _ & Hrecord & _ & ->).
  set (new_dish := Dish.mk new_id (DishSchemaAdd.title dish_data)
                           (DishSchemaAdd.description dish_data)
                           (DishSchemaAdd.price dish_data) submenu_id) in *.
  assert (Hrows : filter (fun d => andb (Dish.id d =? new_id) (Dish.submenu_id d =? submenu_id))
                         (dishes (insert_dish new_dish db)) = [new_dish]).
  { unfold insert_dish; simpl. apply filter_snoc_fresh.
    - simpl. now rewrite !String.eqb_refl.
    - intros r Hr. apply andb_false_iff. left.
      now apply (fresh_key_differs Dish.id new_id (dishes db)). }
  unfold Main.read_dish_for_submenu', MainAsyncio.read_dish_for_submenu.
  rewrite Hrows. cbn [first hd_error scalar_one_or_none]. rewrite Hrecord. auto.
Qed.

Lemma created_dish_reads_back_witness :
  let new_dish := Dish.mk "d2" "Solyanka" "Sour" price_19_999 "s1" in
  let db' := insert_dish new_dish sample_db in
  Main.read_dish_for_submenu' "m2" "s1" "d2" db'
  = (JSONResponse (dish_content new_dish "20.00") 200, db') /\
  MainAsyncio.read_dish_for_submenu "s1" "d2" db'
  = (JSONResponse (dish_content new_dish "20.00") 200, db').
Proof.
  apply (created_dish_reads_back
           sample_db _ "d2" "m1" "m2" "s1" (DishSchemaAdd.mk "Solyanka" "Sour" price_19_999)
           (dish_content (Dish.mk "d2" "Solyanka" "Sour" price_19_999 "s1") "20.00") 201).
  - simpl. intros [H | []]. discriminate.
  - right. reflexivity.
Defined.

(** ** Pages *)

Lemma firstn_plus {A} (a b : nat) (rows : list A) :
  firstn (a + b) rows = (firstn a rows ++ firstn b (skipn a rows))%list.
Proof.
  revert rows. induction a as [|a IH]; intros [|x xs]; simpl; auto.
  - now rewrite firstn_nil.
  - now rewrite IH.
Qed.

Lemma page_plus {A} (skip a b : nat) (rows : list A) :
  q_limit (a + b) (q_offset skip rows)
  = (q_limit a (q_offset skip rows) ++ q_limit b (q_offset (skip + a) rows))%list.
Proof.
  unfold q_limit, q_offset. rewrite firstn_plus, skipn_skipn.
  now rewrite (Nat.add_comm a skip).
Qed.

(** Consecutive pages join: for the menu and submenu list handlers of
    either file, the page of [a + b] records from [skip] is the page of
    [a] records from [skip] followed by the page of [b] records from
    [skip + a].  A dish list page of [a + b] records is answered exactly
    when both parts are, and then it joins them in the same way. *)
Theorem pages_concatenate (db : DB) (menu_id submenu_id : ident) (skip a b : nat) :
  let joins := fun (page : nat -> nat -> Outcome * DB) =>
    records (fst (page skip (a + b)%nat))
    = (records (fst (page skip a)) ++ records (fst (page (skip + a)%nat b)))%list in
  let joins_if_answered := fun (page : nat -> nat -> Outcome * DB) =>
    is_answered (fst (page skip (a + b)%nat))
    = andb (is_answered (fst (page skip a))) (is_answered (fst (page (skip + a)%nat b))) /\
    (is_answered (fst (page skip (a + b)%nat)) = true -> joins page) in
  joins (fun skip limit => Main.read_menus skip limit db) /\
  joins (fun skip limit => MainAsyncio.read_menus skip limit db) /\
  joins (fun skip limit => Main.read_submenus_for_menu menu_id skip limit db) /\
  joins (fun skip limit => MainAsyncio.read_submenus_for_menu menu_id skip limit db) /\
  joins_if_answered
    (fun skip limit => Main.read_dish_for_submenu menu_id submenu_id skip limit db) /\
  joins_if_answered
    (fun skip limit => MainAsyncio.read_dishes_for_submenu submenu_id skip limit db).
Proof.
  cbn beta zeta. unfold_handlers.
  repeat split; cbn [fst records]; try (rewrite page_plus; apply map_app);
    rewrite page_plus, dish_records_app;
    destruct (dish_records (q_limit a _)), (dish_records (q_limit b _));
    cbn [fst records is_answered]; try reflexivity; discriminate.
Qed.

(** Exercised on submenu s1 of the sample database. *)
Lemma pages_concatenate_witness :
  records (fst (Main.read_dish_for_submenu "m1" "s1" 0 (1 + 1) sample_db))
  = (records (fst (Main.read_dish_for_submenu "m1" "s1" 0 1 sample_db))
     ++ records (fst (Main.read_dish_for_submenu "m1" "s1" (0 + 1) 1 sample_db)))%list.
Proof.
  destruct (pages_concatenate sample_db "m1" "s1" 0 1 1) as (_ & _ & _ & _ & [_ Hjoin] & _).
  apply Hjoin. reflexivity.
Defined.

(** A list handler of either file answers with at most [limit] records,
    with none when [skip] reaches the number of rows, and with all of them
    when [skip = 0] and [limit] reaches it.  The number of records listed
    for all of a menu's submenus is the [submenus_count] that the read-one
    handler of the menu reports; the number listed for all of a submenu's
    dishes is the submenu's [dishes_count], where [round] accepts the price
    of each of them. *)
Theorem list_sizes (db : DB) (menu_id submenu_id : ident) (skip limit : nat) :
  let size := fun (out : Outcome * DB) => Z.of_nat (List.length (records (fst out))) in
  (size (Main.read_menus skip limit db) <= Z.of_nat limit)%Z /\
  (size (Main.read_submenus_for_menu menu_id skip limit db) <= Z.of_nat limit)%Z /\
  (size (Main.read_dish_for_submenu menu_id submenu_id skip limit db) <= Z.of_nat limit)%Z /\
  ((count_submenus db menu_id <= Z.of_nat skip)%Z ->
   Main.read_submenus_for_menu menu_id skip limit db = (JSONResponse (JArray []) 200, db)) /\
  ((count_dishes db submenu_id <= Z.of_nat skip)%Z ->
   Main.read_dish_for_submenu menu_id submenu_id skip limit db
   = (JSONResponse (JArray []) 200, db)) /\
  ((count_submenus db menu_id <= Z.of_nat limit)%Z ->
   size (Main.read_submenus_for_menu menu_id 0 limit db) = count_submenus db menu_id /\
   size (MainAsyncio.read_submenus_for_menu menu_id 0 limit db) = count_submenus db menu_id) /\
  ((count_dishes db submenu_id <= Z.of_nat limit)%Z ->
   (forall d, In d (dishes_of_submenu db submenu_id) ->
              Decimal.round (Dish.price d) 2 <> None) ->
   is_answered (fst (Main.read_dish_for_submenu menu_id submenu_id 0 limit db)) = true /\
   size (Main.read_dish_for_submenu menu_id submenu_id 0 limit db) = count_dishes db submenu_id /\
   size (MainAsyncio.read_dishes_for_submenu submenu_id 0 limit db)
   = count_dishes db submenu_id).
Proof.
  cbn zeta. unfold_handlers.
  unfold count_submenus, count_dishes, func_count, q_limit, q_offset.
  split; [|split; [|split; [|split; [|split; [|split]]]]].
  - cbn [fst records]. rewrite length_map. apply inj_le, firstn_le_length.
  - cbn [fst records]. rewrite length_map. apply inj_le, firstn_le_length.
  - destruct (dish_records _) as [rows|] eqn:E; cbn [fst records List.length]; [|lia].
    rewrite (dish_records_length _ _ E). apply inj_le, firstn_le_length.
  - intros Hskip. rewrite skipn_all2 by lia. now rewrite firstn_nil.
  - intros Hskip. rewrite skipn_all2 by lia. now rewrite firstn_nil.
  - intros Hall. cbn [fst records skipn]. rewrite !length_map.
    rewrite firstn_all2 by lia. split; reflexivity.
  - intros Hlimit Hall. cbn [skipn]. rewrite firstn_all2 by lia.
    destruct (dish_records_all _ Hall) as [rows Hrows]. rewrite Hrows.
    cbn [fst records is_answered]. rewrite (dish_records_length _ _ Hrows). auto.
Qed.

(** Exercised on menu m1 (two submenus) and submenu s1 (one dish) of the
    sample database. *)
Lemma list_sizes_witness :
  Main.read_submenus_for_menu "m1" 2 10 sample_db = (JSONResponse (JArray []) 200, sample_db) /\
  Main.read_dish_for_submenu "m1" "s1" 1 10 sample_db
  = (JSONResponse (JArray []) 200, sample_db) /\
  Z.of_nat (List.length (records (fst (Main.read_submenus_for_menu "m1" 0 10 sample_db))))
  = count_submenus sample_db "m1" /\
  Z.of_nat (List.length (records (fst (MainAsyncio.read_dishes_for_submenu "s1" 0 10 sample_db))))
  = count_dishes sample_db "s1".
Proof.
  destruct (list_sizes sample_db "m1" "s1" 2 10) as (_ & _ & _ & Hskip & _ & Hall & Hall').
  destruct (list_sizes sample_db "m1" "s1" 1 10) as (_ & _ & _ & _ & Hskip' & _).
  split; [|split; [|split]].
  - apply Hskip. vm_compute. discriminate.
  - apply Hskip'. vm_compute. discriminate.
  - apply Hall. vm_compute. discriminate.
  - apply Hall'.
    + vm_compute. discriminate.
    + simpl. intros d [<- | []]. vm_compute. discriminate.
Defined.

(** ** Lists and single reads *)

Lemma unique_key_inj {A} (key : A -> ident) (rows : list A) (a b : A) :
  NoDup (map key rows) -> In a rows -> In b rows -> key a = key b -> a = b.
Proof.
  induction rows as [|x xs IH]; simpl; intros Hnd Ha Hb Heq; [destruct Ha|].
  inversion Hnd as [|? ? Hnotin Hnd']; subst.
  destruct Ha as [-> | Ha], Hb as [-> | Hb]; auto.
  - exfalso. apply Hnotin. rewrite Heq. now apply in_map.
  - exfalso. apply Hnotin. rewrite <- Heq. now apply in_map.
Qed.

Lemma unique_first {A} (key : A -> ident) (p : A -> bool) (rows : list A) (r : A) :
  NoDup (map key rows) -> In r rows -> p r = true ->
  (forall x, p x = true -> key x = key r) ->
  first (filter p rows) = Some r.
Proof.
  intros Hnd Hin Hp Hkey.
  destruct (first_exists p rows r Hin Hp) as [r' Hr']. rewrite Hr'. f_equal.
  apply first_filter_Some in Hr' as [Hin' Hp'].
  apply (unique_key_inj key rows); auto.
Qed.

(** With primary keys unique, every record a list handler returns is the
    body the read-one handler returns for that row, in both files: the
    lists and the single reads show the same titles, descriptions, counts
    and prices. *)
Theorem listed_record_is_read_one (db : DB) (menu_id submenu_id : ident) (skip limit : nat) :
  keys_unique db ->
  (forall record,
      In record (records (fst (Main.read_menus skip limit db))) ->
      exists menu, In menu (menus db) /\
        Main.read_one_menu (Menu.id menu) db = (JSONResponse record 200, db) /\
        MainAsyncio.read_one_menu (Menu.id menu) db = (JSONResponse record 200, db)) /\
  (forall record,
      In record (records (fst (Main.read_submenus_for_menu menu_id skip limit db))) ->
      exists submenu, In submenu (submenus db) /\
        Main.read_one_submenu_for_menu menu_id (SubMenu.id submenu) db
        = (JSONResponse record 200, db) /\
        MainAsyncio.read_one_submenu_for_menu menu_id (SubMenu.id submenu) db
        = (JSONResponse record 200, db)) /\
  (forall record,
      In record (records (fst (Main.read_dish_for_submenu menu_id submenu_id skip limit db))) ->
      exists dish, In dish (dishes db) /\
        Main.read_dish_for_submenu' menu_id submenu_id (Dish.id dish) db
        = (JSONResponse record 200, db) /\
        MainAsyncio.read_dish_for_submenu submenu_id (Dish.id dish) db
        = (JSONResponse record 200, db)).
Proof.
  intros Hkeys. pose proof Hkeys as (Hm & Hs & Hd).
  unfold_handlers. repeat split; cbn [fst records].
  - intros record Hin. apply in_map_iff in Hin as (menu & <- & Hin).
    apply page_In in Hin. exists menu. split; [exact Hin|].
    assert (Hfirst : first (menu_by_id db (Menu.id menu)) = Some menu).
    { apply (unique_first Menu.id); auto using String.eqb_refl.
      intros x Hx. now apply String.eqb_eq. }
    rewrite (scalar_first_le1 _ (menu_rows_le1 db Hkeys _)), Hfirst,
      sum_dishes_subquery_eq. auto.
  - intros record Hin. apply in_map_iff in Hin as (submenu & <- & Hin).
    apply page_In in Hin. apply filter_In in Hin as [Hin Hmid].
    exists submenu. split; [exact Hin|].
    assert (Hfirst : first (submenu_by_ids db menu_id (SubMenu.id submenu)) = Some submenu).
    { apply (unique_first SubMenu.id); auto.
      - now rewrite Hmid, String.eqb_refl.
      - intros x Hx. apply andb_true_iff in Hx as [_ Hx]. now apply String.eqb_eq. }
    rewrite (scalar_first_le1 _ (submenu_rows_le1 db Hkeys _ _)), Hfirst. auto.
  - intros record Hin.
    destruct (dish_records _) as [rows|] eqn:Erows; [|destruct Hin].
    cbn [fst records] in Hin.
    destruct (dish_records_In _ _ _ Erows Hin) as (dish & Hpage & Hrecord).
    apply page_In in Hpage. apply filter_In in Hpage as [Hpage Hsid].
    exists dish. split; [exact Hpage|].
    assert (Hfirst : first (filter (fun d => andb (Dish.id d =? Dish.id dish)
                                                  (Dish.submenu_id d =? submenu_id))
                                   (dishes db)) = Some dish).
    { apply (unique_first Dish.id); auto.
      - now rewrite Hsid, String.eqb_refl.
      - intros x Hx. apply andb_true_iff in Hx as [Hx _]. now apply String.eqb_eq. }
    rewrite (scalar_first_le1 _ (dish_rows_le1' db Hkeys _ _)), Hfirst, Hrecord. auto.
Qed.

(** Exercised on the first page of the sample database. *)
Lemma listed_record_is_read_one_witness :
  exists submenu, In submenu (submenus sample_db) /\
    Main.read_one_submenu_for_menu "m1" (SubMenu.id submenu) sample_db
    = (JSONResponse (submenu_counts_content (SubMenu.mk "s1" "Soups" "Hot" "m1") 1) 200,
       sample_db) /\
    MainAsyncio.read_one_submenu_for_menu "m1" (SubMenu.id submenu) sample_db
    = (JSONResponse (submenu_counts_content (SubMenu.mk "s1" "Soups" "Hot" "m1") 1) 200,
       sample_db).
Proof.
  apply (proj1 (proj2 (listed_record_is_read_one sample_db "m1" "s1" 0 10 sample_db_keys))).
  simpl. left. reflexivity.
Defined.

(** ** The two files, request by request *)

(** With primary keys unique, the two files give the same outcome and the
    same database exactly on the requests that are not parting: they
    differ only on a menu update or delete of an absent menu and on a
    creation whose title query selects two rows or more. *)
Theorem sync_async_agree_iff (new_id : ident) (req : Request) (db : DB) :
  keys_unique db ->
  (app_sync new_id req db = app_async new_id req db <-> ~ parting req db).
Proof.
  intros Hkeys. split.
  - intros Heq Hpart. apply (sync_async_part new_id) in Hpart. apply Hpart. now rewrite Heq.
  - now apply sync_async_agree.
Qed.

Lemma sync_async_agree_iff_witness :
  app_sync "m3" (DELETE_menu "m1") sample_db = app_async "m3" (DELETE_menu "m1") sample_db
  <-> ~ parting (DELETE_menu "m1") sample_db.
Proof.
  apply (sync_async_agree_iff "m3" (DELETE_menu "m1") sample_db).
  repeat split; simpl; repeat constructor; simpl; intuition discriminate.
Defined.

(** ** Counts after a write *)

Lemma joined_rows_of_unique (ss : list SubMenu.t) (d : Dish.t) (s0 : SubMenu.t) :
  NoDup (map SubMenu.id ss) -> In s0 ss -> SubMenu.id s0 = Dish.submenu_id d ->
  filter (fun s => Dish.submenu_id d =? SubMenu.id s) ss = [s0].
Proof.
  intros Hnd Hin Hid.
  assert (Hle := unique_key_filter SubMenu.id (Dish.submenu_id d) ss Hnd).
  assert (Heq : filter (fun s => Dish.submenu_id d =? SubMenu.id s) ss
                = filter (fun s => SubMenu.id s =? Dish.submenu_id d) ss).
  { apply filter_ext. intros s. apply String.eqb_sym. }
  rewrite Heq.
  assert (Hin' : In s0 (filter (fun s => SubMenu.id s =? Dish.submenu_id d) ss)).
  { apply filter_In. split; [exact Hin | now apply String.eqb_eq]. }
  destruct (filter _ ss) as [|x [|y ys]]; simpl in *; try lia; try contradiction.
  destruct Hin' as [-> | []]. reflexivity.
Qed.

Lemma joined_insert_dish d db menu_id :
  count_dishes_joined (insert_dish d db) menu_id
  = (count_dishes_joined db menu_id
     + Z.of_nat (List.length
                   (filter (fun s => (SubMenu.menu_id s =? menu_id)%string)
                           (filter (fun s => (Dish.submenu_id d =? SubMenu.id s)%string)
                                   (submenus db)))))%Z.
Proof.
  unfold count_dishes_joined, join_SubMenu, insert_dish, func_count; simpl.
  rewrite flat_map_app, filter_app, length_app, Nat2Z.inj_add. f_equal.
  cbn [flat_map]. rewrite app_nil_r. f_equal.
  induction (filter (fun s => Dish.submenu_id d =? SubMenu.id s) (submenus db))
    as [|s ss IH]; simpl; [reflexivity|].
  destruct (SubMenu.menu_id s =? menu_id); simpl; now rewrite IH.
Qed.

(** With [SubMenu.id] a primary key, a dish creation that was answered
    (by either file) raises the dish count of its submenu by one and the
    dish count of its menu by one, and leaves every other count of
    dishes and every count of submenus as it was. *)
Theorem dish_creation_counts
        (db db' : DB) (new_id menu_id submenu_id : ident) (dish_data : DishSchemaAdd.t)
        (content : json) (status : Z) :
  NoDup (map SubMenu.id (submenus db)) ->
  Main.create_dish_for_submenu new_id menu_id submenu_id dish_data db
  = (JSONResponse content status, db') \/
  MainAsyncio.create_dish_for_submenu new_id menu_id submenu_id dish_data db
  = (JSONResponse content status, db') ->
  count_dishes db' submenu_id = (count_dishes db submenu_id + 1)%Z /\
  (forall s, s <> submenu_id -> count_dishes db' s = count_dishes db s) /\
  count_dishes_joined db' menu_id = (count_dishes_joined db menu_id + 1)%Z /\
  (forall m, m <> menu_id -> count_dishes_joined db' m = count_dishes_joined db m) /\
  (forall m, count_submenus db' m = count_submenus db m).
Proof.
  intros Hnd H.
  destruct (create_dish_answered _ _ _ _ _ _ _ _ H) as ((s0 & Hs0 & Hmid & Hid) & _ & _ & _ & ->).
  set (new_dish := Dish.mk new_id (DishSchemaAdd.title dish_data)
                           (DishSchemaAdd.description dish_data)
                           (DishSchemaAdd.price dish_data) submenu_id).
  assert (Hrows : filter (fun s => Dish.submenu_id new_dish =? SubMenu.id s) (submenus db)
                  = [s0]) by (now apply joined_rows_of_unique).
  split; [|split; [|split; [|split]]].
  - apply (count_dishes_insert new_dish db).
  - intros s Hs. unfold count_dishes, dishes_of_submenu, insert_dish, func_count; simpl.
    rewrite filter_app; simpl.
    replace (submenu_id =? s) with false by (symmetry; apply String.eqb_neq; congruence).
    now rewrite app_nil_r.
  - rewrite joined_insert_dish, Hrows. simpl. rewrite Hmid, String.eqb_refl. reflexivity.
  - intros m Hm. rewrite joined_insert_dish, Hrows. simpl.
    replace (SubMenu.menu_id s0 =? m) with false
      by (symmetry; apply String.eqb_neq; congruence).
    simpl. lia.
  - reflexivity.
Qed.

Lemma dish_creation_counts_witness :
  let db' := insert_dish (Dish.mk "d2" "Olivier" "Potato" (Decimal.mk false 500 (-2)) "s2")
                         sample_db in
  count_dishes db' "s2" = (count_dishes sample_db "s2" + 1)%Z /\
  (forall s, s <> "s2" -> count_dishes db' s = count_dishes sample_db s) /\
  count_dishes_joined db' "m1" = (count_dishes_joined sample_db "m1" + 1)%Z /\
  (forall m, m <> "m1" -> count_dishes_joined db' m = count_dishes_joined sample_db m) /\
  (forall m, count_submenus db' m = count_submenus sample_db m).
Proof.
  apply (dish_creation_counts
           sample_db _ "d2" "m1" "s2"
           (DishSchemaAdd.mk "Olivier" "Potato" (Decimal.mk false 500 (-2)))
           (dish_content (Dish.mk "d2" "Olivier" "Potato" (Decimal.mk false 500 (-2)) "s2")
                         "5.00") 201).
  - simpl. repeat constructor; simpl; intuition discriminate.
  - left. reflexivity.
Defined.

Lemma filter_keep_all {A} (p : A -> bool) (rows : list A) :
  (forall r, In r rows -> p r = true) -> filter p rows = rows.
Proof.
  induction rows as [|x xs IH]; simpl; intros H; [reflexivity|].
  rewrite (H x) by now left. rewrite IH; auto.
Qed.

Lemma count_after_delete {A} (key : A -> ident) (p : A -> bool) (rows : list A) (d : A) :
  NoDup (map key rows) -> In d rows ->
  (List.length (filter p (filter (fun r => negb (key r =? key d)%string) rows))
   + (if p d then 1 else 0))%nat
  = List.length (filter p rows).
Proof.
  induction rows as [|x xs IH]; simpl; intros Hnd Hin; [destruct Hin|].
  inversion Hnd as [|? ? Hnotin Hnd']; subst.
  destruct (key x =? key d) eqn:E; simpl.
  - apply String.eqb_eq in E.
    assert (x = d).
    { destruct Hin as [-> | Hin]; [reflexivity|].
      exfalso. apply Hnotin. rewrite E. now apply in_map. }
    subst x. rewrite (filter_keep_all (fun r => negb (key r =? key d)) xs).
    + destruct (p d); simpl; lia.
    + intros r Hr. apply negb_true_iff, String.eqb_neq. intros Heq.
      apply Hnotin. rewrite <- Heq. now apply in_map.
  - destruct Hin as [-> | Hin]; [rewrite String.eqb_refl in E; discriminate|].
    specialize (IH Hnd' Hin). destruct (p x); simpl; lia.
Qed.

(** With [Dish.id] a primary key, a dish delete that was answered (by
    either file) removes exactly one row, lowers the dish count of the
    submenu by one and leaves the dish counts of the other submenus as
    they were. *)
Theorem dish_deletion_counts
        (db db' : DB) (menu_id submenu_id dish_id : ident) (content : json) (status : Z) :
  NoDup (map Dish.id (dishes db)) ->
  Main.delete_menu' menu_id submenu_id dish_id db = (JSONResponse content status, db') \/
  MainAsyncio.delete_dish submenu_id dish_id db = (JSONResponse content status, db') ->
  S (List.length (dishes db')) = List.length (dishes db) /\
  count_dishes db' submenu_id = (count_dishes db submenu_id - 1)%Z /\
  (forall s, s <> submenu_id -> count_dishes db' s = count_dishes db s).
Proof.
  intros Hnd H.
  destruct (delete_dish_answered _ _ _ _ _ _ _ H) as (d & Hfirst & Hsid & Hid & ->).
  apply first_filter_Some in Hfirst as [Hin _].
  split; [|split].
  - pose proof (count_after_delete Dish.id (fun _ => true) (dishes db) d Hnd Hin) as Hc.
    unfold delete_dish_row; simpl.
    rewrite (filter_keep_all (fun _ : Dish.t => true) (dishes db)) in Hc by auto.
    rewrite (filter_keep_all (fun _ : Dish.t => true)) in Hc by auto. lia.
  - pose proof (count_after_delete Dish.id (fun r => Dish.submenu_id r =? submenu_id)
                                   (dishes db) d Hnd Hin) as Hc.
    cbv beta in Hc. rewrite Hsid, String.eqb_refl in Hc.
    unfold count_dishes, dishes_of_submenu, delete_dish_row, func_count; simpl. lia.
  - intros s Hs.
    pose proof (count_after_delete Dish.id (fun r => Dish.submenu_id r =? s)
                                   (dishes db) d Hnd Hin) as Hc.
    cbv beta in Hc.
    replace (Dish.submenu_id d =? s) with false in Hc
      by (symmetry; apply String.eqb_neq; congruence).
    unfold count_dishes, dishes_of_submenu, delete_dish_row, func_count; simpl. lia.
Qed.

Lemma dish_deletion_counts_witness :
  let db' := delete_dish_row (Dish.mk "d1" "Borscht" "Beetroot"
                                      (Decimal.mk false 1250 (-2)) "s1") sample_db in
  S (List.length (dishes db')) = List.length (dishes sample_db) /\
  count_dishes db' "s1" = (count_dishes sample_db "s1" - 1)%Z /\
  (forall s, s <> "s1" -> count_dishes db' s = count_dishes sample_db s).
Proof.
  apply (dish_deletion_counts sample_db _ "m1" "s1" "d1" (JObject []) 200).
  - simpl. repeat constructor; simpl; intuition discriminate.
  - right. reflexivity.
Defined.

(** ** Paths that name a missing or a foreign parent *)

(** With the foreign keys valid, listing the submenus of a menu that does
    not exist, or the dishes of a submenu that does not exist, is answered
    200 with the empty list by both files, while the read-one handlers
    raise 404 for the same parent. *)
Theorem list_of_missing_parent_is_empty
        (db : DB) (menu_id submenu_id : ident) (skip limit : nat) :
  foreign_keys_ok db ->
  ((forall m, In m (menus db) -> Menu.id m <> menu_id) ->
   Main.read_submenus_for_menu menu_id skip limit db = (JSONResponse (JArray []) 200, db) /\
   MainAsyncio.read_submenus_for_menu menu_id skip limit db
   = (JSONResponse (JArray []) 200, db) /\
   Main.read_one_menu menu_id db = (HTTPException 404 "menu not found", db) /\
   MainAsyncio.read_one_menu menu_id db = (HTTPException 404 "menu not found", db)) /\
  ((forall s, In s (submenus db) -> SubMenu.id s <> submenu_id) ->
   Main.read_dish_for_submenu menu_id submenu_id skip limit db
   = (JSONResponse (JArray []) 200, db) /\
   MainAsyncio.read_dishes_for_submenu submenu_id skip limit db
   = (JSONResponse (JArray []) 200, db) /\
   Main.read_one_submenu_for_menu menu_id submenu_id db
   = (HTTPException 404 "submenu not found", db) /\
   MainAsyncio.read_one_submenu_for_menu menu_id submenu_id db
   = (HTTPException 404 "submenu not found", db)).
Proof.
  intros [Hs Hd]. split.
  - intros Habs.
    assert (Hnone : submenus_of_menu db menu_id = []).
    { apply filter_none. intros s Hin. apply String.eqb_neq. intros Heq.
      destruct (Hs s Hin) as (m & Hm & Hid). apply (Habs m Hm). congruence. }
    unfold Main.read_submenus_for_menu, MainAsyncio.read_submenus_for_menu,
      Main.read_one_menu, MainAsyncio.read_one_menu, q_limit, q_offset.
    rewrite Hnone, (menu_absent_no_rows _ _ Habs), skipn_nil, firstn_nil. simpl. auto.
  - intros Habs.
    assert (Hnone : dishes_of_submenu db submenu_id = []).
    { apply filter_none. intros d Hin. apply String.eqb_neq. intros Heq.
      destruct (Hd d Hin) as (s & Hs' & Hid). apply (Habs s Hs'). congruence. }
    assert (Hrows : submenu_by_ids db menu_id submenu_id = []).
    { apply filter_none. intros s Hin. apply andb_false_iff. right.
      apply String.eqb_neq. auto. }
    unfold Main.read_dish_for_submenu, MainAsyncio.read_dishes_for_submenu,
      Main.read_one_submenu_for_menu, MainAsyncio.read_one_submenu_for_menu,
      q_limit, q_offset.
    rewrite Hnone, Hrows, skipn_nil, firstn_nil. simpl. auto.
Qed.

Lemma list_of_missing_parent_is_empty_witness :
  (Main.read_submenus_for_menu "m9" 0 10 sample_db = (JSONResponse (JArray []) 200, sample_db) /\
   MainAsyncio.read_submenus_for_menu "m9" 0 10 sample_db
   = (JSONResponse (JArray []) 200, sample_db) /\
   Main.read_one_menu "m9" sample_db = (HTTPException 404 "menu not found", sample_db) /\
   MainAsyncio.read_one_menu "m9" sample_db = (HTTPException 404 "menu not found", sample_db)) /\
  (Main.read_dish_for_submenu "m1" "s9" 0 10 sample_db
   = (JSONResponse (JArray []) 200, sample_db) /\
   MainAsyncio.read_dishes_for_submenu "s9" 0 10 sample_db
   = (JSONResponse (JArray []) 200, sample_db) /\
   Main.read_one_submenu_for_menu "m1" "s9" sample_db
   = (HTTPException 404 "submenu not found", sample_db) /\
   MainAsyncio.read_one_submenu_for_menu "m1" "s9" sample_db
   = (HTTPException 404 "submenu not found", sample_db)).
Proof.
  assert (Hfk : foreign_keys_ok sample_db).
  { split.
    - intros s [<- | [<- | []]]; exists (Menu.mk "m1" "Lunch" "Served at noon"); simpl; auto.
    - intros d [<- | []]. exists (SubMenu.mk "s1" "Soups" "Hot" "m1"). simpl; auto. }
  destruct (list_of_missing_parent_is_empty sample_db "m9" "s9" 0 10 Hfk) as [Hm _].
  destruct (list_of_missing_parent_is_empty sample_db "m1" "s9" 0 10 Hfk) as [_ Hs].
  split.
  - apply Hm. simpl. intros m [<- | [<- | []]]; discriminate.
  - apply Hs. simpl. intros s [<- | [<- | []]]; discriminate.
Defined.

(** With [SubMenu.id] a primary key, a submenu reached through the path of
    a menu that does not own it is not found: read-one raises 404, update
    and delete end without a response and leave it alone, and a dish
    creation raises 404.  The dish read, update, delete and list handlers
    of [main.py] do not look at the menu of the path at all. *)
Theorem path_menu_checked_for_submenus_only
        (db : DB) (new_id menu_id menu_id' submenu_id dish_id : ident)
        (submenu_data : SubMenuSchemaUpdate.t) (dish_data : DishSchemaAdd.t)
        (dish_update : DishSchemaUpdate.t) (skip limit : nat) (s : SubMenu.t) :
  NoDup (map SubMenu.id (submenus db)) ->
  In s (submenus db) -> SubMenu.id s = submenu_id -> SubMenu.menu_id s <> menu_id ->
  (Main.read_one_submenu_for_menu menu_id submenu_id db
   = (HTTPException 404 "submenu not found", db) /\
   MainAsyncio.read_one_submenu_for_menu menu_id submenu_id db
   = (HTTPException 404 "submenu not found", db) /\
   Main.update_submenu menu_id submenu_id submenu_data db = (ReturnedNone, db) /\
   MainAsyncio.update_submenu menu_id submenu_id submenu_data db = (ReturnedNone, db) /\
   Main.delete_submenu menu_id submenu_id db = (ReturnedNone, db) /\
   MainAsyncio.delete_submenu menu_id submenu_id db = (ReturnedNone, db) /\
   Main.create_dish_for_submenu new_id menu_id submenu_id dish_data db
   = (HTTPException 404 "Submenu not found", db) /\
   MainAsyncio.create_dish_for_submenu new_id menu_id submenu_id dish_data db
   = (HTTPException 404 "Submenu not found", db)) /\
  (Main.read_dish_for_submenu' menu_id submenu_id dish_id db
   = Main.read_dish_for_submenu' menu_id' submenu_id dish_id db /\
   Main.update_dish menu_id submenu_id dish_id dish_update db
   = Main.update_dish menu_id' submenu_id dish_id dish_update db /\
   Main.delete_menu' menu_id submenu_id dish_id db
   = Main.delete_menu' menu_id' submenu_id dish_id db /\
   Main.read_dish_for_submenu menu_id submenu_id skip limit db
   = Main.read_dish_for_submenu menu_id' submenu_id skip limit db).
Proof.
  intros Hnd Hin Hid Hmid. split; [|repeat split].
  assert (Hrows : submenu_by_ids db menu_id submenu_id = []).
  { apply filter_none. intros r Hr. apply andb_false_iff.
    destruct (SubMenu.id r =? submenu_id) eqn:E; [left | now right].
    apply String.eqb_eq in E. apply String.eqb_neq.
    assert (r = s) by (apply (unique_key_inj SubMenu.id (submenus db)); congruence).
    now subst r. }
  unfold Main.read_one_submenu_for_menu, MainAsyncio.read_one_submenu_for_menu,
    Main.update_submenu, MainAsyncio.update_submenu, Main.delete_submenu,
    MainAsyncio.delete_submenu, Main.create_dish_for_submenu,
    MainAsyncio.create_dish_for_submenu.
  rewrite Hrows. simpl. repeat split.
Qed.

(** Exercised: submenu s1 belongs to m1 and is asked for under m2. *)
Lemma path_menu_checked_for_submenus_only_witness :
  Main.read_one_submenu_for_menu "m2" "s1" sample_db
  = (HTTPException 404 "submenu not found", sample_db) /\
  MainAsyncio.read_one_submenu_for_menu "m2" "s1" sample_db
  = (HTTPException 404 "submenu not found", sample_db) /\
  Main.update_submenu "m2" "s1" (SubMenuSchemaUpdate.mk "Stews" "Slow") sample_db
  = (ReturnedNone, sample_db) /\
  MainAsyncio.update_submenu "m2" "s1" (SubMenuSchemaUpdate.mk "Stews" "Slow") sample_db
  = (ReturnedNone, sample_db) /\
  Main.delete_submenu "m2" "s1" sample_db = (ReturnedNone, sample_db) /\
  MainAsyncio.delete_submenu "m2" "s1" sample_db = (ReturnedNone, sample_db) /\
  Main.create_dish_for_submenu "d2" "m2" "s1" borscht sample_db
  = (HTTPException 404 "Submenu not found", sample_db) /\
  MainAsyncio.create_dish_for_submenu "d2" "m2" "s1" borscht sample_db
  = (HTTPException 404 "Submenu not found", sample_db).
Proof.
  apply (path_menu_checked_for_submenus_only
           sample_db "d2" "m2" "m1" "s1" "d1" (SubMenuSchemaUpdate.mk "Stews" "Slow") borscht
           (DishSchemaUpdate.mk "Shchi" "Cabbage" price_19_999) 0 10
           (SubMenu.mk "s1" "Soups" "Hot" "m1")).
  - simpl. repeat constructor; simpl; intuition discriminate.
  - simpl. auto.
  - reflexivity.
  - discriminate.
Defined.

(** ** Creation in [main_asyncio.py], case by case *)

(** With [Menu.id] a primary key, [main_asyncio.py] answers a submenu
    creation with 404 when the menu is absent and otherwise by the number
    of rows holding the title under another menu: none gives 201 and the
    inserted row, one gives the 400 Conflict, two or more end in an
    uncaught [MultipleResultsFound]; the database changes in the 201 case
    only. *)
Theorem async_create_submenu_cases
        (new_id menu_id : ident) (submenu_data : SubMenuSchemaAdd.t) (db : DB) :
  NoDup (map Menu.id (menus db)) ->
  let rows := submenu_title_elsewhere db menu_id (SubMenuSchemaAdd.title submenu_data) in
  let run := MainAsyncio.create_submenu_for_menu new_id menu_id submenu_data db in
  let new_submenu := SubMenu.mk new_id (SubMenuSchemaAdd.title submenu_data)
                                (SubMenuSchemaAdd.description submenu_data) menu_id in
  ((forall m, In m (menus db) -> Menu.id m <> menu_id) ->
   run = (HTTPException 404 "menu not found", db)) /\
  ((exists m, In m (menus db) /\ Menu.id m = menu_id) ->
   (rows = [] ->
    run = (JSONResponse (submenu_content new_submenu) 201, insert_submenu new_submenu db)) /\
   (List.length rows = 1%nat ->
    run = (HTTPException 400 "Submenu already belongs to ather menu", db)) /\
   ((2 <= List.length rows)%nat -> run = (Uncaught MultipleResultsFound, db))).
Proof.
  intros Hnd rows run new_submenu. unfold run, MainAsyncio.create_submenu_for_menu.
  fold rows. split.
  - intros Habs. now rewrite (menu_absent_no_rows _ _ Habs).
  - intros Hex. destruct (menu_present_first _ _ Hex) as (m & Hfirst & _).
    assert (Hle : (List.length (menu_by_id db menu_id) <= 1)%nat)
      by (now apply unique_key_filter).
    rewrite (scalar_first_le1 _ Hle), Hfirst.
    repeat split; intros Hrows.
    + now rewrite Hrows.
    + destruct rows as [|x [|y ys]]; simpl in Hrows; try discriminate. reflexivity.
    + apply scalar_raises in Hrows. now rewrite Hrows.
Qed.

(** Exercised: under m2 the title Soups is held once elsewhere in the
    sample database and twice in the database with two Soups. *)
Lemma async_create_submenu_cases_witness :
  MainAsyncio.create_submenu_for_menu "s4" "m2" soups sample_db
  = (HTTPException 400 "Submenu already belongs to ather menu", sample_db) /\
  MainAsyncio.create_submenu_for_menu "s4" "m2" soups two_soups_db
  = (Uncaught MultipleResultsFound, two_soups_db).
Proof.
  split.
  - apply (proj2 (async_create_submenu_cases "s4" "m2" soups sample_db sample_db_menu_keys)).
    + exists (Menu.mk "m2" "Dinner" "Served at night"). simpl; auto.
    + reflexivity.
  - assert (Hnd : NoDup (map Menu.id (menus two_soups_db)))
      by (simpl; repeat constructor; simpl; intuition discriminate).
    apply (proj2 (async_create_submenu_cases "s4" "m2" soups two_soups_db Hnd)).
    + exists (Menu.mk "m2" "Dinner" "Served at night"). simpl; auto.
    + simpl. lia.
Defined.

(** With [SubMenu.id] a primary key, [main_asyncio.py] answers a dish
    creation with 404 when no submenu has both ids and otherwise by the
    number of rows holding the title under another submenu: one gives the
    400 Conflict, two or more end in an uncaught [MultipleResultsFound];
    none inserts the row, and then gives 201 with the price rounded, or
    ends in [InvalidOperation] after the commit where [round] refuses the
    price. *)
Theorem async_create_dish_cases
        (new_id menu_id submenu_id : ident) (dish_data : DishSchemaAdd.t) (db : DB) :
  NoDup (map SubMenu.id (submenus db)) ->
  let rows := dish_title_elsewhere db submenu_id (DishSchemaAdd.title dish_data) in
  let run := MainAsyncio.create_dish_for_submenu new_id menu_id submenu_id dish_data db in
  let new_dish := Dish.mk new_id (DishSchemaAdd.title dish_data)
                          (DishSchemaAdd.description dish_data)
                          (DishSchemaAdd.price dish_data) submenu_id in
  ((forall s, In s (submenus db) ->
              ~ (SubMenu.menu_id s = menu_id /\ SubMenu.id s = submenu_id)) ->
   run = (HTTPException 404 "Submenu not found", db)) /\
  ((exists s, In s (submenus db) /\ SubMenu.menu_id s = menu_id /\ SubMenu.id s = submenu_id) ->
   (rows = [] ->
    (forall r, Decimal.round (DishSchemaAdd.price dish_data) 2 = Some r ->
               run = (JSONResponse (dish_content new_dish (Decimal.str r)) 201,
                      insert_dish new_dish db)) /\
    (Decimal.round (DishSchemaAdd.price dish_data) 2 = None ->
     run = (Uncaught InvalidOperation, insert_dish new_dish db))) /\
   (List.length rows = 1%nat ->
    run = (HTTPException 400 "Dish already belongs to ather submenu", db)) /\
   ((2 <= List.length rows)%nat -> run = (Uncaught MultipleResultsFound, db))).
Proof.
  intros Hnd rows run new_dish. unfold run, MainAsyncio.create_dish_for_submenu.
  fold rows. split.
  - intros Habs. unfold submenu_by_ids. rewrite filter_none; [reflexivity|].
    intros s Hs. apply andb_false_iff.
    destruct (SubMenu.menu_id s =? menu_id) eqn:E1; [|now left].
    destruct (SubMenu.id s =? submenu_id) eqn:E2; [|now right].
    apply String.eqb_eq in E1, E2. exfalso. apply (Habs s Hs). auto.
  - intros (s & Hin & Hm & Hi).
    destruct (first_exists
                (fun r => andb (SubMenu.menu_id r =? menu_id) (SubMenu.id r =? submenu_id))
                (submenus db) s Hin) as [s' Hs'].
    { apply andb_true_iff. split; now apply String.eqb_eq. }
    assert (Hle : (List.length (submenu_by_ids db menu_id submenu_id) <= 1)%nat).
    { unfold submenu_by_ids. etransitivity; [apply filter_and_le|].
      now apply unique_key_filter. }
    rewrite (scalar_first_le1 _ Hle). unfold submenu_by_ids. rewrite Hs'.
    split; [|split]; intros Hrows.
    + rewrite Hrows. cbn [scalar_one_or_none]. cbv zeta. fold new_dish.
      unfold dish_record, rounded_price. cbn [Dish.price new_dish]. split.
      * now intros r ->.
      * now intros ->.
    + destruct rows as [|x [|y ys]]; simpl in Hrows; try discriminate. reflexivity.
    + apply scalar_raises in Hrows. now rewrite Hrows.
Qed.

(** Exercised: Borscht is held under s1 of the sample database; it is held
    twice after two creations; a dish priced 1E+26 is inserted and not
    answered. *)
Lemma async_create_dish_cases_witness :
  MainAsyncio.create_dish_for_submenu "d2" "m1" "s2" borscht sample_db
  = (HTTPException 400 "Dish already belongs to ather submenu", sample_db) /\
  MainAsyncio.create_dish_for_submenu "d3" "m1" "s3" borscht two_borscht_db
  = (Uncaught MultipleResultsFound, two_borscht_db) /\
  MainAsyncio.create_dish_for_submenu "d2" "m1" "s1"
                                      (DishSchemaAdd.mk "Caviar" "Black" price_1E26) sample_db
  = (Uncaught InvalidOperation,
     insert_dish (Dish.mk "d2" "Caviar" "Black" price_1E26 "s1") sample_db).
Proof.
  split; [|split].
  - assert (Hnd : NoDup (map SubMenu.id (submenus sample_db)))
      by (simpl; repeat constructor; simpl; intuition discriminate).
    apply (proj2 (async_create_dish_cases "d2" "m1" "s2" borscht sample_db Hnd)).
    + exists (SubMenu.mk "s2" "Salads" "Cold" "m1"). simpl; auto.
    + reflexivity.
  - assert (Hnd : NoDup (map SubMenu.id (submenus two_borscht_db)))
      by (simpl; repeat constructor; simpl; intuition discriminate).
    apply (proj2 (async_create_dish_cases "d3" "m1" "s3" borscht two_borscht_db Hnd)).
    + exists (SubMenu.mk "s3" "Salads" "Cold" "m1"). simpl; auto.
    + simpl. lia.
  - assert (Hnd : NoDup (map SubMenu.id (submenus sample_db)))
      by (simpl; repeat constructor; simpl; intuition discriminate).
    apply (proj2 (async_create_dish_cases
                    "d2" "m1" "s1" (DishSchemaAdd.mk "Caviar" "Black" price_1E26)
                    sample_db Hnd)).
    + exists (SubMenu.mk "s1" "Soups" "Hot" "m1"). simpl; auto.
    + reflexivity.
    + reflexivity.
Defined.

(** ** Creation in [main.py], exercised *)

(** [create_submenu_sync_spec] on the sample database: m9 is absent, Soups
    is held under m1, Desserts is held nowhere. *)
Lemma create_submenu_sync_spec_witness :
  Main.create_submenu_for_menu "s3" "m9" soups sample_db
  = (HTTPException 404 "menu not found", sample_db) /\
  Main.create_submenu_for_menu "s3" "m2" soups sample_db
  = (HTTPException 400 "Submenu already belongs to ather menu", sample_db) /\
  Main.create_submenu_for_menu "s3" "m1" soups sample_db
  = (JSONResponse (submenu_content (SubMenu.mk "s3" "Soups" "Hot" "m1")) 201,
     insert_submenu (SubMenu.mk "s3" "Soups" "Hot" "m1") sample_db).
Proof.
  split; [|split].
  - apply (proj1 (create_submenu_sync_spec "s3" "m9" soups sample_db)).
    simpl. intros m [<- | [<- | []]]; discriminate.
  - apply (proj2 (create_submenu_sync_spec "s3" "m2" soups sample_db)).
    + exists (Menu.mk "m2" "Dinner" "Served at night"). simpl; auto.
    + exists (SubMenu.mk "s1" "Soups" "Hot" "m1"). simpl. repeat split; auto. discriminate.
  - apply (proj2 (create_submenu_sync_spec "s3" "m1" soups sample_db)).
    + exists (Menu.mk "m1" "Lunch" "Served at noon"). simpl; auto.
    + simpl. intros (s & [<- | [<- | []]] & Hm & Ht); simpl in *; congruence.
Defined.

(** [create_dish_sync_spec] on the sample database: s9 is absent, Borscht
    is held under s1; a dish priced 1E+26 is inserted and not answered. *)
Lemma create_dish_sync_spec_witness :
  Main.create_dish_for_submenu "d2" "m1" "s9" borscht sample_db
  = (HTTPException 404 "Submenu not found", sample_db) /\
  Main.create_dish_for_submenu "d2" "m1" "s2" borscht sample_db
  = (HTTPException 400 "Dish already belongs to ather submenu", sample_db) /\
  Main.create_dish_for_submenu "d2" "m1" "s1" borscht sample_db
  = (JSONResponse (dish_content (Dish.mk "d2" "Borscht" "Beetroot"
                                         (Decimal.mk false 1250 (-2)) "s1") "12.50") 201,
     insert_dish (Dish.mk "d2" "Borscht" "Beetroot" (Decimal.mk false 1250 (-2)) "s1")
                 sample_db) /\
  Main.create_dish_for_submenu "d2" "m1" "s1" (DishSchemaAdd.mk "Caviar" "Black" price_1E26)
                               sample_db
  = (Uncaught InvalidOperation,
     insert_dish (Dish.mk "d2" "Caviar" "Black" price_1E26 "s1") sample_db).
Proof.
  split; [|split; [|split]].
  - apply (proj1 (create_dish_sync_spec "d2" "m1" "s9" borscht sample_db)).
    simpl. intros s [<- | [<- | []]] [_ H]; discriminate.
  - apply (proj2 (create_dish_sync_spec "d2" "m1" "s2" borscht sample_db)).
    + exists (SubMenu.mk "s2" "Salads" "Cold" "m1"). simpl; auto.
    + exists (Dish.mk "d1" "Borscht" "Beetroot" (Decimal.mk false 1250 (-2)) "s1").
      simpl. repeat split; auto. discriminate.
  - apply (proj2 (create_dish_sync_spec "d2" "m1" "s1" borscht sample_db))
      with (r := Decimal.mk false 1250 (-2)).
    + exists (SubMenu.mk "s1" "Soups" "Hot" "m1"). simpl; auto.
    + simpl. intros (d & [<- | []] & Hs & Ht); simpl in *; congruence.
    + reflexivity.
  - apply (proj2 (create_dish_sync_spec
                    "d2" "m1" "s1" (DishSchemaAdd.mk "Caviar" "Black" price_1E26) sample_db)).
    + exists (SubMenu.mk "s1" "Soups" "Hot" "m1"). simpl; auto.
    + simpl. intros (d & [<- | []] & Hs & Ht); simpl in *; congruence.
    + reflexivity.
Defined.

(** ** Updates and the title rule *)

Lemma in_unreplaced {A} (key : A -> ident) (k : ident) (u : A) (rows : list A) (r : A) :
  In r rows -> key r <> k -> In r (map (fun r => if key r =? k then u else r) rows).
Proof.
  intros Hin Hk. apply in_map_iff. exists r. split; [|exact Hin].
  apply String.eqb_neq in Hk. now rewrite Hk.
Qed.

Lemma in_replacing {A} (key : A -> ident) (k : ident) (u : A) (rows : list A) :
  (exists r, In r rows /\ key r = k) ->
  In u (map (fun r => if key r =? k then u else r) rows).
Proof.
  intros (r & Hin & Hk). apply in_map_iff. exists r. split; [|exact Hin].
  apply String.eqb_eq in Hk. now rewrite Hk.
Qed.

(** [update_submenu] of [main.py] checks no title: a submenu can be given a
    title that a submenu of another menu holds, although creating a
    submenu with that title under its menu is refused with 400; after the
    update the title is refused for creation under every existing menu. *)
Theorem update_skips_title_check
        (db : DB) (new_id menu_id submenu_id any_menu : ident)
        (submenu_data : SubMenuSchemaUpdate.t) :
  let title := SubMenuSchemaUpdate.title submenu_data in
  let description := SubMenuSchemaUpdate.description submenu_data in
  let updated := SubMenu.mk submenu_id title description menu_id in
  let db' := update_submenu_row updated db in
  let conflict := HTTPException 400 "Submenu already belongs to ather menu" in
  (exists s, In s (submenus db) /\ SubMenu.menu_id s = menu_id /\ SubMenu.id s = submenu_id) ->
  (exists t, In t (submenus db) /\ SubMenu.menu_id t <> menu_id /\
             SubMenu.id t <> submenu_id /\ SubMenu.title t = title) ->
  (exists m, In m (menus db) /\ Menu.id m = menu_id) ->
  (exists m, In m (menus db) /\ Menu.id m = any_menu) ->
  Main.create_submenu_for_menu new_id menu_id (SubMenuSchemaAdd.mk title description) db
  = (conflict, db) /\
  Main.update_submenu menu_id submenu_id submenu_data db
  = (JSONResponse (submenu_content updated) 200, db') /\
  Main.create_submenu_for_menu new_id any_menu (SubMenuSchemaAdd.mk title description) db'
  = (conflict, db').
Proof.
  intros title description updated db' conflict Hs Ht Hm Hany.
  assert (Hrefused : forall db0 m0,
             (exists m, In m (menus db0) /\ Menu.id m = m0) ->
             (exists r, In r (submenus db0) /\ SubMenu.menu_id r <> m0 /\
                        SubMenu.title r = title) ->
             Main.create_submenu_for_menu new_id m0 (SubMenuSchemaAdd.mk title description) db0
             = (conflict, db0)).
  { intros db0 m0 Hm0 (r & Hr & Hrm & Hrt). unfold Main.create_submenu_for_menu.
    destruct (menu_present_first _ _ Hm0) as (m & -> & _).
    destruct (first_exists
                (fun x => andb (negb (SubMenu.menu_id x =? m0)) (SubMenu.title x =? title))
                (submenus db0) r Hr) as [r' Hr'].
    { apply andb_true_iff. split; [apply negb_true_iff|]; [now apply String.eqb_neq|].
      now apply String.eqb_eq. }
    unfold submenu_title_elsewhere. cbn [SubMenuSchemaAdd.title]. now rewrite Hr'. }
  split; [|split].
  - apply Hrefused; [exact Hm|]. destruct Ht as (t & Hin & Hmt & _ & Htt). eauto.
  - unfold Main.update_submenu.
    destruct Hs as (s & Hin & Hsm & Hsi).
    destruct (first_exists
                (fun r => andb (SubMenu.menu_id r =? menu_id) (SubMenu.id r =? submenu_id))
                (submenus db) s Hin) as [s' Hs'].
    { apply andb_true_iff. split; now apply String.eqb_eq. }
    unfold submenu_by_ids. rewrite Hs'.
    apply first_filter_Some in Hs' as [_ Hp]. apply andb_true_iff in Hp as [H1 H2].
    apply String.eqb_eq in H1, H2. now rewrite H1, H2.
  - apply Hrefused; [exact Hany|].
    destruct (String.eqb_spec any_menu menu_id) as [-> | Hne].
    + destruct Ht as (t & Hin & Hmt & Hti & Htt). exists t. repeat split; auto.
      unfold db', update_submenu_row; simpl. now apply in_unreplaced.
    + exists updated. repeat split; auto.
      unfold db', update_submenu_row; simpl. apply in_replacing.
      destruct Hs as (s & Hin & _ & Hsi). eauto.
Qed.

(** Exercised: m2 of the sample database is given a submenu Stews, which
    is then renamed Soups, a title held under m1. *)
Lemma update_skips_title_check_witness :
  let db0 := insert_submenu (SubMenu.mk "s3" "Stews" "Slow" "m2") sample_db in
  let updated := SubMenu.mk "s3" "Soups" "Hot" "m2" in
  let db' := update_submenu_row updated db0 in
  let conflict := HTTPException 400 "Submenu already belongs to ather menu" in
  Main.create_submenu_for_menu "s4" "m2" (SubMenuSchemaAdd.mk "Soups" "Hot") db0
  = (conflict, db0) /\
  Main.update_submenu "m2" "s3" (SubMenuSchemaUpdate.mk "Soups" "Hot") db0
  = (JSONResponse (submenu_content updated) 200, db') /\
  Main.create_submenu_for_menu "s4" "m1" (SubMenuSchemaAdd.mk "Soups" "Hot") db'
  = (conflict, db').
Proof.
  apply (update_skips_title_check
           (insert_submenu (SubMenu.mk "s3" "Stews" "Slow" "m2") sample_db)
           "s4" "m2" "s3" "m1" (SubMenuSchemaUpdate.mk "Soups" "Hot")).
  - exists (SubMenu.mk "s3" "Stews" "Slow" "m2"). simpl; auto.
  - exists (SubMenu.mk "s1" "Soups" "Hot" "m1"). simpl.
    repeat split; auto; discriminate.
  - exists (Menu.mk "m2" "Dinner" "Served at night"). simpl; auto.
  - exists (Menu.mk "m1" "Lunch" "Served at noon"). simpl; auto.
Defined.

(** ** The price a creation echoes *)

Lemma pow10_nonzero (n : N) : (10 ^ n <> 0)%N.
Proof. apply N.pow_nonzero. discriminate. Qed.

(** A dish creation of either file that is answered echoes as price the
    text of a decimal with two places, of the sign of the price sent and
    of at most 28 digits.  A price sent with exactly two places is echoed
    as it is, the text an update would echo; a price with fewer places
    keeps its value; a price with more places is moved by at most half a
    unit of the second place, and a tie goes to the even neighbour. *)
Theorem created_price_echo
        (new_id menu_id submenu_id : ident) (dish_data : DishSchemaAdd.t)
        (db db' : DB) (content : json) (status : Z) :
  Main.create_dish_for_submenu new_id menu_id submenu_id dish_data db
  = (JSONResponse content status, db') \/
  MainAsyncio.create_dish_for_submenu new_id menu_id submenu_id dish_data db
  = (JSONResponse content status, db') ->
  let price := DishSchemaAdd.price dish_data in
  exists r,
    json_field "price" content = Some (JString (Decimal.str r)) /\
    Decimal.round price 2 = Some r /\
    Decimal.exp r = (-2)%Z /\
    Decimal.sign r = Decimal.sign price /\
    (Decimal.ndigits (Decimal.coeff r) <= 28)%Z /\
    (Decimal.exp price = (-2)%Z -> r = price) /\
    ((-2 <= Decimal.exp price)%Z ->
     Decimal.coeff r = (Decimal.coeff price * 10 ^ Z.to_N (Decimal.exp price + 2))%N) /\
    ((Decimal.exp price < -2)%Z ->
     let unit := (10 ^ Z.to_N (-2 - Decimal.exp price))%N in
     (2 * (Decimal.coeff r * unit) <= 2 * Decimal.coeff price + unit)%N /\
     (2 * Decimal.coeff price <= 2 * (Decimal.coeff r * unit) + unit)%N /\
     ((2 * (Decimal.coeff price mod unit))%N = unit -> N.even (Decimal.coeff r) = true)).
Proof.
  intros H price.
  destruct (create_dish_answered _ _ _ _ _ _ _ _ H) as (_ & _ & Hrecord & _ & _).
  apply dish_record_Some in Hrecord as (r & Hr & ->).
  cbn [Dish.price] in Hr. fold price in Hr.
  exists r. split; [reflexivity|]. split; [exact Hr|].
  split; [exact (round_exp _ _ _ Hr)|]. split; [exact (round_sign _ _ _ Hr)|].
  split; [exact (round_ndigits _ _ _ Hr)|].
  pose proof (round_rescale _ _ _ Hr) as Hres. change (- (2))%Z with (-2)%Z in Hres.
  split; [|split].
  - intros He. subst r. destruct price as [sg c e]. cbn [Decimal.exp] in He. subst e.
    unfold Decimal.rescale. cbn. now rewrite N.mul_1_r.
  - intros He. subst r. unfold Decimal.rescale.
    replace (-2 <=? Decimal.exp price)%Z with true by (symmetry; apply Z.leb_le; lia).
    cbn [Decimal.coeff].
    replace (Decimal.exp price - -2)%Z with (Decimal.exp price + 2)%Z by lia.
    reflexivity.
  - intros He. subst r. unfold Decimal.rescale.
    replace (-2 <=? Decimal.exp price)%Z with false by (symmetry; apply Z.leb_gt; lia).
    set (unit := (10 ^ Z.to_N (-2 - Decimal.exp price))%N).
    set (c := Decimal.coeff price).
    assert (Hunit : unit <> 0%N) by apply pow10_nonzero.
    pose proof (N.div_mod c unit Hunit) as Hdm.
    pose proof (N.mod_lt c unit Hunit) as Hlt.
    set (q := (c / unit)%N) in *. set (m := (c mod unit)%N) in *.
    cbn [Decimal.coeff].
    destruct (orb (unit <? 2 * m)%N (andb (2 * m =? unit)%N (N.odd q))) eqn:Hup.
    + apply orb_true_iff in Hup.
      assert (Hge : (unit <= 2 * m)%N).
      { destruct Hup as [Hup | Hup].
        - apply N.ltb_lt in Hup. lia.
        - apply andb_true_iff in Hup as [Hup _]. apply N.eqb_eq in Hup. lia. }
      repeat split; try nia.
      intros Htie. destruct Hup as [Hup | Hup].
      * apply N.ltb_lt in Hup. lia.
      * apply andb_true_iff in Hup as [_ Hodd].
        rewrite N.add_1_r, N.even_succ. exact Hodd.
    + apply orb_false_iff in Hup as [Hnlt Hntie]. apply N.ltb_ge in Hnlt.
      repeat split; try nia.
      intros Htie. apply andb_false_iff in Hntie as [Hne | Hodd].
      * apply N.eqb_neq in Hne. contradiction.
      * rewrite <- N.negb_odd, Hodd. reflexivity.
Qed.

(** Exercised: dishes priced 19.999, 0.125 (a tie, echoed as "0.12") and 5
    are created under submenu s1 of the sample database. *)
Lemma created_price_echo_witness :
  let create := fun price =>
    Main.create_dish_for_submenu "d2" "m1" "s1" (DishSchemaAdd.mk "Solyanka" "Sour" price)
                                 sample_db in
  let echo := fun price text =>
    create price
    = (JSONResponse (dish_content (Dish.mk "d2" "Solyanka" "Sour" price "s1") text) 201,
       insert_dish (Dish.mk "d2" "Solyanka" "Sour" price "s1") sample_db) in
  echo price_19_999 "20.00" /\
  echo (Decimal.mk false 125 (-3)) "0.12" /\
  echo (Decimal.mk false 5 0) "5.00" /\
  exists r,
    Decimal.round price_19_999 2 = Some r /\
    Decimal.exp r = (-2)%Z /\
    (2 * (Decimal.coeff r * 10) <= 2 * 19999 + 10)%N /\
    (2 * 19999 <= 2 * (Decimal.coeff r * 10) + 10)%N.
Proof.
  intros create echo.
  assert (H1 : echo price_19_999 "20.00") by reflexivity.
  assert (H2 : echo (Decimal.mk false 125 (-3)) "0.12") by reflexivity.
  assert (H3 : echo (Decimal.mk false 5 0) "5.00") by reflexivity.
  split; [exact H1|]. split; [exact H2|]. split; [exact H3|].
  destruct (created_price_echo _ _ _ _ _ _ _ _ (or_introl H1))
    as (r & _ & Hr & He & _ & _ & _ & _ & Hmore).
  exists r. split; [exact Hr|]. split; [exact He|].
  destruct Hmore as (Hlo & Hhi & _); [simpl; lia|].
  split; [exact Hlo | exact Hhi].
Defined.
